(** * Resilience layer of the Play.ai integration

    A shallow embedding of [playAiErrorHandling.js] (error classification,
    retry with backoff, fallback chain, resilient call wrapper, WebSocket
    monitor, circuit breaker), of the [usePlayAiWebSocket] hook, of the
    [createConversation] controller of [playAiConversation.js] with its
    socket handlers, and of the request functions of [playAiAuth.js] and
    [playAiTextToSpeech.js].

    Conventions of the embedding:
    - a JS number that holds a count is a [nat], an HTTP status is a [Z],
      a duration in milliseconds is a rational [Q] (the arithmetic of
      [Math.pow] and [Math.min] is taken over the rationals: the
      rounding of binary64 is not modelled);
    - a thrown value is an object read through its [message], [status]
      and [statusCode] properties, or a falsy value ([null], [undefined],
      [0], ...);
    - an async function is a state transformer that returns an [Outcome]:
      [Ok v] for a resolved promise, [Throw e] for a rejected one; calls
      are run one after the other;
    - [console.log], [console.warn] and [console.error] are not modelled. *)

From Stdlib Require Import List String Ascii Bool Arith ZArith QArith Lia Lqa.
From Stdlib Require Import QArith.Qminmax.
Import ListNotations.
Close Scope Q_scope.

Set Implicit Arguments.

(* ===================================================================== *)
(** ** JS values used by the module *)
(* ===================================================================== *)

(** [error.message], [error.status] and [error.statusCode]; a property
    that is absent reads [undefined], here [None]. *)
Record Error : Type := mkError {
  message : option string;
  status : option Z;
  statusCode : option Z
}.

(** [new Error(msg)] *)
Definition newError (msg : string) : Error :=
  {| message := Some msg; status := None; statusCode := None |}.

Definition Error_eqb (a b : Error) : bool :=
  let opt_eqb {A} (eqb : A -> A -> bool) (x y : option A) :=
    match x, y with
    | Some u, Some v => eqb u v
    | None, None => true
    | _, _ => false
    end in
  opt_eqb String.eqb (message a) (message b)
  && opt_eqb Z.eqb (status a) (status b)
  && opt_eqb Z.eqb (statusCode a) (statusCode b).

(** The falsy values of JS. *)
Inductive Falsy : Type :=
| JsUndefined
| JsNull
| JsFalse
| JsZero
| JsNaN
| JsEmptyString.

(** What a [throw] or a rejected promise carries: an object, read
    through its [message], [status] and [statusCode] properties, or a
    falsy value. A truthy primitive has none of the three properties
    and is read as an object without them. *)
Inductive Thrown : Type :=
| ErrorObject (e : Error)
| FalsyValue (v : Falsy).

Coercion ErrorObject : Error >-> Thrown.

(** [!!error] *)
Definition truthy (error : Thrown) : bool :=
  match error with
  | ErrorObject _ => true
  | FalsyValue _ => false
  end.

(** A thrown value as the argument of [classifyError]: [None] for a
    falsy one. *)
Definition asError (error : Thrown) : option Error :=
  match error with
  | ErrorObject e => Some e
  | FalsyValue _ => None
  end.

(** [a || b] on a value that may be [null] or falsy. *)
Definition thrown_or (a : option Thrown) (b : Thrown) : Thrown :=
  match a with
  | Some error => if truthy error then error else b
  | None => b
  end.

(** The result of awaiting a promise. *)
Inductive Outcome (A : Type) : Type :=
| Ok (v : A)
| Throw (e : Thrown).
Arguments Ok {A} v.
Arguments Throw {A} e.

(** [s.includes(sub)]: [sub] occurs in [s] (case-sensitive). *)
Fixpoint includes (s sub : string) : bool :=
  if String.prefix sub s then true
  else match s with
       | EmptyString => false
       | String _ rest => includes rest sub
       end.

(** [a || b] on a number that may be [undefined]: [undefined] and [0]
    are falsy. *)
Definition num_or (a : option Z) (b : Z) : Z :=
  match a with
  | Some x => if (x =? 0)%Z then b else x
  | None => b
  end.

(** [a || ''] on a string that may be [undefined]. *)
Definition str_or_empty (a : option string) : string :=
  match a with
  | Some s => s
  | None => EmptyString
  end.

(* ===================================================================== *)
(** ** playAiErrorHandling.js: ErrorTypes and classifyError *)
(* ===================================================================== *)

Inductive ErrorTypes : Type :=
| AUTHENTICATION
| NETWORK
| SERVER
| RATE_LIMIT
| VALIDATION
| PERMISSION
| RESOURCE_NOT_FOUND
| TIMEOUT
| UNKNOWN.

Definition ErrorTypes_eqb (a b : ErrorTypes) : bool :=
  match a, b with
  | AUTHENTICATION, AUTHENTICATION
  | NETWORK, NETWORK
  | SERVER, SERVER
  | RATE_LIMIT, RATE_LIMIT
  | VALIDATION, VALIDATION
  | PERMISSION, PERMISSION
  | RESOURCE_NOT_FOUND, RESOURCE_NOT_FOUND
  | TIMEOUT, TIMEOUT
  | UNKNOWN, UNKNOWN => true
  | _, _ => false
  end.

(** The ordered rules of [classifyError], on the values the function
    computes first: [message = error.message || ''] and
    [status = error.status || error.statusCode || 0]. [onLine] is the
    value of [navigator.onLine] read by the first rule. *)
Definition classifyRules (onLine : bool) (status : Z) (message : string)
  : ErrorTypes :=
  if includes message "network" || includes message "connection"
     || negb onLine
  then NETWORK
  else if (status =? 401)%Z || includes message "unauthorized"
          || includes message "authentication"
          || includes message "invalid credentials"
          || includes message "api key"
  then AUTHENTICATION
  else if (status =? 429)%Z || includes message "rate limit"
          || includes message "too many requests"
  then RATE_LIMIT
  else if (500 <=? status)%Z || includes message "server error"
          || includes message "internal error"
  then SERVER
  else if (status =? 400)%Z || includes message "validation"
          || includes message "invalid"
  then VALIDATION
  else if (status =? 403)%Z || includes message "permission"
          || includes message "forbidden"
  then PERMISSION
  else if (status =? 404)%Z || includes message "not found"
  then RESOURCE_NOT_FOUND
  else if includes message "timeout" || includes message "timed out"
  then TIMEOUT
  else UNKNOWN.

Definition effectiveMessage (error : Error) : string :=
  str_or_empty (message error).

Definition effectiveStatus (error : Error) : Z :=
  num_or (status error) (num_or (statusCode error) 0).

(** [classifyError(error)]; [None] is a falsy argument ([null],
    [undefined]). *)
Definition classifyError (onLine : bool) (error : option Error)
  : ErrorTypes :=
  match error with
  | None => UNKNOWN
  | Some err =>
      classifyRules onLine (effectiveStatus err) (effectiveMessage err)
  end.

(* ===================================================================== *)
(** ** The environment of an async call *)
(* ===================================================================== *)

(** What a call can touch: the state [ext] of the collaborators (the
    remote service, the callbacks' owner), the number of values drawn
    from [Math.random] so far, and the delays slept through
    [await new Promise(resolve => setTimeout(resolve, delay))], oldest
    first. *)
Record World (S : Type) : Type := mkWorld {
  ext : S;
  draws : nat;
  slept : list Q
}.

(** An async function with its arguments applied. *)
Definition Async (S A : Type) : Type := World S -> Outcome A * World S.

Definition setExt {S T : Type} (w : World S) (x : T) : World T :=
  {| ext := x; draws := draws w; slept := slept w |}.

(** [Math.random()]: the next value of the stream [rnd]. *)
Definition nextRandom {S : Type} (rnd : nat -> Q) (w : World S)
  : Q * World S :=
  (rnd (draws w),
   {| ext := ext w; draws := Datatypes.S (draws w); slept := slept w |}).

(** Awaiting a timeout of [delay] milliseconds. *)
Definition sleep {S : Type} (delay : Q) (w : World S) : World S :=
  {| ext := ext w; draws := draws w; slept := slept w ++ [delay] |}.

(** An optional callback [if (cb) cb(...)]. *)
Definition callIfSet {S : Type} (cb : option (Async S unit)) : Async S unit :=
  fun w => match cb with
           | Some f => f w
           | None => (Ok tt, w)
           end.

(* ===================================================================== *)
(** ** playAiErrorHandling.js: retryWithBackoff *)
(* ===================================================================== *)

(** The options bag of [retryWithBackoff]; an absent property takes the
    default of the destructuring pattern. *)
Record RetryOptions : Type := mkRetryOptions {
  maxRetries : option nat;
  baseDelay : option Q;
  maxDelay : option Q;
  shouldRetry : option (Thrown -> bool)
}.

(** [{}] *)
Definition noRetryOptions : RetryOptions :=
  {| maxRetries := None; baseDelay := None; maxDelay := None;
     shouldRetry := None |}.

Definition defaultShouldRetry (onLine : bool) (error : Thrown) : bool :=
  let errorType := classifyError onLine (asError error) in
  existsb (ErrorTypes_eqb errorType) [NETWORK; SERVER; TIMEOUT; RATE_LIMIT].

Definition orDefault {A : Type} (o : option A) (d : A) : A :=
  match o with
  | Some x => x
  | None => d
  end.

(** [Math.min(maxDelay, baseDelay * Math.pow(2, retries) *
    (0.8 + Math.random() * 0.4))], with [random] the value drawn. *)
Definition backoffDelay (baseDelay maxDelay : Q) (retries : nat) (random : Q)
  : Q :=
  Qmin maxDelay
       (baseDelay * (2 ^ Z.of_nat retries) * ((4 # 5) + random * (2 # 5)))%Q.

Section Retry.
Variables S A : Type.
(** [navigator.onLine] and the stream behind [Math.random]. *)
Variable onLine : bool.
Variable rnd : nat -> Q.

(** The [while (true)] loop, started with [retries] retries done;
    [fuel] bounds the number of iterations and [None] means the bound
    was reached. *)
Fixpoint retryLoop (fuel : nat) (fn : Async S A)
         (maxRetries : nat) (baseDelay maxDelay : Q)
         (shouldRetry : Thrown -> bool) (retries : nat) (w : World S)
  : option (Outcome A * World S) :=
  match fuel with
  | O => None
  | Datatypes.S fuel' =>
      match fn w with
      | (Ok v, w1) => Some (Ok v, w1)
      | (Throw error, w1) =>
          if (maxRetries <=? retries) || negb (shouldRetry error)
          then Some (Throw error, w1)
          else
            let (random, w2) := nextRandom rnd w1 in
            let delay := backoffDelay baseDelay maxDelay retries random in
            retryLoop fuel' fn maxRetries baseDelay maxDelay shouldRetry
                      (Datatypes.S retries) (sleep delay w2)
      end
  end.

Definition retryWithBackoffFuel (fuel : nat) (fn : Async S A)
           (options : RetryOptions) (w : World S)
  : option (Outcome A * World S) :=
  retryLoop fuel fn
            (orDefault (maxRetries options) 3)
            (orDefault (baseDelay options) 1000%Q)
            (orDefault (maxDelay options) 10000%Q)
            (orDefault (shouldRetry options) (defaultShouldRetry onLine))
            0 w.

(** The loop runs at most [maxRetries + 1] times, see
    [retryWithBackoff_enough_fuel]; with that fuel the function is total. The
    default branch is not reached. *)
Definition retryWithBackoff (fn : Async S A) (options : RetryOptions)
  : Async S A :=
  fun w =>
    match retryWithBackoffFuel
            (Datatypes.S (orDefault (maxRetries options) 3)) fn options w
    with
    | Some r => r
    | None => (Throw (newError "unreachable"), w)
    end.

(* =================================================================== *)
(** ** playAiErrorHandling.js: fallbackChain *)
(* =================================================================== *)

(** The [for (const fn of fns)] loop and the [throw] after it;
    [lastError] is [null] ([None]) until a function has failed, and
    [lastError || new Error(...)] is the last failure unless that is
    falsy. *)
Fixpoint fallbackLoop (fns : list (Async S A)) (lastError : option Thrown)
         (w : World S) : Outcome A * World S :=
  match fns with
  | [] =>
      (Throw (thrown_or lastError (newError "All fallback options failed")),
       w)
  | fn :: rest =>
      match fn w with
      | (Ok v, w1) => (Ok v, w1)
      | (Throw error, w1) => fallbackLoop rest (Some error) w1
      end
  end.

Definition fallbackChain (fns : list (Async S A)) : Async S A :=
  fun w =>
    match fns with
    | [] => (Throw (newError "No fallback functions provided"), w)
    | _ :: _ => fallbackLoop fns None w
    end.

(* =================================================================== *)
(** ** playAiErrorHandling.js: handleApiError, createResilientApiCall *)
(* =================================================================== *)

Record ErrorHandlers : Type := mkErrorHandlers {
  onAuthError : option (Thrown -> Async S unit);
  onNetworkError : option (Thrown -> Async S unit);
  onRateLimitError : option (Thrown -> Async S unit);
  onServerError : option (Thrown -> Async S unit);
  onValidationError : option (Thrown -> Async S unit);
  onPermissionError : option (Thrown -> Async S unit);
  onNotFoundError : option (Thrown -> Async S unit);
  onTimeoutError : option (Thrown -> Async S unit);
  onUnknownError : option (Thrown -> Async S unit)
}.

Definition noErrorHandlers : ErrorHandlers :=
  mkErrorHandlers None None None None None None None None None.

Definition handleApiError (error : Thrown) (handlers : ErrorHandlers)
  : Async S unit :=
  let errorType := classifyError onLine (asError error) in
  let run (h : option (Thrown -> Async S unit)) :=
    callIfSet (option_map (fun f => f error) h) in
  match errorType with
  | AUTHENTICATION => run (onAuthError handlers)
  | NETWORK => run (onNetworkError handlers)
  | RATE_LIMIT => run (onRateLimitError handlers)
  | SERVER => run (onServerError handlers)
  | VALIDATION => run (onValidationError handlers)
  | PERMISSION => run (onPermissionError handlers)
  | RESOURCE_NOT_FOUND => run (onNotFoundError handlers)
  | TIMEOUT => run (onTimeoutError handlers)
  | UNKNOWN => run (onUnknownError handlers)
  end.

(** The options bag of [createResilientApiCall]. The function reads
    [useRetry], [retryOptions], [fallbacks] and [errorHandlers]; any
    other property a caller puts in the bag, such as [circuitBreaker]
    (of type [CB] here), is not read. *)
Record CallOptions (CB : Type) : Type := mkCallOptions {
  useRetry : option bool;
  retryOptions : option RetryOptions;
  fallbacks : option (list (Async S A));
  errorHandlers : option ErrorHandlers;
  circuitBreaker : option CB
}.

(** The function returned by [createResilientApiCall(apiFn, options)],
    applied to its arguments; [apiFn] stands for [apiFn(...args)]. *)
Definition createResilientApiCall {CB : Type} (apiFn : Async S A)
           (options : CallOptions CB) : Async S A :=
  fun w =>
    let mainFn : Async S A :=
      if orDefault (useRetry options) true
      then retryWithBackoff apiFn
             (orDefault (retryOptions options) noRetryOptions)
      else apiFn in
    let tried :=
      match orDefault (fallbacks options) [] with
      | (_ :: _) as fbs => fallbackChain (mainFn :: fbs) w
      | [] => mainFn w
      end in
    match tried with
    | (Ok v, w1) => (Ok v, w1)
    | (Throw error, w1) =>
        match handleApiError error
                (orDefault (errorHandlers options) noErrorHandlers) w1 with
        | (Ok _, w2) => (Throw error, w2)
        | (Throw handlerError, w2) => (Throw handlerError, w2)
        end
    end.
End Retry.

(* ===================================================================== *)
(** ** The browser's timer facility *)
(* ===================================================================== *)

(** The timers set with [setTimeout] that have neither fired nor been
    cleared, as (handle, delay), oldest first; handles are the positive
    integers in increasing order, so that a handle is truthy. *)
Record Timers : Type := mkTimers {
  pending : list (nat * Q);
  nextHandle : nat
}.

Definition noTimers : Timers := {| pending := []; nextHandle := 1 |}.

Definition setTimeout (delay : Q) (t : Timers) : nat * Timers :=
  (nextHandle t,
   {| pending := pending t ++ [(nextHandle t, delay)];
      nextHandle := Datatypes.S (nextHandle t) |}).

Definition clearTimeout (handle : nat) (t : Timers) : Timers :=
  {| pending := filter (fun p => negb (fst p =? handle)) (pending t);
     nextHandle := nextHandle t |}.

Definition isPending (handle : nat) (t : Timers) : bool :=
  existsb (fun p => fst p =? handle) (pending t).

Definition delayOf (handle : nat) (t : Timers) : option Q :=
  option_map snd (find (fun p => fst p =? handle) (pending t)).

(* ===================================================================== *)
(** ** playAiErrorHandling.js: createCircuitBreaker *)
(* ===================================================================== *)

Module CircuitBreaker.

Inductive states : Type := CLOSED | OPEN | HALF_OPEN.

Section Breaker.
Variable S : Type.

(** The options bag; [failureThreshold] defaults to 5 and
    [resetTimeout] to 30000. *)
Record Options : Type := mkOptions {
  failureThreshold : option nat;
  resetTimeout : option Q;
  onOpen : option (Thrown -> Async S unit);
  onClose : option (Async S unit);
  onHalfOpen : option (Async S unit)
}.

(** The variables closed over by the breaker's methods, and the
    timers of the page. *)
Record Breaker : Type := mkBreaker {
  state : states;
  failures : nat;
  resetTimer : option nat;
  lastError : option Thrown;
  timers : Timers
}.

Definition create : Breaker :=
  {| state := CLOSED; failures := 0; resetTimer := None;
     lastError := None; timers := noTimers |}.

Variable options : Options.

Definition threshold : nat := orDefault (failureThreshold options) 5.
Definition timeout : Q := orDefault (resetTimeout options) 30000%Q.

Definition scheduleReset (b : Breaker) : Breaker :=
  let cleared :=
    match resetTimer b with
    | Some h => clearTimeout h (timers b)
    | None => timers b
    end in
  let (h, t) := setTimeout timeout cleared in
  {| state := state b; failures := failures b; resetTimer := Some h;
     lastError := lastError b; timers := t |}.

Definition setState (st : states) (b : Breaker) : Breaker :=
  {| state := st; failures := failures b; resetTimer := resetTimer b;
     lastError := lastError b; timers := timers b |}.

Definition setFailures (n : nat) (b : Breaker) : Breaker :=
  {| state := state b; failures := n; resetTimer := resetTimer b;
     lastError := lastError b; timers := timers b |}.

Definition setLastError (e : Thrown) (b : Breaker) : Breaker :=
  {| state := state b; failures := failures b;
     resetTimer := resetTimer b; lastError := Some e;
     timers := timers b |}.

(** [state = OPEN; scheduleReset(); if (onOpen) onOpen(error);] and
    the [throw error] that follows when the callback returns. *)
Definition openCircuit {A : Type} (error : Thrown) (b : Breaker)
           (w : World S) : Outcome A * Breaker * World S :=
  let b1 := scheduleReset (setState OPEN b) in
  match callIfSet (option_map (fun f => f error) (onOpen options)) w with
  | (Ok _, w1) => (Throw error, b1, w1)
  | (Throw cbError, w1) => (Throw cbError, b1, w1)
  end.

(** The [catch (error)] block of [execute]. *)
Definition onFailure {A : Type} (error : Thrown) (b : Breaker)
           (w : World S) : Outcome A * Breaker * World S :=
  let b1 := setLastError error b in
  match state b1 with
  | HALF_OPEN => openCircuit error b1 w
  | CLOSED =>
      let b2 := setFailures (Datatypes.S (failures b1)) b1 in
      if threshold <=? failures b2
      then openCircuit error b2 w
      else (Throw error, b2, w)
  | OPEN => (Throw error, b1, w)
  end.

(** [execute(fn)] *)
Definition execute {A : Type} (fn : Async S A) (b : Breaker)
           (w : World S) : Outcome A * Breaker * World S :=
  match state b with
  | OPEN => (Throw (newError "Circuit breaker is open"), b, w)
  | _ =>
      match fn w with
      | (Ok result, w1) =>
          match state b with
          | HALF_OPEN =>
              let b1 := setFailures 0 (setState CLOSED b) in
              match callIfSet (onClose options) w1 with
              | (Ok _, w2) => (Ok result, b1, w2)
              | (Throw cbError, w2) => onFailure cbError b1 w2
              end
          | _ => (Ok result, b, w1)
          end
      | (Throw error, w1) => onFailure error b w1
      end
  end.

(** The callback given to [setTimeout] by [scheduleReset], run when
    the timer [handle] fires; a timer that is not pending does not
    fire. An exception of [onHalfOpen] is lost with the callback. *)
Definition resetTimerFires (handle : nat) (b : Breaker) (w : World S)
  : Breaker * World S :=
  if isPending handle (timers b) then
    let b1 :=
      {| state := state b; failures := failures b;
         resetTimer := resetTimer b; lastError := lastError b;
         timers := clearTimeout handle (timers b) |} in
    match state b1 with
    | OPEN =>
        (setState HALF_OPEN b1, snd (callIfSet (onHalfOpen options) w))
    | _ => (b1, w)
    end
  else (b, w).

(** [reset()] *)
Definition reset (b : Breaker) (w : World S)
  : Outcome unit * Breaker * World S :=
  let b1 := setFailures 0 (setState CLOSED b) in
  let b2 :=
    match resetTimer b1 with
    | Some h =>
        {| state := state b1; failures := failures b1;
           resetTimer := None; lastError := lastError b1;
           timers := clearTimeout h (timers b1) |}
    | None => b1
    end in
  let (r, w1) := callIfSet (onClose options) w in
  (r, b2, w1).

Definition getState (b : Breaker) : states := state b.
Definition getFailureCount (b : Breaker) : nat := failures b.
Definition getLastError (b : Breaker) : option Thrown := lastError b.
End Breaker.

End CircuitBreaker.

(* ===================================================================== *)
(** ** playAiErrorHandling.js: monitorWebSocketConnection *)
(* ===================================================================== *)

Module Monitor.
Section Monitor.
Variable S : Type.

(** The options bag but [socket], which is the monitor's first
    [currentSocket]; a socket is named by a number.
    [maxReconnects] defaults to 5 and [reconnectDelay] to 1000. *)
Record Options : Type := mkOptions {
  createSocket : Async S nat;
  maxReconnects : option nat;
  reconnectDelay : option Q;
  onReconnect : option (nat -> Q -> Async S unit);
  onMaxReconnects : option (Async S unit)
}.

(** The variables closed over by the controller, the sockets that
    carry the [handleClose] listener, and the timers of the page. *)
Record Monitor : Type := mkMonitor {
  currentSocket : nat;
  reconnectAttempts : nat;
  reconnectTimeout : option nat;
  isMonitoring : bool;
  listening : list nat;
  timers : Timers
}.

Definition create (socket : nat) : Monitor :=
  {| currentSocket := socket; reconnectAttempts := 0;
     reconnectTimeout := None; isMonitoring := false;
     listening := []; timers := noTimers |}.

Variable options : Options.

Definition maxReconnects' : nat := orDefault (maxReconnects options) 5.
Definition reconnectDelay' : Q :=
  orDefault (reconnectDelay options) 1000%Q.

(** [reconnectDelay * Math.pow(1.5, reconnectAttempts - 1)], with
    [attempts] the counter after its increment. *)
Definition reconnectDelayFor (attempts : nat) : Q :=
  (reconnectDelay' * ((3 # 2) ^ Z.of_nat (attempts - 1)))%Q.

(** [handleClose(event)], with [wasClean] for [event.wasClean]. *)
Definition handleClose (wasClean : bool) (m : Monitor) (w : World S)
  : Outcome unit * Monitor * World S :=
  if negb (isMonitoring m) then (Ok tt, m, w)
  else if negb wasClean && (reconnectAttempts m <? maxReconnects') then
    let attempts := Datatypes.S (reconnectAttempts m) in
    let delay := reconnectDelayFor attempts in
    let m1 :=
      {| currentSocket := currentSocket m; reconnectAttempts := attempts;
         reconnectTimeout := reconnectTimeout m;
         isMonitoring := isMonitoring m; listening := listening m;
         timers := timers m |} in
    match callIfSet
            (option_map (fun f => f attempts delay) (onReconnect options))
            w with
    | (Throw cbError, w1) => (Throw cbError, m1, w1)
    | (Ok _, w1) =>
        let (h, t) := setTimeout delay (timers m1) in
        (Ok tt,
         {| currentSocket := currentSocket m1;
            reconnectAttempts := reconnectAttempts m1;
            reconnectTimeout := Some h;
            isMonitoring := isMonitoring m1; listening := listening m1;
            timers := t |},
         w1)
    end
  else if maxReconnects' <=? reconnectAttempts m then
    let (r, w1) := callIfSet (onMaxReconnects options) w in
    (r, m, w1)
  else (Ok tt, m, w).

(** The callback given to [setTimeout] by [handleClose], run when the
    timer [handle] fires. *)
Definition reconnectFires (handle : nat) (m : Monitor) (w : World S)
  : Monitor * World S :=
  if isPending handle (timers m) then
    let t := clearTimeout handle (timers m) in
    match createSocket options w with
    | (Ok socket, w1) =>
        ({| currentSocket := socket;
            reconnectAttempts := reconnectAttempts m;
            reconnectTimeout := reconnectTimeout m;
            isMonitoring := isMonitoring m;
            listening := listening m ++ [socket];
            timers := t |}, w1)
    | (Throw _, w1) =>
        ({| currentSocket := currentSocket m;
            reconnectAttempts := reconnectAttempts m;
            reconnectTimeout := reconnectTimeout m;
            isMonitoring := isMonitoring m;
            listening := listening m;
            timers := t |}, w1)
    end
  else (m, w).

(** [start()]; the result is [true], or [undefined] when the monitor
    runs already. *)
Definition start (m : Monitor) : option bool * Monitor :=
  if isMonitoring m then (None, m)
  else (Some true,
        {| currentSocket := currentSocket m; reconnectAttempts := 0;
           reconnectTimeout := reconnectTimeout m;
           isMonitoring := true;
           listening := listening m ++ [currentSocket m];
           timers := timers m |}).

(** [stop()] *)
Definition stop (m : Monitor) : option bool * Monitor :=
  if negb (isMonitoring m) then (None, m)
  else
    let (ref, t) :=
      match reconnectTimeout m with
      | Some h => (None, clearTimeout h (timers m))
      | None => (reconnectTimeout m, timers m)
      end in
    (Some true,
     {| currentSocket := currentSocket m;
        reconnectAttempts := reconnectAttempts m;
        reconnectTimeout := ref;
        isMonitoring := false;
        listening :=
          filter (fun k => negb (k =? currentSocket m)) (listening m);
        timers := t |}).

Definition getReconnectAttempts (m : Monitor) : nat :=
  reconnectAttempts m.
End Monitor.
End Monitor.

(* ===================================================================== *)
(** ** The browser's WebSocket objects *)
(* ===================================================================== *)

Module WebSocket.
Inductive ReadyState : Type := CONNECTING | OPEN | CLOSING | CLOSED.

Definition ReadyState_eqb (a b : ReadyState) : bool :=
  match a, b with
  | CONNECTING, CONNECTING | OPEN, OPEN
  | CLOSING, CLOSING | CLOSED, CLOSED => true
  | _, _ => false
  end.

(** The sockets created so far; socket [k] is the [k]-th one. *)
Definition Sockets : Type := list ReadyState.

Definition readyState (k : nat) (ss : Sockets) : option ReadyState :=
  nth_error ss k.

Fixpoint setReadyState (k : nat) (r : ReadyState) (ss : Sockets)
  : Sockets :=
  match ss, k with
  | [], _ => []
  | _ :: rest, O => r :: rest
  | x :: rest, Datatypes.S k' => x :: setReadyState k' r rest
  end.

(** [new WebSocket(url)] *)
Definition create (ss : Sockets) : nat * Sockets :=
  (List.length ss, ss ++ [CONNECTING]).

(** [socket.close(code, reason)]: starts the closing handshake
    unless the socket is closing or closed already. *)
Definition close (k : nat) (ss : Sockets) : Sockets :=
  match readyState k ss with
  | Some CONNECTING | Some OPEN => setReadyState k CLOSING ss
  | _ => ss
  end.

Definition isOpen (k : nat) (ss : Sockets) : bool :=
  match readyState k ss with
  | Some OPEN => true
  | _ => false
  end.
End WebSocket.

(** What [JSON.stringify] makes of a value: a string, or the exception
    it throws (for a circular structure, say). *)
Inductive Stringified : Type :=
| Json (s : string)
| StringifyThrows (err : Error).

(** What is handed to [sendMessage]: a string, or a value that goes
    through [JSON.stringify]. *)
Inductive Message : Type :=
| Text (s : string)
| Object (json : Stringified).

(* ===================================================================== *)
(** ** usePlayAiWebSocket *)
(* ===================================================================== *)

Module UsePlayAiWebSocket.

Inductive Status : Type := disconnected | connecting | connected | error.

Definition MAX_RECONNECT_ATTEMPTS : nat := 5.
Definition RECONNECT_DELAY : Q := 2000%Q.

(** The state and refs of the hook, the sockets and timers of the
    page, the frames handed to [socket.send], and the calls received
    by the callbacks [onStatusChange], [onError] and [onMessage],
    oldest first. The callbacks are observers: they return normally.
    [lastError] is the state variable [error], whose name is taken by
    the status ['error']. *)
Record Hook : Type := mkHook {
  status : Status;
  lastError : option Error;
  socketRef : option nat;
  reconnectTimeoutRef : option nat;
  reconnectAttemptsRef : nat;
  sockets : WebSocket.Sockets;
  timers : Timers;
  sent : list (nat * string);
  statusChanges : list Status;
  errors : list Error;
  messages : list string
}.

Definition initial : Hook :=
  {| status := disconnected; lastError := None; socketRef := None;
     reconnectTimeoutRef := None; reconnectAttemptsRef := 0;
     sockets := []; timers := noTimers; sent := [];
     statusChanges := []; errors := []; messages := [] |}.

Section Hook.
(** Which callbacks the caller passed, and the exception of
    [new WebSocket(wsUrl)] if the constructor rejects the URL. *)
Variables hasOnMessage hasOnError hasOnStatusChange : bool.
Variable constructorThrows : option Error.

Definition updateStatus (newStatus : Status) (h : Hook) : Hook :=
  {| status := newStatus; lastError := lastError h;
     socketRef := socketRef h;
     reconnectTimeoutRef := reconnectTimeoutRef h;
     reconnectAttemptsRef := reconnectAttemptsRef h;
     sockets := sockets h; timers := timers h; sent := sent h;
     statusChanges :=
       if hasOnStatusChange then statusChanges h ++ [newStatus]
       else statusChanges h;
     errors := errors h; messages := messages h |}.

Definition handleError (err : Error) (h : Hook) : Hook :=
  let h1 := updateStatus error h in
  {| status := status h1; lastError := Some err;
     socketRef := socketRef h1;
     reconnectTimeoutRef := reconnectTimeoutRef h1;
     reconnectAttemptsRef := reconnectAttemptsRef h1;
     sockets := sockets h1; timers := timers h1; sent := sent h1;
     statusChanges := statusChanges h1;
     errors := if hasOnError then errors h1 ++ [err] else errors h1;
     messages := messages h1 |}.

Definition setSocket (ref : option nat) (ss : WebSocket.Sockets)
           (h : Hook) : Hook :=
  {| status := status h; lastError := lastError h; socketRef := ref;
     reconnectTimeoutRef := reconnectTimeoutRef h;
     reconnectAttemptsRef := reconnectAttemptsRef h;
     sockets := ss; timers := timers h; sent := sent h;
     statusChanges := statusChanges h; errors := errors h;
     messages := messages h |}.

Definition setReconnect (ref : option nat) (t : Timers) (attempts : nat)
           (h : Hook) : Hook :=
  {| status := status h; lastError := lastError h;
     socketRef := socketRef h; reconnectTimeoutRef := ref;
     reconnectAttemptsRef := attempts;
     sockets := sockets h; timers := t; sent := sent h;
     statusChanges := statusChanges h; errors := errors h;
     messages := messages h |}.

(** [socketRef.current && (readyState === OPEN || readyState ===
    CONNECTING)] *)
Definition openOrConnecting (h : Hook) : bool :=
  match socketRef h with
  | Some k =>
      match WebSocket.readyState k (sockets h) with
      | Some WebSocket.OPEN | Some WebSocket.CONNECTING => true
      | _ => false
      end
  | None => false
  end.

(** [connect()] *)
Definition connect (h : Hook) : Hook :=
  if openOrConnecting h then h
  else
    let h1 := updateStatus connecting h in
    match constructorThrows with
    | Some err => handleError err h1
    | None =>
        let (k, ss) := WebSocket.create (sockets h1) in
        setSocket (Some k) ss h1
    end.

(** The handlers that [connect] puts on the socket it creates. *)
Definition onopen (h : Hook) : Hook :=
  let h1 := updateStatus connected h in
  setReconnect (reconnectTimeoutRef h1) (timers h1) 0 h1.

(** [data] is the parsed [event.data], [None] if [JSON.parse]
    throws. *)
Definition onmessage (data : option string) (h : Hook) : Hook :=
  match data with
  | Some d =>
      if hasOnMessage then
        {| status := status h; lastError := lastError h;
           socketRef := socketRef h;
           reconnectTimeoutRef := reconnectTimeoutRef h;
           reconnectAttemptsRef := reconnectAttemptsRef h;
           sockets := sockets h; timers := timers h; sent := sent h;
           statusChanges := statusChanges h; errors := errors h;
           messages := messages h ++ [d] |}
      else h
  | None => handleError (newError "Failed to parse message from server") h
  end.

Definition onerror (h : Hook) : Hook :=
  handleError (newError "WebSocket connection error") h.

Definition onclose (wasClean : bool) (h : Hook) : Hook :=
  let h1 := updateStatus disconnected h in
  if negb wasClean
     && (reconnectAttemptsRef h1 <? MAX_RECONNECT_ATTEMPTS) then
    let attempts := reconnectAttemptsRef h1 + 1 in
    let (t, tm) := setTimeout RECONNECT_DELAY (timers h1) in
    setReconnect (Some t) tm attempts h1
  else if MAX_RECONNECT_ATTEMPTS <=? reconnectAttemptsRef h1 then
    handleError (newError "Maximum reconnection attempts reached") h1
  else h1.

(** [disconnect()] *)
Definition disconnect (h : Hook) : Hook :=
  let h1 :=
    match reconnectTimeoutRef h with
    | Some t =>
        setReconnect None (clearTimeout t (timers h))
                     (reconnectAttemptsRef h) h
    | None => h
    end in
  match socketRef h1 with
  | Some k =>
      updateStatus disconnected
        (setSocket None (WebSocket.close k (sockets h1)) h1)
  | None => h1
  end.

(** [socketRef.current && socketRef.current.readyState ===
    WebSocket.OPEN] *)
Definition channelOpen (h : Hook) : bool :=
  match socketRef h with
  | Some k => WebSocket.isOpen k (sockets h)
  | None => false
  end.

(** [sendMessage(message)] and the hook after the call. *)
Definition sendMessage (message : Message) (h : Hook) : bool * Hook :=
  if negb (channelOpen h) then
    (false, handleError (newError "WebSocket is not connected") h)
  else
    let messageString :=
      match message with
      | Text s => Json s
      | Object json => json
      end in
    match messageString, socketRef h with
    | Json s, Some k =>
        (true,
         {| status := status h; lastError := lastError h;
            socketRef := socketRef h;
            reconnectTimeoutRef := reconnectTimeoutRef h;
            reconnectAttemptsRef := reconnectAttemptsRef h;
            sockets := sockets h; timers := timers h;
            sent := sent h ++ [(k, s)];
            statusChanges := statusChanges h; errors := errors h;
            messages := messages h |})
    | StringifyThrows err, _ => (false, handleError err h)
    | Json _, None =>
        (false, handleError (newError "WebSocket is not connected") h)
    end.

(** What the page and the caller do to the hook. A socket event
    reaches the handlers only in a ready state where the browser
    sends it, and a timer fires only while it is pending; its
    callback is [connect]. *)
Inductive Action : Type :=
| CallConnect
| CallDisconnect
| CallSendMessage (message : Message)
| SocketOpens (k : nat)
| SocketMessage (k : nat) (data : option string)
| SocketError (k : nat)
| SocketCloses (k : nat) (wasClean : bool)
| TimerFires (t : nat).

Definition setSockets (ss : WebSocket.Sockets) (h : Hook) : Hook :=
  setSocket (socketRef h) ss h.

Definition step (h : Hook) (a : Action) : Hook :=
  match a with
  | CallConnect => connect h
  | CallDisconnect => disconnect h
  | CallSendMessage m => snd (sendMessage m h)
  | SocketOpens k =>
      match WebSocket.readyState k (sockets h) with
      | Some WebSocket.CONNECTING =>
          onopen
            (setSockets
               (WebSocket.setReadyState k WebSocket.OPEN (sockets h)) h)
      | _ => h
      end
  | SocketMessage k data =>
      match WebSocket.readyState k (sockets h) with
      | Some WebSocket.OPEN => onmessage data h
      | _ => h
      end
  | SocketError k =>
      match WebSocket.readyState k (sockets h) with
      | Some WebSocket.CLOSED | None => h
      | _ => onerror h
      end
  | SocketCloses k wasClean =>
      match WebSocket.readyState k (sockets h) with
      | Some WebSocket.CLOSED | None => h
      | _ =>
          onclose wasClean
            (setSockets
               (WebSocket.setReadyState k WebSocket.CLOSED (sockets h))
               h)
      end
  | TimerFires t =>
      if isPending t (timers h) then
        connect
          (setReconnect (reconnectTimeoutRef h)
                        (clearTimeout t (timers h))
                        (reconnectAttemptsRef h) h)
      else h
  end.

Definition run (h : Hook) (actions : list Action) : Hook :=
  fold_left step actions h.
End Hook.
End UsePlayAiWebSocket.

(* ===================================================================== *)
(** ** playAiConversation.js: createConversation *)
(* ===================================================================== *)

Module Conversation.

Inductive Status : Type := disconnected | connecting | connected | error.

(** The variables closed over by the controller ([recording] stands
    for [mediaRecorder && mediaRecorder.state === 'recording']), the
    sockets of the page, the [user_message] frames handed to
    [socket.send] as (socket, text, conversation id), and the calls
    received by [onStatusChange] and [onError]. *)
Record Conversation : Type := mkConversation {
  socket : option nat;
  status : Status;
  recording : bool;
  conversationId : option string;
  sockets : WebSocket.Sockets;
  sent : list (nat * string * option string);
  statusChanges : list Status;
  errors : list Error
}.

Definition create : Conversation :=
  {| socket := None; status := disconnected; recording := false;
     conversationId := None; sockets := []; sent := [];
     statusChanges := []; errors := [] |}.

Section Conversation.
Variables hasOnError hasOnStatusChange : bool.

Definition updateStatus (newStatus : Status) (c : Conversation)
  : Conversation :=
  {| socket := socket c; status := newStatus; recording := recording c;
     conversationId := conversationId c; sockets := sockets c;
     sent := sent c;
     statusChanges :=
       if hasOnStatusChange then statusChanges c ++ [newStatus]
       else statusChanges c;
     errors := errors c |}.

Definition notifyError (err : Error) (c : Conversation) : Conversation :=
  {| socket := socket c; status := status c; recording := recording c;
     conversationId := conversationId c; sockets := sockets c;
     sent := sent c; statusChanges := statusChanges c;
     errors := if hasOnError then errors c ++ [err] else errors c |}.

(** [disconnect()]; it returns [true]. *)
Definition disconnect (c : Conversation) : bool * Conversation :=
  let c1 :=
    {| socket := socket c; status := status c; recording := false;
       conversationId := conversationId c; sockets := sockets c;
       sent := sent c; statusChanges := statusChanges c;
       errors := errors c |} in
  let c2 :=
    match socket c1 with
    | Some k =>
        {| socket := None; status := status c1;
           recording := recording c1;
           conversationId := conversationId c1;
           sockets := WebSocket.close k (sockets c1);
           sent := sent c1; statusChanges := statusChanges c1;
           errors := errors c1 |}
    | None => c1
    end in
  (true, updateStatus disconnected c2).

(** [socket && socket.readyState === WebSocket.OPEN] *)
Definition channelOpen (c : Conversation) : bool :=
  match socket c with
  | Some k => WebSocket.isOpen k (sockets c)
  | None => false
  end.

(** [sendTextMessage(text)] and the controller after the call. *)
Definition sendTextMessage (text : string) (c : Conversation)
  : bool * Conversation :=
  match socket c with
  | Some k =>
      if WebSocket.isOpen k (sockets c) then
        (true,
         {| socket := socket c; status := status c;
            recording := recording c;
            conversationId := conversationId c; sockets := sockets c;
            sent := sent c ++ [(k, text, conversationId c)];
            statusChanges := statusChanges c; errors := errors c |})
      else (false, notifyError (newError "WebSocket is not connected") c)
  | None => (false, notifyError (newError "WebSocket is not connected") c)
  end.

Definition getStatus (c : Conversation) : Status := status c.
End Conversation.
End Conversation.

(* ===================================================================== *)
(** ** Counting the invocations of an operation *)
(* ===================================================================== *)

(** [counted fn] behaves as [fn] on the first component of the
    collaborators' state and adds one to the second component at each
    invocation. *)
Definition counted {S A : Type} (fn : Async S A) : Async (S * nat) A :=
  fun w =>
    let (r, w1) := fn (setExt w (fst (ext w))) in
    (r, setExt w1 (ext w1, Datatypes.S (snd (ext w)))).

(** [tagged i fn] behaves as [fn] and appends [i] to the list of the
    operations invoked so far. *)
Definition tagged {S A : Type} (i : nat) (fn : Async S A)
  : Async (S * list nat) A :=
  fun w =>
    let (r, w1) := fn (setExt w (fst (ext w))) in
    (r, setExt w1 (ext w1, snd (ext w) ++ [i])).

Fixpoint tagAllFrom {S A : Type} (i : nat) (fns : list (Async S A))
  : list (Async (S * list nat) A) :=
  match fns with
  | [] => []
  | fn :: rest => tagged i fn :: tagAllFrom (Datatypes.S i) rest
  end.

Definition tagAll {S A : Type} (fns : list (Async S A))
  : list (Async (S * list nat) A) :=
  tagAllFrom 0 fns.

(** A world whose collaborators' state is [x], with nothing drawn and
    nothing slept. *)
Definition freshWorld {S : Type} (x : S) : World S :=
  {| ext := x; draws := 0; slept := [] |}.

(** [failAll fns lastError w] runs [fns] in order while each of them
    fails: the last failure and the world left by the last function if
    all of them fail, [None] if one succeeds. *)
Fixpoint failAll {S A : Type} (fns : list (Async S A))
         (lastError : option Thrown) (w : World S)
  : option (option Thrown * World S) :=
  match fns with
  | [] => Some (lastError, w)
  | fn :: rest =>
      match fn w with
      | (Ok _, _) => None
      | (Throw e, w1) => failAll rest (Some e) w1
      end
  end.

(** A timer is spent when its handle has been given out and it is no
    longer pending: it has fired or it has been cleared. *)
Definition spent (t : nat) (tm : Timers) : Prop :=
  t < nextHandle tm /\ isPending t tm = false.

(* ===================================================================== *)
(** ** Sample operations *)
(* ===================================================================== *)

(** An always-failing operation for the examples: the message mentions
    the network, so the failure is classified as Network. *)
Definition networkDown : Async unit nat :=
  fun w => (Throw (newError "network down"), w).

(** An operation that is rejected with status 400. *)
Definition badRequest : Async unit nat :=
  fun w => (Throw (mkError (Some "bad request"%string) (Some 400%Z) None), w).

Definition threeRetries : RetryOptions :=
  {| maxRetries := Some 3; baseDelay := None; maxDelay := None;
     shouldRetry := None |}.

Definition halves : nat -> Q := fun _ => (1 # 2)%Q.

(** An operation that resolves with [v]. *)
Definition resolves {S A : Type} (v : A) : Async S A :=
  fun w => (Ok v, w).

(** An operation that rejects with [new Error(msg)]. *)
Definition rejects {S A : Type} (msg : string) : Async S A :=
  fun w => (Throw (newError msg), w).

(** An operation that rejects with the value [error]. *)
Definition rejectsWith {S A : Type} (error : Thrown) : Async S A :=
  fun w => (Throw error, w).

(** A breaker created without options, and the breaker left by [n]
    calls of [execute] with an operation that fails. *)
Definition noBreakerOptions : CircuitBreaker.Options unit :=
  {| CircuitBreaker.failureThreshold := None;
     CircuitBreaker.resetTimeout := None;
     CircuitBreaker.onOpen := None;
     CircuitBreaker.onClose := None;
     CircuitBreaker.onHalfOpen := None |}.

Fixpoint afterFailures (n : nat) : CircuitBreaker.Breaker :=
  match n with
  | O => CircuitBreaker.create
  | Datatypes.S n' =>
      snd (fst (CircuitBreaker.execute noBreakerOptions
                  (rejects (A := nat) "boom") (afterFailures n')
                  (freshWorld tt)))
  end.

(** A bag of options for [createResilientApiCall] that holds nothing but
    a circuit breaker. *)
Definition onlyBreaker {S A CB : Type} (cb : CB) : CallOptions S A CB :=
  {| useRetry := None; retryOptions := None; fallbacks := None;
     errorHandlers := None; circuitBreaker := Some cb |}.

Definition withBreaker {S A CB CB' : Type} (cb : option CB')
           (options : CallOptions S A CB) : CallOptions S A CB' :=
  {| useRetry := useRetry options; retryOptions := retryOptions options;
     fallbacks := fallbacks options; errorHandlers := errorHandlers options;
     circuitBreaker := cb |}.

(** A monitor created with [createSocket] alone. *)
Definition noMonitorOptions : Monitor.Options unit :=
  {| Monitor.createSocket := resolves 1;
     Monitor.maxReconnects := None;
     Monitor.reconnectDelay := None;
     Monitor.onReconnect := None;
     Monitor.onMaxReconnects := None |}.

(** An operation on a counter: it fails with a network error while the
    counter is below [k], adding one to it, and then resolves with the
    counter. *)
Definition failsUntil (k : nat) : Async nat nat :=
  fun w =>
    if ext w <? k
    then (Throw (newError "network down"), setExt w (Datatypes.S (ext w)))
    else (Ok (ext w), w).

(** Handlers that each append the kind they stand for to the state. *)
Definition logKind (k : ErrorTypes)
  : option (Thrown -> Async (list ErrorTypes) unit) :=
  Some (fun _ w => (Ok tt, setExt w (ext w ++ [k]))).

Definition loggingHandlers : ErrorHandlers (list ErrorTypes) :=
  {| onAuthError := logKind AUTHENTICATION;
     onNetworkError := logKind NETWORK;
     onRateLimitError := logKind RATE_LIMIT;
     onServerError := logKind SERVER;
     onValidationError := logKind VALIDATION;
     onPermissionError := logKind PERMISSION;
     onNotFoundError := logKind RESOURCE_NOT_FOUND;
     onTimeoutError := logKind TIMEOUT;
     onUnknownError := logKind UNKNOWN |}.

(** The words and phrases that [classifyError] looks for in a message. *)
Definition keywords : list string :=
  ["network"; "connection"; "unauthorized"; "authentication";
   "invalid credentials"; "api key"; "rate limit"; "too many requests";
   "server error"; "internal error"; "validation"; "invalid";
   "permission"; "forbidden"; "not found"; "timeout"; "timed out"]%string.

(** The breaker's timer discipline: while the breaker is open, exactly
    one timer is pending, the one held in [resetTimer], with the delay
    [resetTimeout]; in the other states no timer is pending. *)
Definition timerDiscipline {S : Type} (options : CircuitBreaker.Options S)
           (b : CircuitBreaker.Breaker) : Prop :=
  match CircuitBreaker.state b with
  | CircuitBreaker.OPEN =>
      exists h,
        CircuitBreaker.resetTimer b = Some h
        /\ pending (CircuitBreaker.timers b)
           = [(h, CircuitBreaker.timeout options)]
  | _ => pending (CircuitBreaker.timers b) = []
  end.

(** The breaker's count discipline: the failure count never exceeds the
    threshold and stays below it while the breaker is closed. *)
Definition countDiscipline {S : Type} (options : CircuitBreaker.Options S)
           (b : CircuitBreaker.Breaker) : Prop :=
  CircuitBreaker.failures b <= CircuitBreaker.threshold options
  /\ (CircuitBreaker.state b = CircuitBreaker.CLOSED ->
      CircuitBreaker.failures b < CircuitBreaker.threshold options).

(** The string [sendMessage] hands to the socket for a message, [None]
    when [JSON.stringify] throws. *)
Definition serialised (message : Message) : option string :=
  match message with
  | Text s => Some s
  | Object (Json s) => Some s
  | Object (StringifyThrows _) => None
  end.

(** A message with a circular structure. *)
Definition circular : Message :=
  Object (StringifyThrows (newError "Converting circular structure to JSON")).

(* ===================================================================== *)
(** ** playAiConversation.js: the socket handlers of createConversation *)
(* ===================================================================== *)

Module ConversationEvents.

(** The fields of a parsed frame that the controller reads; an absent
    field reads [undefined], here [None]. *)
Record Data : Type := mkData {
  type : string;
  conversation_id : option string;
  audio_url : option string;
  message : option string
}.

(** What [JSON.parse(event.data)] makes of a frame: the data, or the
    exception that the handler's [catch] receives, an error object. *)
Inductive Frame : Type :=
| Parses (data : Data)
| Malformed (err : Error).

(** The controller with the calls received by [onMessage],
    [onTranscript] and [onAudioResponse], oldest first. The audio
    context created by [onopen] is not modelled. *)
Record Session : Type := mkSession {
  conv : Conversation.Conversation;
  messages : list Data;
  transcripts : list Data;
  audioResponses : list string
}.

Definition create : Session :=
  {| conv := Conversation.create; messages := []; transcripts := [];
     audioResponses := [] |}.

Section Handlers.
Variables hasOnMessage hasOnTranscript hasOnAudioResponse : bool.
Variables hasOnError hasOnStatusChange : bool.
(** The exception of [new WebSocket(...)], if it throws. *)
Variable constructorThrows : option Error.

Definition withConv (c : Conversation.Conversation) (s : Session)
  : Session :=
  {| conv := c; messages := messages s; transcripts := transcripts s;
     audioResponses := audioResponses s |}.

Definition updateStatus (newStatus : Conversation.Status) (s : Session)
  : Session :=
  withConv (Conversation.updateStatus hasOnStatusChange newStatus (conv s)) s.

Definition notifyError (err : Error) (s : Session) : Session :=
  withConv (Conversation.notifyError hasOnError err (conv s)) s.

Definition notifyMessage (data : Data) (s : Session) : Session :=
  if hasOnMessage
  then {| conv := conv s; messages := messages s ++ [data];
          transcripts := transcripts s;
          audioResponses := audioResponses s |}
  else s.

Definition notifyTranscript (data : Data) (s : Session) : Session :=
  if hasOnTranscript
  then {| conv := conv s; messages := messages s;
          transcripts := transcripts s ++ [data];
          audioResponses := audioResponses s |}
  else s.

(** [connect()] and its result. *)
Definition connect (s : Session) : bool * Session :=
  let s1 := updateStatus Conversation.connecting s in
  match constructorThrows with
  | Some err => (false, notifyError err (updateStatus Conversation.error s1))
  | None =>
      let c := conv s1 in
      let (k, ss) := WebSocket.create (Conversation.sockets c) in
      (true,
       withConv
         {| Conversation.socket := Some k;
            Conversation.status := Conversation.status c;
            Conversation.recording := Conversation.recording c;
            Conversation.conversationId := Conversation.conversationId c;
            Conversation.sockets := ss;
            Conversation.sent := Conversation.sent c;
            Conversation.statusChanges := Conversation.statusChanges c;
            Conversation.errors := Conversation.errors c |}
         s1)
  end.

Definition onopen (s : Session) : Session :=
  updateStatus Conversation.connected s.

(** [data.audio_url && onAudioResponse]: an empty string is falsy. *)
Definition audioToPlay (data : Data) : option string :=
  match audio_url data with
  | Some url =>
      if (String.eqb url "" || negb hasOnAudioResponse)%bool then None
      else Some url
  | None => None
  end.

(** [socket.onmessage]; [parsed] is the outcome of
    [JSON.parse(event.data)]. *)
Definition onmessage (parsed : Frame) (s : Session) : Session :=
  match parsed with
  | Malformed err => notifyError err s
  | Parses data =>
      if String.eqb (type data) "conversation_started" then
        let c := conv s in
        notifyMessage data
          (withConv
             {| Conversation.socket := Conversation.socket c;
                Conversation.status := Conversation.status c;
                Conversation.recording := Conversation.recording c;
                Conversation.conversationId := conversation_id data;
                Conversation.sockets := Conversation.sockets c;
                Conversation.sent := Conversation.sent c;
                Conversation.statusChanges := Conversation.statusChanges c;
                Conversation.errors := Conversation.errors c |}
             s)
      else if String.eqb (type data) "transcript" then
        notifyTranscript data s
      else if String.eqb (type data) "agent_response" then
        let s1 := notifyMessage data s in
        match audioToPlay data with
        | Some url =>
            {| conv := conv s1; messages := messages s1;
               transcripts := transcripts s1;
               audioResponses := audioResponses s1 ++ [url] |}
        | None => s1
        end
      else if String.eqb (type data) "error" then
        notifyError (newError (str_or_empty (message data))) s
      else notifyMessage data s
  end.

Definition onerror (s : Session) : Session :=
  notifyError (newError "WebSocket connection error")
              (updateStatus Conversation.error s).

Definition onclose (s : Session) : Session :=
  let s1 := updateStatus Conversation.disconnected s in
  let c := conv s1 in
  withConv
    {| Conversation.socket := Conversation.socket c;
       Conversation.status := Conversation.status c;
       Conversation.recording := false;
       Conversation.conversationId := Conversation.conversationId c;
       Conversation.sockets := Conversation.sockets c;
       Conversation.sent := Conversation.sent c;
       Conversation.statusChanges := Conversation.statusChanges c;
       Conversation.errors := Conversation.errors c |}
    s1.
End Handlers.
End ConversationEvents.

(* ===================================================================== *)
(** ** playAiAuth.js and playAiTextToSpeech.js: requests *)
(* ===================================================================== *)

Module Api.

Inductive JsonValue : Type :=
| JString (s : string)
| JNumber (q : Q).

(** The arguments of [fetch]: the URL and, of the init object, the
    method, the headers and the members of the JSON body. *)
Record Request : Type := mkRequest {
  url : string;
  method : string;
  headers : list (string * string);
  body : option (list (string * JsonValue))
}.

(** A chunk read from a response body: its length and what
    [decodeAudioData] makes of it. *)
Record Chunk (Audio : Type) : Type := mkChunk {
  size : nat;
  decoded : Outcome Audio
}.

(** What the wrappers read of a response: [ok], the HTTP [status]
    (which none of them reads), the outcomes of [json()] and [text()],
    and the reads of [body.getReader()] up to the end of the stream, a
    [Throw] being a read that rejects. *)
Record Response (J Audio : Type) : Type := mkResponse {
  ok : bool;
  status : Z;
  json : Outcome J;
  text : Outcome string;
  chunks : list (Outcome (Chunk Audio))
}.

(** The [text] option of the text-to-speech functions: a string or a
    value of another type ([undefined] included). *)
Inductive TextArg : Type :=
| TextIs (s : string)
| NotAString.

Record TtsOptions : Type := mkTtsOptions {
  ttsText : TextArg;
  voiceId : option string;
  speed : option Q;
  pitch : option Q;
  format : option string
}.

(** The calls received by the callbacks of [streamTextToSpeech], oldest
    first. *)
Record StreamLog (Audio : Type) : Type := mkStreamLog {
  audioChunks : list Audio;
  completions : nat;
  streamErrors : list Thrown
}.

Definition PLAY_AI_BASE_URL : string := "https://api.play.ai/v1".

Section Api.
Variables S J Audio : Type.
(** The module's credentials, the page's [fetch], and the two members
    read of a parsed body: [message], and whether [valid === true]. *)
Variables PLAY_AI_USER_ID PLAY_AI_API_KEY : string.
Variable fetch : Request -> Async S (Response J Audio).
Variable messageOf : J -> option string.
Variable validIsTrue : J -> bool.

Definition getAuthHeaders : list (string * string) :=
  [("Content-Type", "application/json");
   ("X-User-ID", PLAY_AI_USER_ID);
   ("X-API-Key", PLAY_AI_API_KEY)]%string.

(** [a || fallback] on a string that may be [undefined]; the empty
    string is falsy. *)
Definition str_or (a : option string) (fallback : string) : string :=
  match a with
  | Some s => if String.eqb s "" then fallback else s
  | None => fallback
  end.

(** [const errorData = await response.json();
     throw new Error(errorData.message || fallback)]: the value
    thrown. *)
Definition failureOf (fallback : string) (response : Response J Audio)
  : Thrown :=
  match json response with
  | Ok errorData =>
      ErrorObject (newError (str_or (messageOf errorData) fallback))
  | Throw err => err
  end.

(** The body shared by the GET functions ([validateCredentials],
    [getAccountInfo], [getAvailableVoices]) up to their last line: the
    request, the test of [response.ok] and the parsed body. *)
Definition getJson (path fallback : string) : Async S J :=
  fun w =>
    match fetch {| url := PLAY_AI_BASE_URL ++ path; method := "GET";
                   headers := getAuthHeaders; body := None |} w with
    | (Throw err, w1) => (Throw err, w1)
    | (Ok response, w1) =>
        if negb (ok response) then (Throw (failureOf fallback response), w1)
        else (json response, w1)
    end.

(** [validateCredentials()] *)
Definition validateCredentials : Async S bool :=
  fun w =>
    match getJson "/auth/validate" "Failed to validate Play.ai credentials" w
    with
    | (Ok data, w1) => (Ok (validIsTrue data), w1)
    | (Throw err, w1) => (Throw err, w1)
    end.

(** [getAccountInfo()] *)
Definition getAccountInfo : Async S J :=
  getJson "/account" "Failed to get account information".

(** [initializePlayAi()]; the result stands for
    [{initialized: true, accountInfo}]. *)
Definition initializePlayAi : Async S (bool * J) :=
  fun w =>
    match validateCredentials w with
    | (Throw err, w1) => (Throw err, w1)
    | (Ok isValid, w1) =>
        if negb isValid
        then (Throw (newError "Invalid Play.ai credentials"), w1)
        else
          match getAccountInfo w1 with
          | (Ok accountInfo, w2) => (Ok (true, accountInfo), w2)
          | (Throw err, w2) => (Throw err, w2)
          end
    end.

(** [getAvailableVoices()] *)
Definition getAvailableVoices : Async S J :=
  getJson "/tts/voices" "Failed to get available voices".

(** [!text || typeof text !== 'string'] *)
Definition badText (t : TextArg) : bool :=
  match t with
  | TextIs s => String.eqb s ""
  | NotAString => true
  end.

Definition textOf (t : TextArg) : string :=
  match t with
  | TextIs s => s
  | NotAString => ""
  end.

(** [textToSpeech(options)] *)
Definition textToSpeech (options : TtsOptions) : Async S J :=
  fun w =>
    if badText (ttsText options)
    then (Throw (newError "Text is required and must be a string"), w)
    else
      match fetch
              {| url := PLAY_AI_BASE_URL ++ "/tts/synthesize";
                 method := "POST";
                 headers := getAuthHeaders;
                 body :=
                   Some [("text", JString (textOf (ttsText options)));
                         ("voice_id",
                          JString (orDefault (voiceId options)
                                             "en-US-Neural2-F"));
                         ("speed_factor",
                          JNumber (orDefault (speed options) 1%Q));
                         ("pitch_factor",
                          JNumber (orDefault (pitch options) 1%Q));
                         ("output_format",
                          JString (orDefault (format options) "mp3"))]%string
              |} w with
      | (Throw err, w1) => (Throw err, w1)
      | (Ok response, w1) =>
          if negb (ok response)
          then (Throw (failureOf "Failed to convert text to speech" response),
                w1)
          else (json response, w1)
      end.

Section Stream.
Variables hasOnAudioChunk hasOnComplete hasOnError : bool.

Definition logError (err : Thrown) (log : StreamLog Audio)
  : StreamLog Audio :=
  if hasOnError
  then {| audioChunks := audioChunks log; completions := completions log;
          streamErrors := streamErrors log ++ [err] |}
  else log.

(** The [while (true)] loop over [reader.read()], on the reads that
    are left. *)
Fixpoint readAll (reads : list (Outcome (Chunk Audio)))
         (log : StreamLog Audio) : Outcome unit * StreamLog Audio :=
  match reads with
  | [] => (Ok tt, log)
  | Throw err :: _ => (Throw err, log)
  | Ok value :: rest =>
      if size value =? 0 then readAll rest log
      else
        match decoded value with
        | Throw err => (Throw err, log)
        | Ok audioBuffer =>
            readAll rest
              (if hasOnAudioChunk
               then {| audioChunks := audioChunks log ++ [audioBuffer];
                       completions := completions log;
                       streamErrors := streamErrors log |}
               else log)
        end
  end.

(** [streamTextToSpeech(options)] with the calls its callbacks receive;
    [format] is not an option of this function. The audio context is
    not modelled. *)
Definition streamTextToSpeech (options : TtsOptions)
           (log : StreamLog Audio) (w : World S)
  : Outcome unit * StreamLog Audio * World S :=
  if badText (ttsText options) then
    let error := newError "Text is required and must be a string" in
    (Throw error, logError error log, w)
  else
    match fetch
            {| url := PLAY_AI_BASE_URL ++ "/tts/stream";
               method := "POST";
               headers := getAuthHeaders ++ [("Accept", "audio/mpeg")]%string;
               body :=
                 Some [("text", JString (textOf (ttsText options)));
                       ("voice_id",
                        JString (orDefault (voiceId options)
                                           "en-US-Neural2-F"));
                       ("speed_factor",
                        JNumber (orDefault (speed options) 1%Q));
                       ("pitch_factor",
                        JNumber (orDefault (pitch options) 1%Q))]%string
            |} w with
    | (Throw err, w1) => (Throw err, logError err log, w1)
    | (Ok response, w1) =>
        if negb (ok response) then
          match text response with
          | Throw err => (Throw err, logError err log, w1)
          | Ok errorText =>
              let error :=
                newError (str_or (Some errorText)
                                 "Failed to stream text to speech") in
              (Throw error, logError error (logError error log), w1)
          end
        else
          match readAll (chunks response) log with
          | (Throw err, log1) => (Throw err, logError err log1, w1)
          | (Ok _, log1) =>
              (Ok tt,
               if hasOnComplete
               then {| audioChunks := audioChunks log1;
                       completions := Datatypes.S (completions log1);
                       streamErrors := streamErrors log1 |}
               else log1,
               w1)
          end
    end.
End Stream.
End Api.
End Api.

(** [logged fetch] behaves as [fetch] and appends the URL of each
    request to the list of the URLs requested so far. *)
Definition logged {S R : Type} (fetch : Api.Request -> Async S R)
  : Api.Request -> Async (S * list string) R :=
  fun request w =>
    let (r, w1) := fetch request (setExt w (fst (ext w))) in
    (r, setExt w1 (ext w1, snd (ext w) ++ [Api.url request])).

(** A server for the examples: a parsed body is a pair of its [valid]
    and [message] members, audio is a number. Every request is
    answered 503 with an empty JSON object. *)
Definition serverDown
  : Api.Request -> Async unit (Api.Response (bool * option string) nat) :=
  fun _ w =>
    (Ok {| Api.ok := false; Api.status := 503%Z;
           Api.json := Ok (false, None); Api.text := Ok ""%string;
           Api.chunks := [] |}, w).

(** Every request is answered 200 with [{valid: true}] and a body of
    three chunks, the second of which is empty. *)
Definition serverUp
  : Api.Request -> Async unit (Api.Response (bool * option string) nat) :=
  fun _ w =>
    (Ok {| Api.ok := true; Api.status := 200%Z;
           Api.json := Ok (true, None); Api.text := Ok ""%string;
           Api.chunks :=
             [Ok {| Api.size := 4; Api.decoded := Ok 11 |};
              Ok {| Api.size := 0; Api.decoded := Ok 12 |};
              Ok {| Api.size := 8; Api.decoded := Ok 13 |}] |}, w).

Definition sayHello : Api.TtsOptions :=
  {| Api.ttsText := Api.TextIs "hello"; Api.voiceId := None;
     Api.speed := None; Api.pitch := None; Api.format := None |}.

Definition emptyLog : Api.StreamLog nat :=
  {| Api.audioChunks := []; Api.completions := 0; Api.streamErrors := [] |}.

(** Every request is answered 200 with [{valid: false}]. *)
Definition serverInvalid
  : Api.Request -> Async unit (Api.Response (bool * option string) nat) :=
  fun _ w =>
    (Ok {| Api.ok := true; Api.status := 200%Z;
           Api.json := Ok (false, None); Api.text := Ok ""%string;
           Api.chunks := [] |}, w).



(* ===================================================================== *)
(** * Properties *)
(* ===================================================================== *)

(** ** Classification *)

Example classify_401 :
  classifyError true
    (Some (mkError (Some "unauthorized"%string) (Some 401%Z) None))
  = AUTHENTICATION.
Proof. reflexivity. Qed.

Example classify_statusCode_503 :
  classifyError true (Some (mkError None None (Some 503%Z))) = SERVER.
Proof. reflexivity. Qed.

Example classify_null : classifyError false None = UNKNOWN.
Proof. reflexivity. Qed.

Lemma classifyRules_offline (st : Z) (msg : string) :
  classifyRules false st msg = NETWORK.
Proof.
  unfold classifyRules.
  replace (includes msg "network" || includes msg "connection" || negb false)
    with true by (now rewrite orb_true_r).
  reflexivity.
Qed.

(** C7, as stated, fails: the first rule of [classifyError] reads
    [navigator.onLine], so the same (status, message) pair classifies as
    Authentication while the browser is online and as Network while it
    is offline. *)
Lemma classifyError_reads_connectivity :
  classifyError true
    (Some (mkError (Some "unauthorized"%string) (Some 401%Z) None))
  <> classifyError false
       (Some (mkError (Some "unauthorized"%string) (Some 401%Z) None)).
Proof. vm_compute. discriminate. Qed.

(** C7, amended: the kind returned by [classifyError] is determined by
    the failure's effective status and message together with the
    connectivity signal [navigator.onLine]: two failures with the same
    status and message classify alike under the same connectivity, and
    while the browser is offline every failure object classifies as
    Network. *)
Theorem classifyError_function_of_status_message_onLine :
  (forall (onLine : bool) (e1 e2 : Error),
      effectiveStatus e1 = effectiveStatus e2 ->
      effectiveMessage e1 = effectiveMessage e2 ->
      classifyError onLine (Some e1) = classifyError onLine (Some e2))
  /\ (forall e : Error, classifyError false (Some e) = NETWORK).
Proof.
  split.
  - intros onLine e1 e2 Hst Hmsg. unfold classifyError.
    now rewrite Hst, Hmsg.
  - intros e. apply classifyRules_offline.
Qed.

Lemma classifyError_function_witness :
  classifyError true (Some (mkError (Some "gone"%string) None (Some 404%Z)))
  = classifyError true
      (Some (mkError (Some "gone"%string) (Some 404%Z) (Some 500%Z))).
Proof.
  apply (proj1 classifyError_function_of_status_message_onLine);
    reflexivity.
Defined.

(** ** Retry *)

Lemma setExt_ext {S : Type} (w : World S) : setExt w (ext w) = w.
Proof. now destruct w. Qed.

Lemma setExt_setExt {S T U : Type} (w : World S) (x : T) (y : U) :
  setExt (setExt w x) y = setExt w y.
Proof. reflexivity. Qed.

Lemma counted_eq {S A : Type} (fn : Async S A) (w : World S) (n : nat) :
  counted fn (setExt w (ext w, n))
  = (fst (fn w), setExt (snd (fn w)) (ext (snd (fn w)), Datatypes.S n)).
Proof.
  unfold counted. cbn [ext setExt fst snd]. rewrite setExt_setExt.
  rewrite setExt_ext. now destruct (fn w).
Qed.

Lemma nextRandom_setExt {S T : Type} (rnd : nat -> Q) (w : World S) (x : T) :
  nextRandom rnd (setExt w x)
  = (fst (nextRandom rnd w), setExt (snd (nextRandom rnd w)) x).
Proof. reflexivity. Qed.

Lemma sleep_setExt {S T : Type} (d : Q) (w : World S) (x : T) :
  sleep d (setExt w x) = setExt (sleep d w) x.
Proof. reflexivity. Qed.

Section RetryFacts.
Variables S A : Type.
Variable rnd : nat -> Q.
Variable fn : Async S A.
Variable maxR : nat.
Variables base cap : Q.
Variable pred : Thrown -> bool.

(** The loop ends within [maxR - retries + 1] iterations. *)
Lemma retryLoop_enough_fuel :
  forall (fuel retries : nat) (w : World S),
    maxR - retries < fuel ->
    exists r, retryLoop rnd fuel fn maxR base cap pred retries w = Some r.
Proof.
  induction fuel as [|fuel IH]; intros retries w Hlt; [lia|].
  cbn [retryLoop]. destruct (fn w) as [[v|e] w1]; [eauto|].
  destruct (Nat.leb_spec maxR retries) as [Hle|Hgt]; cbn [orb]; [eauto|].
  destruct (pred e); cbn [negb]; [|eauto].
  cbn [nextRandom]. apply IH. lia.
Qed.

(** More fuel does not change a result. *)
Lemma retryLoop_fuel_mono :
  forall (fuel fuel' retries : nat) (w : World S) r,
    retryLoop rnd fuel fn maxR base cap pred retries w = Some r ->
    fuel <= fuel' ->
    retryLoop rnd fuel' fn maxR base cap pred retries w = Some r.
Proof.
  induction fuel as [|fuel IH]; intros fuel' retries w r Hrun Hle;
    [discriminate|].
  destruct fuel' as [|fuel']; [lia|].
  cbn [retryLoop] in *. destruct (fn w) as [[v|e] w1]; [assumption|].
  destruct ((maxR <=? retries) || negb (pred e)); [assumption|].
  cbn [nextRandom] in *. apply IH with (fuel' := fuel') in Hrun; [|lia].
  exact Hrun.
Qed.

(** A failure that the predicate rejects ends the loop at once. *)
Lemma retryLoop_not_retryable :
  forall (fuel retries n : nat) (w w1 : World S) (e : Thrown),
    fn w = (Throw e, w1) ->
    pred e = false ->
    retryLoop rnd (Datatypes.S fuel) (counted fn) maxR base cap pred retries
              (setExt w (ext w, n))
    = Some (Throw e, setExt w1 (ext w1, Datatypes.S n)).
Proof.
  intros fuel retries n w w1 e Hfn Hpred. cbn [retryLoop].
  rewrite counted_eq, Hfn. cbn [fst snd]. rewrite Hpred.
  now rewrite orb_true_r.
Qed.

(** An operation that always fails with a failure the predicate
    accepts is invoked once per remaining retry and once more; the
    loop then surfaces the failure of that last invocation. *)
Lemma retryLoop_always_failing :
  (forall w, exists e w1, fn w = (Throw e, w1) /\ pred e = true) ->
  forall (k retries fuel n : nat) (w : World S),
    maxR = retries + k ->
    k < fuel ->
    exists e wlast w1,
      retryLoop rnd fuel (counted fn) maxR base cap pred retries
                (setExt w (ext w, n))
      = Some (Throw e, setExt w1 (ext w1, n + k + 1))
      /\ fn wlast = (Throw e, w1).
Proof.
  intros Hfail. induction k as [|k IH]; intros retries fuel n w Hmax Hfuel.
  - destruct fuel as [|fuel]; [lia|].
    destruct (Hfail w) as (e & w1 & Hfn & Hpred).
    exists e, w, w1. split; [|assumption].
    cbn [retryLoop]. rewrite counted_eq, Hfn. cbn [fst snd].
    replace (maxR <=? retries) with true
      by (symmetry; apply Nat.leb_le; lia).
    cbn [orb]. replace (n + 0 + 1) with (Datatypes.S n) by lia.
    reflexivity.
  - destruct fuel as [|fuel]; [lia|].
    destruct (Hfail w) as (e & w1 & Hfn & Hpred).
    cbn [retryLoop]. rewrite counted_eq, Hfn. cbn [fst snd].
    replace (maxR <=? retries) with false
      by (symmetry; apply Nat.leb_gt; lia).
    rewrite Hpred. cbn [orb negb].
    rewrite nextRandom_setExt. cbn [fst snd]. rewrite sleep_setExt.
    set (w2 := sleep _ _).
    replace (ext w1) with (ext w2) by reflexivity.
    destruct (IH (Datatypes.S retries) fuel (Datatypes.S n) w2)
      as (e' & wlast & w3 & Hrun & Hlast); [lia|lia|].
    exists e', wlast, w3. split; [|assumption].
    replace (n + Datatypes.S k + 1) with (Datatypes.S n + k + 1) by lia.
    exact Hrun.
Qed.
End RetryFacts.

(** [retryWithBackoff] is total: the fuel it gives the loop is enough,
    and more fuel gives the same result. *)
Lemma retryWithBackoff_enough_fuel {S A : Type} (onLine : bool)
      (rnd : nat -> Q) (fn : Async S A) (options : RetryOptions)
      (w : World S) (fuel : nat) :
  orDefault (maxRetries options) 3 < fuel ->
  retryWithBackoffFuel onLine rnd fuel fn options w
  = Some (retryWithBackoff onLine rnd fn options w).
Proof.
  intros Hfuel. unfold retryWithBackoff, retryWithBackoffFuel.
  destruct (@retryLoop_enough_fuel S A rnd fn
              (orDefault (maxRetries options) 3)
              (orDefault (baseDelay options) 1000%Q)
              (orDefault (maxDelay options) 10000%Q)
              (orDefault (shouldRetry options) (defaultShouldRetry onLine))
              (Datatypes.S (orDefault (maxRetries options) 3)) 0 w)
    as [r Hrun]; [lia|].
  rewrite Hrun. apply retryLoop_fuel_mono with (1 := Hrun). lia.
Qed.

Lemma defaultShouldRetry_kinds (onLine : bool) (e : Thrown) :
  defaultShouldRetry onLine e = true
  <-> In (classifyError onLine (asError e))
         [NETWORK; SERVER; TIMEOUT; RATE_LIMIT].
Proof.
  unfold defaultShouldRetry.
  destruct (classifyError onLine (asError e)); cbn; intuition discriminate.
Qed.

Example retry_networkDown_runs :
  retryWithBackoff true halves (counted networkDown) threeRetries
                   (freshWorld (tt, 0))
  = (Throw (newError "network down"),
     {| ext := (tt, 4); draws := 3;
        slept := [backoffDelay 1000 10000 0 (1 # 2);
                  backoffDelay 1000 10000 1 (1 # 2);
                  backoffDelay 1000 10000 2 (1 # 2)] |}).
Proof. reflexivity. Qed.

(** C5: with [maxRetries = 3], an operation that always fails with a
    failure accepted by the retry predicate is invoked exactly four
    times, and [retryWithBackoff] then rejects with the very failure of
    the last invocation. *)
Theorem retryWithBackoff_always_failing_four_invocations :
  forall (S A : Type) (onLine : bool) (rnd : nat -> Q) (fn : Async S A)
         (options : RetryOptions),
    maxRetries options = Some 3 ->
    (forall w, exists e w1,
        fn w = (Throw e, w1)
        /\ orDefault (shouldRetry options) (defaultShouldRetry onLine) e
           = true) ->
    forall w : World S,
    exists e wlast w1,
      retryWithBackoff onLine rnd (counted fn) options (setExt w (ext w, 0))
      = (Throw e, setExt w1 (ext w1, 4))
      /\ fn wlast = (Throw e, w1).
Proof.
  intros S A onLine rnd fn options Hmax Hfail w.
  unfold retryWithBackoff, retryWithBackoffFuel. rewrite Hmax.
  cbn [orDefault].
  destruct (@retryLoop_always_failing S A rnd fn 3
              (orDefault (baseDelay options) 1000%Q)
              (orDefault (maxDelay options) 10000%Q) _ Hfail
              3 0 4 0 w eq_refl)
    as (e & wlast & w1 & Hrun & Hlast); [lia|].
  exists e, wlast, w1. split; [|assumption].
  now rewrite Hrun.
Qed.

Lemma retryWithBackoff_four_invocations_witness :
  exists e wlast w1,
    retryWithBackoff true halves (counted networkDown) threeRetries
                     (setExt (freshWorld tt) (ext (freshWorld tt), 0))
    = (Throw e, setExt w1 (ext w1, 4))
    /\ networkDown wlast = (Throw e, w1).
Proof.
  apply (@retryWithBackoff_always_failing_four_invocations
           unit nat true halves networkDown threeRetries).
  - reflexivity.
  - intros w. exists (newError "network down"), w. split; reflexivity.
Defined.

(** C9: the default predicate accepts exactly the kinds Network, Server,
    Timeout and RateLimit, and under it an operation whose failure is
    classified as Validation is invoked exactly once: the failure is
    propagated without a retry. *)
Theorem retryWithBackoff_validation_invoked_once :
  (forall (onLine : bool) (e : Thrown),
      defaultShouldRetry onLine e = true
      <-> In (classifyError onLine (asError e))
             [NETWORK; SERVER; TIMEOUT; RATE_LIMIT])
  /\ (forall (S A : Type) (onLine : bool) (rnd : nat -> Q) (fn : Async S A)
             (options : RetryOptions) (w w1 : World S) (e : Thrown),
         shouldRetry options = None ->
         fn w = (Throw e, w1) ->
         classifyError onLine (asError e) = VALIDATION ->
         retryWithBackoff onLine rnd (counted fn) options
                          (setExt w (ext w, 0))
         = (Throw e, setExt w1 (ext w1, 1))).
Proof.
  split; [exact defaultShouldRetry_kinds|].
  intros S A onLine rnd fn options w w1 e Hdefault Hfn Hkind.
  unfold retryWithBackoff, retryWithBackoffFuel.
  rewrite Hdefault. cbn [orDefault].
  rewrite (@retryLoop_not_retryable S A rnd fn _ _ _ _ _ 0 0 w w1 e Hfn).
  - reflexivity.
  - unfold defaultShouldRetry. now rewrite Hkind.
Qed.

Lemma retryWithBackoff_validation_witness :
  retryWithBackoff true halves (counted badRequest) threeRetries
                   (setExt (freshWorld tt) (ext (freshWorld tt), 0))
  = (Throw (mkError (Some "bad request"%string) (Some 400%Z) None),
     setExt (freshWorld tt) (ext (freshWorld tt), 1)).
Proof.
  apply (proj2 retryWithBackoff_validation_invoked_once
               unit nat true halves badRequest threeRetries
               (freshWorld tt) (freshWorld tt)
               (ErrorObject
                  (mkError (Some "bad request"%string) (Some 400%Z) None))).
  - reflexivity.
  - reflexivity.
  - reflexivity.
Defined.

(** ** Fallback chain *)

Lemma tagged_eq {S A : Type} (i : nat) (fn : Async S A) (w : World S)
      (log : list nat) :
  tagged i fn (setExt w (ext w, log))
  = (fst (fn w), setExt (snd (fn w)) (ext (snd (fn w)), log ++ [i])).
Proof.
  unfold tagged. cbn [ext setExt fst snd]. rewrite setExt_setExt.
  rewrite setExt_ext. now destruct (fn w).
Qed.

(** The functions of a prefix that all fail are invoked one after the
    other, in the order of the list, and the loop goes on with the rest
    of the list and the failure of the last of them. *)
Lemma fallbackLoop_failing_prefix {S A : Type} :
  forall (pre rest : list (Async S A)) (i : nat) (last last' : option Thrown)
         (log : list nat) (w w1 : World S),
    failAll pre last w = Some (last', w1) ->
    fallbackLoop (tagAllFrom i (pre ++ rest)) last (setExt w (ext w, log))
    = fallbackLoop (tagAllFrom (i + List.length pre) rest) last'
                   (setExt w1 (ext w1, log ++ seq i (List.length pre))).
Proof.
  induction pre as [|fn pre IH]; intros rest i last last' log w w1 Hall.
  - cbn in Hall. injection Hall as <- <-. cbn [app List.length seq].
    now rewrite Nat.add_0_r, app_nil_r.
  - cbn [failAll] in Hall. cbn [app tagAllFrom fallbackLoop].
    rewrite tagged_eq. destruct (fn w) as [[v|e] w2]; [discriminate|].
    cbn [fst snd]. rewrite (IH rest (Datatypes.S i) _ last' _ _ w1 Hall).
    cbn [List.length seq]. rewrite <- app_assoc. cbn [app].
    now rewrite Nat.add_succ_r.
Qed.

Example fallbackChain_short_circuit :
  fallbackChain
    (tagAll [rejects "A failed"; resolves 7; resolves 9])
    (freshWorld (tt, []))
  = (Ok 7, freshWorld (tt, [0; 1])).
Proof. reflexivity. Qed.

(** C6, as stated, fails: when the last function rejects with a falsy
    value, here [null], the chain does not raise that failure but its
    own 'All fallback options failed' error. *)
Lemma fallbackChain_replaces_falsy_failure :
  rejectsWith (A := nat) (FalsyValue JsNull) (freshWorld tt)
  = (Throw (FalsyValue JsNull), freshWorld tt)
  /\ fallbackChain
       [rejects "A failed"; rejectsWith (A := nat) (FalsyValue JsNull)]
       (freshWorld tt)
     = (Throw (ErrorObject (newError "All fallback options failed")),
        freshWorld tt)
  /\ ErrorObject (newError "All fallback options failed")
     <> FalsyValue JsNull.
Proof. repeat split. discriminate. Qed.

(** C6, amended: on an empty list [fallbackChain] rejects at once with
    the error for an empty chain and invokes nothing; otherwise it
    invokes the functions in the order of the list; the first one that
    succeeds gives the result and the functions after it are not
    invoked; if all fail, the chain raises the failure of the last
    function when that failure is truthy, and its own 'All fallback
    options failed' error when it is falsy. The list in the second
    component of the state records the positions of the functions
    invoked, in order of invocation. *)
Theorem fallbackChain_order_first_success_last_failure :
  forall S A : Type,
    (forall w : World (S * list nat),
        fallbackChain (tagAll (@nil (Async S A))) w
        = (Throw (ErrorObject (newError "No fallback functions provided")),
           w))
    /\ (forall (pre post : list (Async S A)) (fn : Async S A)
               (w w1 w2 : World S) (v : A) (last : option Thrown),
           failAll pre None w = Some (last, w1) ->
           fn w1 = (Ok v, w2) ->
           fallbackChain (tagAll (pre ++ fn :: post)) (setExt w (ext w, []))
           = (Ok v, setExt w2 (ext w2, seq 0 (Datatypes.S (List.length pre)))))
    /\ (forall (pre : list (Async S A)) (fn : Async S A)
               (w w1 w2 : World S) (e : Thrown) (last : option Thrown),
           failAll pre None w = Some (last, w1) ->
           fn w1 = (Throw e, w2) ->
           fallbackChain (tagAll (pre ++ [fn])) (setExt w (ext w, []))
           = (Throw (if truthy e then e
                     else ErrorObject
                            (newError "All fallback options failed")),
              setExt w2 (ext w2, seq 0 (Datatypes.S (List.length pre))))).
Proof.
  intros S A. split; [reflexivity|]. split.
  - intros pre post fn w w1 w2 v last Hall Hfn.
    assert (Hloop :
              fallbackLoop (tagAll (pre ++ fn :: post)) None
                           (setExt w (ext w, []))
              = (Ok v,
                 setExt w2 (ext w2, seq 0 (Datatypes.S (List.length pre))))).
    { unfold tagAll. rewrite (fallbackLoop_failing_prefix _ _ _ _ _ _ Hall).
      cbn [tagAllFrom fallbackLoop Nat.add app]. rewrite tagged_eq, Hfn.
      cbn [fst snd]. now rewrite seq_S. }
    unfold fallbackChain. destruct pre; exact Hloop.
  - intros pre fn w w1 w2 e last Hall Hfn.
    assert (Hloop :
              fallbackLoop (tagAll (pre ++ [fn])) None (setExt w (ext w, []))
              = (Throw (if truthy e then e
                        else ErrorObject
                               (newError "All fallback options failed")),
                 setExt w2 (ext w2, seq 0 (Datatypes.S (List.length pre))))).
    { unfold tagAll. rewrite (fallbackLoop_failing_prefix _ _ _ _ _ _ Hall).
      cbn [tagAllFrom fallbackLoop Nat.add app]. rewrite tagged_eq, Hfn.
      cbn [fst snd thrown_or]. now rewrite seq_S. }
    unfold fallbackChain. destruct pre; exact Hloop.
Qed.

Lemma fallbackChain_witness :
  fallbackChain
    (tagAll ([rejects "A failed"] ++ resolves 7 :: [resolves 9]))
    (setExt (freshWorld tt) (ext (freshWorld tt), []))
  = (Ok 7, setExt (freshWorld tt) (ext (freshWorld tt), seq 0 2))
  /\ fallbackChain
       (tagAll ([rejects "A failed"; rejects "B failed"]
                  ++ [rejects (A := nat) "C failed"]))
       (setExt (freshWorld tt) (ext (freshWorld tt), []))
     = (Throw (if truthy (ErrorObject (newError "C failed"))
               then ErrorObject (newError "C failed")
               else ErrorObject (newError "All fallback options failed")),
        setExt (freshWorld tt) (ext (freshWorld tt), seq 0 3))
  /\ fallbackChain
       (tagAll ([rejects "A failed"]
                  ++ [rejectsWith (A := nat) (FalsyValue JsNull)]))
       (setExt (freshWorld tt) (ext (freshWorld tt), []))
     = (Throw (if truthy (FalsyValue JsNull)
               then FalsyValue JsNull
               else ErrorObject (newError "All fallback options failed")),
        setExt (freshWorld tt) (ext (freshWorld tt), seq 0 2)).
Proof.
  split; [|split].
  - apply (proj1 (proj2 (fallbackChain_order_first_success_last_failure
                           unit nat))
             [rejects "A failed"] [resolves 9] (resolves 7)
             (freshWorld tt) (freshWorld tt) (freshWorld tt) 7
             (Some (ErrorObject (newError "A failed")))).
    + reflexivity.
    + reflexivity.
  - apply (proj2 (proj2 (fallbackChain_order_first_success_last_failure
                           unit nat))
             [rejects "A failed"; rejects "B failed"] (rejects "C failed")
             (freshWorld tt) (freshWorld tt) (freshWorld tt)
             (ErrorObject (newError "C failed"))
             (Some (ErrorObject (newError "B failed")))).
    + reflexivity.
    + reflexivity.
  - apply (proj2 (proj2 (fallbackChain_order_first_success_last_failure
                           unit nat))
             [rejects "A failed"] (rejectsWith (FalsyValue JsNull))
             (freshWorld tt) (freshWorld tt) (freshWorld tt)
             (FalsyValue JsNull)
             (Some (ErrorObject (newError "A failed")))).
    + reflexivity.
    + reflexivity.
Defined.

(** ** Circuit breaker *)

Example breaker_opens_at_threshold :
  CircuitBreaker.getState (afterFailures 4) = CircuitBreaker.CLOSED
  /\ CircuitBreaker.getState (afterFailures 5) = CircuitBreaker.OPEN
  /\ CircuitBreaker.getFailureCount (afterFailures 5) = 5
  /\ pending (CircuitBreaker.timers (afterFailures 5)) = [(1, 30000%Q)].
Proof. repeat split. Qed.

Example breaker_half_open_probe :
  let half :=
    fst (CircuitBreaker.resetTimerFires noBreakerOptions 1 (afterFailures 5)
           (freshWorld tt)) in
  CircuitBreaker.getState half = CircuitBreaker.HALF_OPEN
  /\ (let '(r, b, _) :=
        CircuitBreaker.execute noBreakerOptions (resolves 7) half
                               (freshWorld tt) in
      r = Ok 7
      /\ CircuitBreaker.getState b = CircuitBreaker.CLOSED
      /\ CircuitBreaker.getFailureCount b = 0)
  /\ (let '(_, b, _) :=
        CircuitBreaker.execute noBreakerOptions (rejects (A := nat) "boom")
                               half (freshWorld tt) in
      CircuitBreaker.getState b = CircuitBreaker.OPEN
      /\ pending (CircuitBreaker.timers b) = [(2, 30000%Q)]).
Proof. repeat split. Qed.

(** C4: while the breaker is open, [execute] rejects at once with the
    error for an open circuit; the operation is not invoked (its
    invocation count and the rest of the world are as before) and the
    breaker, with its state and its failure count, is unchanged. *)
Theorem execute_open_rejects_without_invoking :
  forall (S A : Type) (options : CircuitBreaker.Options (S * nat))
         (fn : Async S A) (b : CircuitBreaker.Breaker) (w : World S)
         (n : nat),
    CircuitBreaker.getState b = CircuitBreaker.OPEN ->
    CircuitBreaker.execute options (counted fn) b (setExt w (ext w, n))
    = (Throw (newError "Circuit breaker is open"), b,
       setExt w (ext w, n)).
Proof.
  intros S A options fn b w n Hopen.
  unfold CircuitBreaker.execute. unfold CircuitBreaker.getState in Hopen.
  now rewrite Hopen.
Qed.

Lemma execute_open_witness :
  CircuitBreaker.execute
    {| CircuitBreaker.failureThreshold := None;
       CircuitBreaker.resetTimeout := None;
       CircuitBreaker.onOpen := None;
       CircuitBreaker.onClose := None;
       CircuitBreaker.onHalfOpen := None |}
    (counted (resolves 7)) (afterFailures 5)
    (setExt (freshWorld tt) (ext (freshWorld tt), 0))
  = (Throw (newError "Circuit breaker is open"), afterFailures 5,
     setExt (freshWorld tt) (ext (freshWorld tt), 0)).
Proof.
  apply execute_open_rejects_without_invoking. reflexivity.
Defined.

(** C1, as stated, fails: after one failure the breaker is closed with a
    failure count of 1, and a successful [execute] in that state leaves
    the count at 1. *)
Lemma execute_closed_success_keeps_failure_count :
  CircuitBreaker.getState (afterFailures 1) = CircuitBreaker.CLOSED
  /\ (let '(r, b, _) :=
        CircuitBreaker.execute noBreakerOptions (resolves 7)
                               (afterFailures 1) (freshWorld tt) in
      r = Ok 7
      /\ CircuitBreaker.getState b = CircuitBreaker.CLOSED
      /\ CircuitBreaker.getFailureCount b = 1
      /\ CircuitBreaker.getFailureCount b <> 0).
Proof. cbn. repeat split. discriminate. Qed.

(** C1, amended: a success recorded while the breaker is closed leaves
    the breaker as it was, so [getFailureCount()] returns what it
    returned before the call (0 only if no failure was counted since the
    breaker was created, reset or closed from half-open); a success
    recorded while the breaker is half-open closes it and sets the
    failure count to 0 before [onClose] is called. *)
Theorem execute_success_failure_count :
  forall (S A : Type) (options : CircuitBreaker.Options S) (fn : Async S A)
         (b : CircuitBreaker.Breaker) (w w1 : World S) (v : A),
    fn w = (Ok v, w1) ->
    (CircuitBreaker.getState b = CircuitBreaker.CLOSED ->
     CircuitBreaker.execute options fn b w = (Ok v, b, w1))
    /\ (CircuitBreaker.getState b = CircuitBreaker.HALF_OPEN ->
        forall w2 : World S,
          callIfSet (CircuitBreaker.onClose options) w1 = (Ok tt, w2) ->
          exists b',
            CircuitBreaker.execute options fn b w = (Ok v, b', w2)
            /\ CircuitBreaker.getState b' = CircuitBreaker.CLOSED
            /\ CircuitBreaker.getFailureCount b' = 0).
Proof.
  intros S A options fn b w w1 v Hfn.
  unfold CircuitBreaker.getState, CircuitBreaker.execute. split.
  - intros Hst. now rewrite Hst, Hfn.
  - intros Hst w2 Hcb. rewrite Hst, Hfn, Hcb. eexists. repeat split.
Qed.

Lemma execute_success_witness :
  CircuitBreaker.execute noBreakerOptions (resolves 7) (afterFailures 2)
                         (freshWorld tt)
  = (Ok 7, afterFailures 2, freshWorld tt)
  /\ exists b',
      CircuitBreaker.execute noBreakerOptions (resolves 7)
        (fst (CircuitBreaker.resetTimerFires noBreakerOptions 1
                (afterFailures 5) (freshWorld tt)))
        (freshWorld tt)
      = (Ok 7, b', freshWorld tt)
      /\ CircuitBreaker.getState b' = CircuitBreaker.CLOSED
      /\ CircuitBreaker.getFailureCount b' = 0.
Proof.
  split.
  - apply (proj1 (@execute_success_failure_count
                    unit nat noBreakerOptions (resolves 7) (afterFailures 2)
                    (freshWorld tt) (freshWorld tt) 7 eq_refl)).
    reflexivity.
  - apply (proj2 (@execute_success_failure_count
                    unit nat noBreakerOptions (resolves 7)
                    (fst (CircuitBreaker.resetTimerFires noBreakerOptions 1
                            (afterFailures 5) (freshWorld tt)))
                    (freshWorld tt) (freshWorld tt) 7 eq_refl)).
    + reflexivity.
    + reflexivity.
Defined.

(** ** Resilient call wrapper *)

(** C3, as stated, fails: [createResilientApiCall] reads no
    [circuitBreaker] option; called with a breaker that is open in its
    options, it invokes the operation (one invocation is counted) and
    returns its result. *)
Lemma createResilientApiCall_invokes_despite_open_breaker :
  CircuitBreaker.getState (afterFailures 5) = CircuitBreaker.OPEN
  /\ createResilientApiCall true halves (counted (resolves 7))
       (onlyBreaker (afterFailures 5)) (freshWorld (tt, 0))
     = (Ok 7, freshWorld (tt, 1)).
Proof. split; reflexivity. Qed.

(** C3, amended: the options read by the wrapper are [useRetry],
    [retryOptions], [fallbacks] and [errorHandlers]; a [circuitBreaker]
    put in the options has no effect on the call, and an operation that
    succeeds is invoked once and its result returned whatever breaker,
    open or not, the options hold. *)
Theorem createResilientApiCall_does_not_gate :
  (forall (S A CB CB' : Type) (onLine : bool) (rnd : nat -> Q)
          (apiFn : Async S A) (options : CallOptions S A CB)
          (cb : option CB') (w : World S),
      createResilientApiCall onLine rnd apiFn (withBreaker cb options) w
      = createResilientApiCall onLine rnd apiFn options w)
  /\ (forall (S A CB : Type) (onLine : bool) (rnd : nat -> Q)
             (apiFn : Async S A) (options : CallOptions (S * nat) A CB)
             (w w1 : World S) (v : A) (n : nat),
         apiFn w = (Ok v, w1) ->
         createResilientApiCall onLine rnd (counted apiFn) options
                                (setExt w (ext w, n))
         = (Ok v, setExt w1 (ext w1, Datatypes.S n))).
Proof.
  split; [reflexivity|].
  intros S A CB onLine rnd apiFn options w w1 v n Hfn.
  unfold createResilientApiCall.
  assert (Hmain :
            (if orDefault (useRetry options) true
             then retryWithBackoff onLine rnd (counted apiFn)
                    (orDefault (retryOptions options) noRetryOptions)
             else counted apiFn) (setExt w (ext w, n))
            = (Ok v, setExt w1 (ext w1, Datatypes.S n))).
  { destruct (orDefault (useRetry options) true).
    - unfold retryWithBackoff, retryWithBackoffFuel. cbn [retryLoop].
      now rewrite counted_eq, Hfn.
    - now rewrite counted_eq, Hfn. }
  destruct (orDefault (fallbacks options) []) as [|fb fbs].
  - now rewrite Hmain.
  - unfold fallbackChain. cbn [fallbackLoop]. now rewrite Hmain.
Qed.

Lemma createResilientApiCall_witness :
  createResilientApiCall true halves (counted (resolves 7))
    (onlyBreaker (afterFailures 5))
    (setExt (freshWorld tt) (ext (freshWorld tt), 0))
  = (Ok 7, setExt (freshWorld tt) (ext (freshWorld tt), 1)).
Proof.
  apply (proj2 createResilientApiCall_does_not_gate
               unit nat CircuitBreaker.Breaker true halves (resolves 7)
               (onlyBreaker (afterFailures 5))
               (freshWorld tt) (freshWorld tt) 7 0).
  reflexivity.
Defined.

(** ** Session hook: sending *)

Example sendMessage_on_open_channel :
  let h :=
    UsePlayAiWebSocket.run true true true None UsePlayAiWebSocket.initial
      [UsePlayAiWebSocket.CallConnect; UsePlayAiWebSocket.SocketOpens 0] in
  UsePlayAiWebSocket.status h = UsePlayAiWebSocket.connected
  /\ fst (UsePlayAiWebSocket.sendMessage true true (Text "hello") h) = true
  /\ UsePlayAiWebSocket.sent
       (snd (UsePlayAiWebSocket.sendMessage true true (Text "hello") h))
     = [(0, "hello"%string)].
Proof. repeat split. Qed.

(** C10, as stated, fails for the hook: a [sendMessage] while the
    channel is still connecting returns [false] and notifies [onError],
    but it goes through [handleError], which moves the status from
    ['connecting'] to ['error']. *)
Lemma sendMessage_failed_send_changes_status :
  UsePlayAiWebSocket.status
    (UsePlayAiWebSocket.connect true true None UsePlayAiWebSocket.initial)
  = UsePlayAiWebSocket.connecting
  /\ fst (UsePlayAiWebSocket.sendMessage true true (Text "hello")
            (UsePlayAiWebSocket.connect true true None
               UsePlayAiWebSocket.initial))
     = false
  /\ UsePlayAiWebSocket.status
       (snd (UsePlayAiWebSocket.sendMessage true true (Text "hello")
               (UsePlayAiWebSocket.connect true true None
                  UsePlayAiWebSocket.initial)))
     = UsePlayAiWebSocket.error
  /\ UsePlayAiWebSocket.status
       (snd (UsePlayAiWebSocket.sendMessage true true (Text "hello")
               (UsePlayAiWebSocket.connect true true None
                  UsePlayAiWebSocket.initial)))
     <> UsePlayAiWebSocket.status
          (UsePlayAiWebSocket.connect true true None
             UsePlayAiWebSocket.initial).
Proof. cbn. repeat split. discriminate. Qed.

(** C10, amended: when the channel is not open, a send returns [false]
    without throwing, after one call of the error callback if there is
    one, and leaves the channel as it was (same socket, same ready
    states, nothing handed to [socket.send]). The hook's [sendMessage]
    also records the error and sets the status to ['error'], notifying
    [onStatusChange]; the conversation controller's [sendTextMessage]
    leaves the status unchanged. *)
Theorem send_on_closed_channel :
  (forall (hasOnError hasOnStatusChange : bool) (message : Message)
          (h : UsePlayAiWebSocket.Hook),
      UsePlayAiWebSocket.channelOpen h = false ->
      exists h',
        UsePlayAiWebSocket.sendMessage hasOnError hasOnStatusChange message h
        = (false, h')
        /\ UsePlayAiWebSocket.status h' = UsePlayAiWebSocket.error
        /\ UsePlayAiWebSocket.lastError h'
           = Some (newError "WebSocket is not connected")
        /\ UsePlayAiWebSocket.socketRef h' = UsePlayAiWebSocket.socketRef h
        /\ UsePlayAiWebSocket.sockets h' = UsePlayAiWebSocket.sockets h
        /\ UsePlayAiWebSocket.sent h' = UsePlayAiWebSocket.sent h
        /\ UsePlayAiWebSocket.errors h'
           = (if hasOnError
              then UsePlayAiWebSocket.errors h
                     ++ [newError "WebSocket is not connected"]
              else UsePlayAiWebSocket.errors h)
        /\ UsePlayAiWebSocket.statusChanges h'
           = (if hasOnStatusChange
              then UsePlayAiWebSocket.statusChanges h
                     ++ [UsePlayAiWebSocket.error]
              else UsePlayAiWebSocket.statusChanges h))
  /\ (forall (hasOnError : bool) (text : string)
             (c : Conversation.Conversation),
         Conversation.channelOpen c = false ->
         exists c',
           Conversation.sendTextMessage hasOnError text c = (false, c')
           /\ Conversation.status c' = Conversation.status c
           /\ Conversation.socket c' = Conversation.socket c
           /\ Conversation.sockets c' = Conversation.sockets c
           /\ Conversation.sent c' = Conversation.sent c
           /\ Conversation.statusChanges c' = Conversation.statusChanges c
           /\ Conversation.errors c'
              = (if hasOnError
                 then Conversation.errors c
                        ++ [newError "WebSocket is not connected"]
                 else Conversation.errors c)).
Proof.
  split.
  - intros hasOnError hasOnStatusChange message h Hclosed.
    unfold UsePlayAiWebSocket.sendMessage. rewrite Hclosed. cbn [negb].
    eexists. split; [reflexivity|]. cbn. repeat split.
  - intros hasOnError text c Hclosed.
    unfold Conversation.sendTextMessage.
    unfold Conversation.channelOpen in Hclosed.
    destruct (Conversation.socket c) as [k|] eqn:Hsock.
    + rewrite Hclosed. eexists. split; [reflexivity|]. cbn.
      repeat split. now rewrite Hsock.
    + eexists. split; [reflexivity|]. cbn. repeat split. now rewrite Hsock.
Qed.

Lemma send_on_closed_channel_witness :
  (exists h',
      UsePlayAiWebSocket.sendMessage true true (Text "hello")
        (UsePlayAiWebSocket.connect true true None UsePlayAiWebSocket.initial)
      = (false, h')
      /\ UsePlayAiWebSocket.status h' = UsePlayAiWebSocket.error)
  /\ (exists c',
         Conversation.sendTextMessage true "hello" Conversation.create
         = (false, c')
         /\ Conversation.status c' = Conversation.status Conversation.create).
Proof.
  split.
  - destruct (proj1 send_on_closed_channel true true (Text "hello")
                (UsePlayAiWebSocket.connect true true None
                   UsePlayAiWebSocket.initial) eq_refl)
      as (h' & Hsend & Hstatus & _).
    exists h'. split; assumption.
  - destruct (proj2 send_on_closed_channel true "hello"%string
                Conversation.create eq_refl)
      as (c' & Hsend & Hstatus & _).
    exists c'. split; assumption.
Defined.

(** ** Reconnection delay *)

(** The delay of [retryWithBackoff] never exceeds [maxDelay]. *)
Lemma backoffDelay_le_maxDelay (baseDelay maxDelay : Q) (n : nat) (random : Q) :
  (backoffDelay baseDelay maxDelay n random <= maxDelay)%Q.
Proof. unfold backoffDelay. apply Q.le_min_l. Qed.






(** ** Session hook: disconnecting *)

Lemma isPending_clearTimeout_same (t : nat) (tm : Timers) :
  isPending t (clearTimeout t tm) = false.
Proof.
  unfold isPending, clearTimeout. cbn [pending].
  induction (pending tm) as [|[h d] rest IH]; [reflexivity|].
  cbn [filter fst]. destruct (h =? t) eqn:Heq; cbn [negb]; [exact IH|].
  cbn [existsb fst]. now rewrite Heq.
Qed.

Lemma spent_clearTimeout (t t' : nat) (tm : Timers) :
  spent t tm -> spent t (clearTimeout t' tm).
Proof.
  intros [Hlt Hnp]. split; [exact Hlt|].
  unfold isPending, clearTimeout in *. cbn [pending].
  induction (pending tm) as [|[h d] rest IH]; [reflexivity|].
  cbn [existsb fst] in Hnp. apply orb_false_iff in Hnp as [Hh Hrest].
  cbn [filter fst]. destruct (negb (h =? t')); [|now apply IH].
  cbn [existsb fst]. rewrite Hh. now apply IH.
Qed.

Lemma spent_setTimeout (t : nat) (d : Q) (tm : Timers) :
  spent t tm -> spent t (snd (setTimeout d tm)).
Proof.
  intros [Hlt Hnp]. unfold spent, setTimeout, isPending in *.
  cbn [snd nextHandle pending]. split; [lia|].
  rewrite existsb_app, Hnp. cbn [existsb fst orb].
  rewrite orb_false_r. apply Nat.eqb_neq. lia.
Qed.

Section HookTimers.
Variables hasOnMessage hasOnError hasOnStatusChange : bool.
Variable constructorThrows : option Error.

Let connect :=
  UsePlayAiWebSocket.connect hasOnError hasOnStatusChange constructorThrows.
Let disconnect := UsePlayAiWebSocket.disconnect hasOnStatusChange.
Let step :=
  UsePlayAiWebSocket.step hasOnMessage hasOnError hasOnStatusChange
                          constructorThrows.
Let run :=
  UsePlayAiWebSocket.run hasOnMessage hasOnError hasOnStatusChange
                         constructorThrows.

Lemma timers_connect (h : UsePlayAiWebSocket.Hook) :
  UsePlayAiWebSocket.timers (connect h) = UsePlayAiWebSocket.timers h.
Proof.
  unfold connect, UsePlayAiWebSocket.connect.
  destruct (UsePlayAiWebSocket.openOrConnecting h); [reflexivity|].
  now destruct constructorThrows.
Qed.

Lemma spent_disconnect (t : nat) (h : UsePlayAiWebSocket.Hook) :
  spent t (UsePlayAiWebSocket.timers h) ->
  spent t (UsePlayAiWebSocket.timers (disconnect h)).
Proof.
  intros Hspent. unfold disconnect, UsePlayAiWebSocket.disconnect.
  destruct (UsePlayAiWebSocket.reconnectTimeoutRef h) as [t'|];
    cbn [UsePlayAiWebSocket.socketRef UsePlayAiWebSocket.setReconnect];
    destruct (UsePlayAiWebSocket.socketRef h); cbn;
    try apply spent_clearTimeout; exact Hspent.
Qed.

Lemma spent_onclose (t : nat) (wasClean : bool)
      (h : UsePlayAiWebSocket.Hook) :
  spent t (UsePlayAiWebSocket.timers h) ->
  spent t (UsePlayAiWebSocket.timers
             (UsePlayAiWebSocket.onclose hasOnError hasOnStatusChange
                wasClean h)).
Proof.
  intros Hspent. unfold UsePlayAiWebSocket.onclose.
  destruct (negb wasClean && _).
  - apply (spent_setTimeout UsePlayAiWebSocket.RECONNECT_DELAY) in Hspent.
    exact Hspent.
  - destruct (_ <=? _); exact Hspent.
Qed.

(** No action makes a spent timer pending again. *)
Lemma spent_step (t : nat) (h : UsePlayAiWebSocket.Hook)
      (a : UsePlayAiWebSocket.Action) :
  spent t (UsePlayAiWebSocket.timers h) ->
  spent t (UsePlayAiWebSocket.timers (step h a)).
Proof.
  intros Hspent. destruct a as [| |m|k|k data|k|k wasClean|t'];
    cbn [step UsePlayAiWebSocket.step].
  - fold connect. now rewrite timers_connect.
  - now apply spent_disconnect.
  - unfold UsePlayAiWebSocket.sendMessage.
    destruct (negb _); [exact Hspent|].
    destruct m as [s|[s|]]; destruct (UsePlayAiWebSocket.socketRef h);
      exact Hspent.
  - destruct (WebSocket.readyState k _) as [[| | |]|]; exact Hspent.
  - destruct (WebSocket.readyState k _) as [[| | |]|]; try exact Hspent.
    destruct data; [destruct hasOnMessage|]; exact Hspent.
  - destruct (WebSocket.readyState k _) as [[| | |]|]; exact Hspent.
  - destruct (WebSocket.readyState k _) as [[| | |]|]; try exact Hspent;
      now apply spent_onclose.
  - destruct (isPending t' _); [|exact Hspent].
    fold connect. rewrite timers_connect. now apply spent_clearTimeout.
Qed.

Lemma spent_run (t : nat) (actions : list UsePlayAiWebSocket.Action) :
  forall h : UsePlayAiWebSocket.Hook,
    spent t (UsePlayAiWebSocket.timers h) ->
    spent t (UsePlayAiWebSocket.timers (run h actions)).
Proof.
  induction actions as [|a actions IH]; intros h Hspent; [exact Hspent|].
  cbn [run UsePlayAiWebSocket.run fold_left]. apply IH.
  now apply spent_step.
Qed.

(** The timer held in [reconnectTimeoutRef] is spent after
    [disconnect]. *)
Lemma spent_after_disconnect (t : nat) (h : UsePlayAiWebSocket.Hook) :
  UsePlayAiWebSocket.reconnectTimeoutRef h = Some t ->
  t < nextHandle (UsePlayAiWebSocket.timers h) ->
  spent t (UsePlayAiWebSocket.timers (disconnect h)).
Proof.
  intros Href Hlt. unfold disconnect, UsePlayAiWebSocket.disconnect.
  rewrite Href.
  cbn [UsePlayAiWebSocket.socketRef UsePlayAiWebSocket.setReconnect].
  destruct (UsePlayAiWebSocket.socketRef h); cbn; split;
    try exact Hlt; apply isPending_clearTimeout_same.
Qed.
End HookTimers.

Example disconnect_cancels_pending_reconnect :
  let h :=
    UsePlayAiWebSocket.run true true true None UsePlayAiWebSocket.initial
      [UsePlayAiWebSocket.CallConnect;
       UsePlayAiWebSocket.SocketCloses 0 false] in
  UsePlayAiWebSocket.reconnectTimeoutRef h = Some 1
  /\ isPending 1 (UsePlayAiWebSocket.timers h) = true
  /\ isPending 1
       (UsePlayAiWebSocket.timers (UsePlayAiWebSocket.disconnect true h))
     = false
  /\ UsePlayAiWebSocket.status (UsePlayAiWebSocket.disconnect true h)
     = UsePlayAiWebSocket.disconnected.
Proof. repeat split. Qed.

(** Without a channel, [disconnect] does not touch the status: after a
    failed send on a fresh hook the status is ['error'] and stays so. *)
Example disconnect_without_channel_keeps_status :
  UsePlayAiWebSocket.status
    (UsePlayAiWebSocket.run true true true None UsePlayAiWebSocket.initial
       [UsePlayAiWebSocket.CallSendMessage (Text "hello");
        UsePlayAiWebSocket.CallDisconnect])
  = UsePlayAiWebSocket.error.
Proof. reflexivity. Qed.

(** A timer that is no longer the one in [reconnectTimeoutRef] outlives
    [disconnect]: a [connect] during the first reconnect delay followed
    by a second unclean close leaves two timers pending, [disconnect]
    clears the later one, and the earlier one then fires and
    reconnects. *)
Example disconnect_leaves_earlier_timer :
  let h :=
    UsePlayAiWebSocket.run true true true None UsePlayAiWebSocket.initial
      [UsePlayAiWebSocket.CallConnect;
       UsePlayAiWebSocket.SocketCloses 0 false;
       UsePlayAiWebSocket.CallConnect;
       UsePlayAiWebSocket.SocketCloses 1 false;
       UsePlayAiWebSocket.CallDisconnect] in
  UsePlayAiWebSocket.status h = UsePlayAiWebSocket.disconnected
  /\ pending (UsePlayAiWebSocket.timers h) = [(1, 2000%Q)]
  /\ UsePlayAiWebSocket.status
       (UsePlayAiWebSocket.run true true true None h
          [UsePlayAiWebSocket.TimerFires 1])
     = UsePlayAiWebSocket.connecting.
Proof. repeat split. Qed.

(** C8, as stated, fails: after an unclean close the attempts counter is
    1, and [disconnect] leaves it at 1. *)
Lemma disconnect_keeps_reconnect_attempts :
  UsePlayAiWebSocket.reconnectAttemptsRef
    (UsePlayAiWebSocket.run true true true None UsePlayAiWebSocket.initial
       [UsePlayAiWebSocket.CallConnect;
        UsePlayAiWebSocket.SocketCloses 0 false;
        UsePlayAiWebSocket.CallDisconnect])
  = 1
  /\ UsePlayAiWebSocket.reconnectAttemptsRef
       (UsePlayAiWebSocket.run true true true None UsePlayAiWebSocket.initial
          [UsePlayAiWebSocket.CallConnect;
           UsePlayAiWebSocket.SocketCloses 0 false;
           UsePlayAiWebSocket.CallDisconnect])
     <> 0.
Proof. split; [reflexivity|discriminate]. Qed.

(** C8, amended: [disconnect] clears [reconnectTimeoutRef] and cancels
    the timer it held, which is then never pending again whatever
    happens next, so it never fires; it releases the channel; it leaves
    the attempts counter as it was; when the hook held a channel, the
    channel is closed and the status is ['disconnected']; and a second
    [disconnect] in a row changes nothing. *)
Theorem disconnect_effects :
  forall (hasOnMessage hasOnError hasOnStatusChange : bool)
         (constructorThrows : option Error) (h : UsePlayAiWebSocket.Hook),
    UsePlayAiWebSocket.reconnectTimeoutRef
      (UsePlayAiWebSocket.disconnect hasOnStatusChange h) = None
    /\ UsePlayAiWebSocket.socketRef
         (UsePlayAiWebSocket.disconnect hasOnStatusChange h) = None
    /\ UsePlayAiWebSocket.reconnectAttemptsRef
         (UsePlayAiWebSocket.disconnect hasOnStatusChange h)
       = UsePlayAiWebSocket.reconnectAttemptsRef h
    /\ (forall k : nat,
           UsePlayAiWebSocket.socketRef h = Some k ->
           UsePlayAiWebSocket.status
             (UsePlayAiWebSocket.disconnect hasOnStatusChange h)
           = UsePlayAiWebSocket.disconnected
           /\ UsePlayAiWebSocket.sockets
                (UsePlayAiWebSocket.disconnect hasOnStatusChange h)
              = WebSocket.close k (UsePlayAiWebSocket.sockets h))
    /\ UsePlayAiWebSocket.disconnect hasOnStatusChange
         (UsePlayAiWebSocket.disconnect hasOnStatusChange h)
       = UsePlayAiWebSocket.disconnect hasOnStatusChange h
    /\ (forall (t : nat) (actions : list UsePlayAiWebSocket.Action),
           UsePlayAiWebSocket.reconnectTimeoutRef h = Some t ->
           t < nextHandle (UsePlayAiWebSocket.timers h) ->
           isPending t
             (UsePlayAiWebSocket.timers
                (UsePlayAiWebSocket.run hasOnMessage hasOnError
                   hasOnStatusChange constructorThrows
                   (UsePlayAiWebSocket.disconnect hasOnStatusChange h)
                   actions))
           = false).
Proof.
  intros hasOnMessage hasOnError hasOnStatusChange constructorThrows h.
  repeat apply conj.
  - unfold UsePlayAiWebSocket.disconnect.
    destruct (UsePlayAiWebSocket.reconnectTimeoutRef h) eqn:Href;
      cbn [UsePlayAiWebSocket.socketRef UsePlayAiWebSocket.setReconnect];
      destruct (UsePlayAiWebSocket.socketRef h); cbn; auto.
  - unfold UsePlayAiWebSocket.disconnect.
    destruct (UsePlayAiWebSocket.reconnectTimeoutRef h);
      cbn [UsePlayAiWebSocket.socketRef UsePlayAiWebSocket.setReconnect];
      destruct (UsePlayAiWebSocket.socketRef h) eqn:Hsock; cbn; auto.
  - unfold UsePlayAiWebSocket.disconnect.
    destruct (UsePlayAiWebSocket.reconnectTimeoutRef h);
      cbn [UsePlayAiWebSocket.socketRef UsePlayAiWebSocket.setReconnect];
      destruct (UsePlayAiWebSocket.socketRef h); reflexivity.
  - intros k Hsock. unfold UsePlayAiWebSocket.disconnect.
    destruct (UsePlayAiWebSocket.reconnectTimeoutRef h);
      cbn [UsePlayAiWebSocket.socketRef UsePlayAiWebSocket.setReconnect];
      rewrite Hsock; split; reflexivity.
  - unfold UsePlayAiWebSocket.disconnect.
    destruct (UsePlayAiWebSocket.reconnectTimeoutRef h) eqn:Href;
      cbn [UsePlayAiWebSocket.socketRef UsePlayAiWebSocket.setReconnect];
      destruct (UsePlayAiWebSocket.socketRef h) eqn:Hsock; cbn;
      rewrite ?Href, ?Hsock; reflexivity.
  - intros t actions Href Hlt.
    apply (spent_run hasOnMessage hasOnError hasOnStatusChange
                     constructorThrows actions
                     (UsePlayAiWebSocket.disconnect hasOnStatusChange h)).
    now apply spent_after_disconnect.
Qed.

Lemma disconnect_effects_witness :
  isPending 1
    (UsePlayAiWebSocket.timers
       (UsePlayAiWebSocket.run true true true None
          (UsePlayAiWebSocket.disconnect true
             (UsePlayAiWebSocket.run true true true None
                UsePlayAiWebSocket.initial
                [UsePlayAiWebSocket.CallConnect;
                 UsePlayAiWebSocket.SocketCloses 0 false]))
          [UsePlayAiWebSocket.TimerFires 1;
           UsePlayAiWebSocket.CallConnect;
           UsePlayAiWebSocket.SocketCloses 1 false;
           UsePlayAiWebSocket.TimerFires 1]))
  = false
  /\ UsePlayAiWebSocket.status
       (UsePlayAiWebSocket.disconnect true
          (UsePlayAiWebSocket.run true true true None
             UsePlayAiWebSocket.initial
             [UsePlayAiWebSocket.CallConnect;
              UsePlayAiWebSocket.SocketCloses 0 false]))
     = UsePlayAiWebSocket.disconnected.
Proof.
  split.
  - apply (proj2 (proj2 (proj2 (proj2 (proj2
             (disconnect_effects true true true None
                (UsePlayAiWebSocket.run true true true None
                   UsePlayAiWebSocket.initial
                   [UsePlayAiWebSocket.CallConnect;
                    UsePlayAiWebSocket.SocketCloses 0 false]))))))
             1).
    + reflexivity.
    + cbn. lia.
  - apply (proj1 (proj2 (proj2 (proj2
             (disconnect_effects true true true None
                (UsePlayAiWebSocket.run true true true None
                   UsePlayAiWebSocket.initial
                   [UsePlayAiWebSocket.CallConnect;
                    UsePlayAiWebSocket.SocketCloses 0 false])))))
             0).
    reflexivity.
Defined.

(* ===================================================================== *)
(** * Further properties *)
(* ===================================================================== *)

(** ** Backoff delay and retry loop *)

Lemma counted_count {S A : Type} (fn : Async S A) (w : World (S * nat)) :
  snd (ext (snd (counted fn w))) = Datatypes.S (snd (ext w)).
Proof.
  unfold counted. now destruct (fn (setExt w (fst (ext w)))).
Qed.

Lemma retryLoop_invocation_bound {S A : Type} (rnd : nat -> Q)
      (fn : Async S A) (maxR : nat) (base cap : Q) (pred : Thrown -> bool) :
  forall (fuel retries : nat) (w : World (S * nat)),
    maxR - retries < fuel ->
    exists r w' k,
      retryLoop rnd fuel (counted fn) maxR base cap pred retries w
      = Some (r, w')
      /\ snd (ext w') = snd (ext w) + k + 1
      /\ k <= maxR - retries.
Proof.
  induction fuel as [|fuel IH]; intros retries w Hfuel; [lia|].
  cbn [retryLoop]. pose proof (counted_count fn w) as Hcount.
  destruct (counted fn w) as [[v|e] w1]; cbn [snd] in Hcount.
  - exists (Ok v), w1, 0. repeat split; [lia|lia].
  - destruct (Nat.leb_spec maxR retries) as [Hle|Hgt]; cbn [orb].
    + exists (Throw e), w1, 0. repeat split; [lia|lia].
    + destruct (pred e); cbn [negb].
      * cbn [nextRandom].
        destruct (IH (Datatypes.S retries)
                     (sleep (backoffDelay base cap retries (rnd (draws w1)))
                        {| ext := ext w1; draws := Datatypes.S (draws w1);
                           slept := slept w1 |}))
          as (r & w' & k & Hrun & Hk & Hbound); [lia|].
        exists r, w', (Datatypes.S k). split; [exact Hrun|].
        cbn [sleep ext] in Hk. split; lia.
      * exists (Throw e), w1, 0. repeat split; [lia|lia].
Qed.

(** X2: whatever the operation does, one call of [retryWithBackoff]
    invokes it at least once and at most [maxRetries + 1] times. *)
Theorem retryWithBackoff_invocation_bound :
  forall (S A : Type) (onLine : bool) (rnd : nat -> Q) (fn : Async S A)
         (options : RetryOptions) (w : World (S * nat)),
  exists k,
    snd (ext (snd (retryWithBackoff onLine rnd (counted fn) options w)))
    = snd (ext w) + k + 1
    /\ k <= orDefault (maxRetries options) 3.
Proof.
  intros S A onLine rnd fn options w.
  unfold retryWithBackoff, retryWithBackoffFuel.
  destruct (@retryLoop_invocation_bound S A rnd fn
              (orDefault (maxRetries options) 3)
              (orDefault (baseDelay options) 1000%Q)
              (orDefault (maxDelay options) 10000%Q)
              (orDefault (shouldRetry options) (defaultShouldRetry onLine))
              (Datatypes.S (orDefault (maxRetries options) 3)) 0 w)
    as (r & w' & k & Hrun & Hk & Hbound); [lia|].
  rewrite Hrun. exists k. cbn [snd]. split; lia.
Qed.

(** X3: an operation that fails once with a failure the predicate
    accepts and then succeeds is invoked twice, provided one retry is
    allowed; between the two invocations [retryWithBackoff] draws one
    random number and sleeps the delay for retry 0, and the result is
    that of the second invocation. *)
Theorem retryWithBackoff_recovers_after_one_failure :
  forall (S A : Type) (onLine : bool) (rnd : nat -> Q) (fn : Async S A)
         (options : RetryOptions) (w w1 w2 : World S) (e : Thrown) (v : A)
         (n : nat),
    1 <= orDefault (maxRetries options) 3 ->
    fn w = (Throw e, w1) ->
    orDefault (shouldRetry options) (defaultShouldRetry onLine) e = true ->
    fn (sleep (backoffDelay (orDefault (baseDelay options) 1000%Q)
                            (orDefault (maxDelay options) 10000%Q)
                            0 (rnd (draws w1)))
              (snd (nextRandom rnd w1)))
    = (Ok v, w2) ->
    retryWithBackoff onLine rnd (counted fn) options (setExt w (ext w, n))
    = (Ok v, setExt w2 (ext w2, n + 2)).
Proof.
  intros S A onLine rnd fn options w w1 w2 e v n Hmax Hfirst Hpred Hsecond.
  unfold retryWithBackoff, retryWithBackoffFuel.
  destruct (orDefault (maxRetries options) 3) as [|m] eqn:Hm; [lia|].
  cbn [retryLoop]. rewrite counted_eq, Hfirst. cbn [fst snd Nat.leb orb].
  rewrite Hpred. cbn [negb]. rewrite nextRandom_setExt. cbn [fst snd].
  rewrite sleep_setExt.
  match goal with
  | |- context [counted fn (setExt ?w' _)] =>
      change (ext w1) with (ext w'); rewrite (counted_eq fn w')
  end.
  change (fst (nextRandom rnd w1)) with (rnd (draws w1)).
  rewrite Hsecond. cbn [fst snd].
  now replace (n + 2) with (Datatypes.S (Datatypes.S n)) by lia.
Qed.

Lemma retryWithBackoff_recovers_witness :
  retryWithBackoff true halves (counted (failsUntil 1)) threeRetries
                   (setExt (freshWorld 0) (ext (freshWorld 0), 0))
  = (Ok 1,
     setExt {| ext := 1; draws := 1;
               slept := [backoffDelay 1000 10000 0 (1 # 2)] |}
            (1, 0 + 2)).
Proof.
  apply (@retryWithBackoff_recovers_after_one_failure
           nat nat true halves (failsUntil 1) threeRetries
           (freshWorld 0) (setExt (freshWorld 0) 1)
           {| ext := 1; draws := 1;
              slept := [backoffDelay 1000 10000 0 (1 # 2)] |}
           (newError "network down") 1 0).
  - cbn. lia.
  - reflexivity.
  - reflexivity.
  - reflexivity.
Defined.





(** ** Classification rules *)

(** X5: every kind that [classifyError] returns for a failure object is
    backed by the rule of that kind: the status or one of the rule's
    words in the message (for Network also the browser being offline);
    Timeout comes from the message alone, never from a status; and
    Unknown is returned only while online, for a status below 500 other
    than 400, 401, 403, 404 and 429, and a message with none of the
    words. *)
Theorem classifyError_kind_justified :
  forall (onLine : bool) (e : Error),
    match classifyError onLine (Some e) with
    | NETWORK =>
        includes (effectiveMessage e) "network" = true
        \/ includes (effectiveMessage e) "connection" = true
        \/ onLine = false
    | AUTHENTICATION =>
        effectiveStatus e = 401%Z
        \/ includes (effectiveMessage e) "unauthorized" = true
        \/ includes (effectiveMessage e) "authentication" = true
        \/ includes (effectiveMessage e) "invalid credentials" = true
        \/ includes (effectiveMessage e) "api key" = true
    | RATE_LIMIT =>
        effectiveStatus e = 429%Z
        \/ includes (effectiveMessage e) "rate limit" = true
        \/ includes (effectiveMessage e) "too many requests" = true
    | SERVER =>
        (500 <= effectiveStatus e)%Z
        \/ includes (effectiveMessage e) "server error" = true
        \/ includes (effectiveMessage e) "internal error" = true
    | VALIDATION =>
        effectiveStatus e = 400%Z
        \/ includes (effectiveMessage e) "validation" = true
        \/ includes (effectiveMessage e) "invalid" = true
    | PERMISSION =>
        effectiveStatus e = 403%Z
        \/ includes (effectiveMessage e) "permission" = true
        \/ includes (effectiveMessage e) "forbidden" = true
    | RESOURCE_NOT_FOUND =>
        effectiveStatus e = 404%Z
        \/ includes (effectiveMessage e) "not found" = true
    | TIMEOUT =>
        includes (effectiveMessage e) "timeout" = true
        \/ includes (effectiveMessage e) "timed out" = true
    | UNKNOWN =>
        onLine = true
        /\ (effectiveStatus e < 500)%Z
        /\ ~ In (effectiveStatus e) [400; 401; 403; 404; 429]%Z
        /\ Forall (fun k => includes (effectiveMessage e) k = false) keywords
    end.
Proof.
  intros onLine e. unfold classifyError, classifyRules.
  set (st := effectiveStatus e). set (msg := effectiveMessage e).
  repeat match goal with
         | |- context [if ?c then _ else _] =>
             let H := fresh "H" in destruct c eqn:H
         end;
    repeat match goal with
           | H : (_ || _)%bool = true |- _ =>
               apply orb_true_iff in H; destruct H as [H|H]
           | H : (_ || _)%bool = false |- _ =>
               apply orb_false_iff in H; destruct H
           | H : negb _ = true |- _ => apply negb_true_iff in H
           | H : negb _ = false |- _ => apply negb_false_iff in H
           | H : (_ =? _)%Z = true |- _ => apply Z.eqb_eq in H
           | H : (_ <=? _)%Z = true |- _ => apply Z.leb_le in H
           end;
    try solve [intuition auto].
  repeat match goal with
         | H : (_ =? _)%Z = false |- _ => apply Z.eqb_neq in H
         | H : (_ <=? _)%Z = false |- _ => apply Z.leb_gt in H
         end.
  repeat split; try assumption; try lia.
  - cbn [In]. intuition congruence.
  - unfold keywords. repeat constructor; assumption.
Qed.

(** [statusCode] is consulted only when [status] is absent or 0: a
    failure with a status other than 0 is classified without regard to
    its [statusCode], and a status of 0 counts as no status. *)
Lemma classifyError_status_before_statusCode :
  forall (onLine : bool) (msg : option string) (st : Z)
         (code code' : option Z),
    (st <> 0%Z ->
     classifyError onLine (Some (mkError msg (Some st) code))
     = classifyError onLine (Some (mkError msg (Some st) code')))
    /\ classifyError onLine (Some (mkError msg (Some 0%Z) code))
       = classifyError onLine (Some (mkError msg None code)).
Proof.
  intros onLine msg st code code'. split; [|reflexivity].
  intros Hst. unfold classifyError, effectiveStatus, num_or.
  cbn [status statusCode]. apply Z.eqb_neq in Hst. now rewrite Hst.
Qed.

Lemma classifyError_status_witness :
  classifyError true
    (Some (mkError (Some "gone"%string) (Some 404%Z) (Some 500%Z)))
  = classifyError true (Some (mkError (Some "gone"%string) (Some 404%Z) None)).
Proof.
  apply (proj1 (classifyError_status_before_statusCode
                  true (Some "gone"%string) 404 (Some 500%Z) None)).
  discriminate.
Defined.

(** ** Fallback chain and call wrapper *)

Lemma fallbackLoop_result_from_a_function {S A : Type} :
  forall (fns : list (Async S A)) (last : option Thrown) (w w' : World S)
         (r : Outcome A),
    fallbackLoop fns last w = (r, w') ->
    (exists fn w0, In fn fns /\ fn w0 = (r, w'))
    \/ (exists fn w0 v,
           In fn fns /\ fn w0 = (Throw (FalsyValue v), w')
           /\ r = Throw (ErrorObject (newError "All fallback options failed")))
    \/ (r = Throw (thrown_or last (newError "All fallback options failed"))
        /\ w' = w /\ fns = []).
Proof.
  induction fns as [|fn fns IH]; intros last w w' r Hrun.
  - cbn in Hrun. injection Hrun as <- <-. right. right. repeat split.
  - cbn [fallbackLoop] in Hrun. destruct (fn w) as [[v|e] w1] eqn:Hfn.
    + injection Hrun as <- <-. left. exists fn, w. split; [now left|exact Hfn].
    + destruct (IH _ _ _ _ Hrun)
        as [(fn' & w0 & Hin & Hfn')
           |[(fn' & w0 & v & Hin & Hfn' & Hr)|(Hr & Hw & Hnil)]].
      * left. exists fn', w0. split; [now right|exact Hfn'].
      * right. left. exists fn', w0, v. repeat split; [now right|assumption..].
      * subst. destruct e as [e|v]; cbn [thrown_or truthy].
        -- left. exists fn, w. split; [now left|exact Hfn].
        -- right. left. exists fn, w, v. repeat split; [now left|exact Hfn].
Qed.

(** X6: a success of a chain is the success of one invocation of one of
    its functions, with the world that invocation left; a failure of a
    chain that is not empty is the failure of such an invocation,
    except that a failure which is a falsy value is replaced by the
    chain's own 'All fallback options failed' error. *)
Theorem fallbackChain_result_from_a_function :
  forall (S A : Type) (fns : list (Async S A)) (w w' : World S)
         (r : Outcome A),
    fns <> [] ->
    fallbackChain fns w = (r, w') ->
    (exists fn w0, In fn fns /\ fn w0 = (r, w'))
    \/ (exists fn w0 v,
           In fn fns /\ fn w0 = (Throw (FalsyValue v), w')
           /\ r = Throw (ErrorObject
                           (newError "All fallback options failed"))).
Proof.
  intros S A fns w w' r Hne Hrun. unfold fallbackChain in Hrun.
  destruct fns as [|fn fns]; [contradiction|].
  destruct (fallbackLoop_result_from_a_function _ _ _ Hrun)
    as [Hfrom|[Hfalsy|(_ & _ & Hnil)]];
    [now left|now right|discriminate].
Qed.

Lemma fallbackChain_result_witness :
  (exists fn w0,
      In fn [rejects "A failed"; rejects (A := nat) "B failed"]
      /\ fn w0
         = (Throw (ErrorObject (newError "B failed")), freshWorld tt))
  \/ (exists fn w0 v,
         In fn [rejects "A failed"; rejects (A := nat) "B failed"]
         /\ fn w0 = (Throw (FalsyValue v), freshWorld tt)
         /\ Throw (A := nat) (ErrorObject (newError "B failed"))
            = Throw (ErrorObject (newError "All fallback options failed"))).
Proof.
  apply (@fallbackChain_result_from_a_function
           unit nat [rejects "A failed"; rejects "B failed"]
           (freshWorld tt)).
  - discriminate.
  - reflexivity.
Defined.

(** X7: when the primary operation, with its retries, ends in a failure
    and fallbacks are given, the wrapper runs the fallbacks from the
    world that failure left, each at most once and without retry; if
    one of them succeeds its result is returned and no error handler is
    called. *)
Theorem createResilientApiCall_falls_back :
  forall (S A CB : Type) (onLine : bool) (rnd : nat -> Q)
         (apiFn : Async S A) (options : CallOptions S A CB)
         (fb : Async S A) (fbs : list (Async S A))
         (w w1 w2 : World S) (e : Thrown) (v : A),
    orDefault (useRetry options) true = true ->
    fallbacks options = Some (fb :: fbs) ->
    retryWithBackoff onLine rnd apiFn
      (orDefault (retryOptions options) noRetryOptions) w
    = (Throw e, w1) ->
    fallbackChain (fb :: fbs) w1 = (Ok v, w2) ->
    createResilientApiCall onLine rnd apiFn options w = (Ok v, w2).
Proof.
  intros S A CB onLine rnd apiFn options fb fbs w w1 w2 e v
         Hretry Hfbs Hmain Hchain.
  assert (Hlast :
            forall (fns : list (Async S A)) (l1 l2 : option Thrown)
                   (w0 : World S),
              fallbackLoop fns l1 w0 = (Ok v, w2) ->
              fallbackLoop fns l2 w0 = (Ok v, w2)).
  { induction fns as [|fn fns IH]; intros l1 l2 w0 Hrun; [discriminate|].
    cbn [fallbackLoop] in *. destruct (fn w0) as [[v0|e0] w4];
      [exact Hrun|exact Hrun]. }
  unfold createResilientApiCall. rewrite Hretry, Hfbs. cbn [orDefault].
  unfold fallbackChain. unfold fallbackChain in Hchain.
  change (fallbackLoop (retryWithBackoff onLine rnd apiFn
                          (orDefault (retryOptions options) noRetryOptions)
                        :: fb :: fbs) None w)
    with (match retryWithBackoff onLine rnd apiFn
                  (orDefault (retryOptions options) noRetryOptions) w with
          | (Ok v0, w0) => (Ok v0, w0)
          | (Throw error, w0) => fallbackLoop (fb :: fbs) (Some error) w0
          end).
  rewrite Hmain. now rewrite (Hlast _ None (Some e) _ Hchain).
Qed.

Lemma createResilientApiCall_falls_back_witness :
  createResilientApiCall true halves (tagged 0 networkDown)
    {| useRetry := None; retryOptions := None;
       fallbacks := Some [tagged 1 (resolves 7)];
       errorHandlers := None;
       circuitBreaker := @None unit |}
    (freshWorld (tt, []))
  = (Ok 7,
     {| ext := (tt, [0; 0; 0; 0; 1]); draws := 3;
        slept := [backoffDelay 1000 10000 0 (1 # 2);
                  backoffDelay 1000 10000 1 (1 # 2);
                  backoffDelay 1000 10000 2 (1 # 2)] |}).
Proof.
  apply (@createResilientApiCall_falls_back
           (unit * list nat) nat unit true halves (tagged 0 networkDown)
           {| useRetry := None; retryOptions := None;
              fallbacks := Some [tagged 1 (resolves 7)];
              errorHandlers := None;
              circuitBreaker := @None unit |}
           (tagged 1 (resolves 7)) [] (freshWorld (tt, []))
           {| ext := (tt, [0; 0; 0; 0]); draws := 3;
              slept := [backoffDelay 1000 10000 0 (1 # 2);
                        backoffDelay 1000 10000 1 (1 # 2);
                        backoffDelay 1000 10000 2 (1 # 2)] |}
           _ (newError "network down") 7).
  - reflexivity.
  - reflexivity.
  - reflexivity.
  - reflexivity.
Defined.

(** X8: [handleApiError] calls exactly one handler, the one registered
    for the kind [classifyError] gives the failure: with handlers that
    each record their own kind, the record grows by that kind and
    nothing else. *)
Theorem handleApiError_calls_handler_of_kind :
  forall (onLine : bool) (e : Thrown) (w : World (list ErrorTypes)),
    handleApiError onLine e loggingHandlers w
    = (Ok tt, setExt w (ext w ++ [classifyError onLine (asError e)])).
Proof.
  intros onLine e w. unfold handleApiError.
  now destruct (classifyError onLine (asError e)).
Qed.

(** X9: when the call fails for good, the wrapper rejects with the
    original failure if the handler of its kind returns (or is absent),
    but with the handler's own exception if the handler throws: a
    throwing handler hides the original failure from the caller. *)
Theorem createResilientApiCall_handler_outcome :
  forall (S A CB : Type) (onLine : bool) (rnd : nat -> Q)
         (apiFn : Async S A) (options : CallOptions S A CB)
         (w w1 w2 : World S) (e : Thrown) (r : Outcome unit),
    useRetry options = Some false ->
    orDefault (fallbacks options) [] = [] ->
    apiFn w = (Throw e, w1) ->
    handleApiError onLine e
      (orDefault (errorHandlers options) (noErrorHandlers S)) w1
    = (r, w2) ->
    createResilientApiCall onLine rnd apiFn options w
    = (Throw (match r with
              | Ok _ => e
              | Throw handlerError => handlerError
              end), w2).
Proof.
  intros S A CB onLine rnd apiFn options w w1 w2 e r
         Hretry Hfbs Hfn Hhandler.
  unfold createResilientApiCall.
  rewrite Hretry, Hfbs. cbn [orDefault]. rewrite Hfn, Hhandler.
  now destruct r.
Qed.

Lemma createResilientApiCall_handler_witness :
  createResilientApiCall true halves badRequest
    {| useRetry := Some false; retryOptions := None; fallbacks := None;
       errorHandlers :=
         Some {| onAuthError := None; onNetworkError := None;
                 onRateLimitError := None; onServerError := None;
                 onValidationError := Some (fun _ => rejects "handler broke");
                 onPermissionError := None; onNotFoundError := None;
                 onTimeoutError := None; onUnknownError := None |};
       circuitBreaker := @None unit |}
    (freshWorld tt)
  = (Throw (newError "handler broke"), freshWorld tt).
Proof.
  apply (@createResilientApiCall_handler_outcome
           unit nat unit true halves badRequest _
           (freshWorld tt) (freshWorld tt) (freshWorld tt)
           (mkError (Some "bad request"%string) (Some 400%Z) None)
           (Throw (newError "handler broke"))).
  - reflexivity.
  - reflexivity.
  - reflexivity.
  - reflexivity.
Defined.

(** ** Circuit breaker: timers and counts *)

Lemma clearTimeout_single (h : nat) (d : Q) (next : nat) :
  clearTimeout h {| pending := [(h, d)]; nextHandle := next |}
  = {| pending := []; nextHandle := next |}.
Proof.
  unfold clearTimeout. cbn [pending filter fst nextHandle].
  now rewrite Nat.eqb_refl.
Qed.

Lemma pending_scheduleReset_of_none {S : Type}
      (options : CircuitBreaker.Options S) (b : CircuitBreaker.Breaker) :
  pending (CircuitBreaker.timers b) = [] ->
  exists h,
    CircuitBreaker.resetTimer (CircuitBreaker.scheduleReset options b)
    = Some h
    /\ pending (CircuitBreaker.timers (CircuitBreaker.scheduleReset options b))
       = [(h, CircuitBreaker.timeout options)]
    /\ CircuitBreaker.state (CircuitBreaker.scheduleReset options b)
       = CircuitBreaker.state b
    /\ CircuitBreaker.failures (CircuitBreaker.scheduleReset options b)
       = CircuitBreaker.failures b
    /\ CircuitBreaker.lastError (CircuitBreaker.scheduleReset options b)
       = CircuitBreaker.lastError b.
Proof.
  intros Hnone. unfold CircuitBreaker.scheduleReset.
  destruct (CircuitBreaker.resetTimer b) as [h0|];
    cbn [setTimeout clearTimeout pending nextHandle CircuitBreaker.timers
         CircuitBreaker.resetTimer CircuitBreaker.state
         CircuitBreaker.failures CircuitBreaker.lastError];
    rewrite Hnone; cbn [filter app]; eexists; repeat split.
Qed.

Lemma timerDiscipline_openCircuit {S A : Type}
      (options : CircuitBreaker.Options S) (e : Thrown)
      (b : CircuitBreaker.Breaker) (w : World S) :
  pending (CircuitBreaker.timers b) = [] ->
  timerDiscipline options
    (snd (fst (CircuitBreaker.openCircuit (A := A) options e b w))).
Proof.
  intros Hnone. unfold CircuitBreaker.openCircuit.
  destruct (pending_scheduleReset_of_none options
              (CircuitBreaker.setState CircuitBreaker.OPEN b) Hnone)
    as (h & Href & Hpending & Hstate & _).
  assert (Hinv : timerDiscipline options
                   (CircuitBreaker.scheduleReset options
                      (CircuitBreaker.setState CircuitBreaker.OPEN b))).
  { unfold timerDiscipline. rewrite Hstate. cbn. now exists h. }
  now destruct (callIfSet _ w) as [[u|cbError] w1].
Qed.

Lemma timerDiscipline_onFailure {S A : Type}
      (options : CircuitBreaker.Options S) (e : Thrown)
      (b : CircuitBreaker.Breaker) (w : World S) :
  timerDiscipline options b ->
  timerDiscipline options
    (snd (fst (CircuitBreaker.onFailure (A := A) options e b w))).
Proof.
  intros Hinv. unfold CircuitBreaker.onFailure.
  cbn [CircuitBreaker.state CircuitBreaker.setLastError].
  unfold timerDiscipline in Hinv.
  destruct (CircuitBreaker.state b) eqn:Hstate.
  - cbn [CircuitBreaker.failures CircuitBreaker.setFailures
         CircuitBreaker.setLastError].
    destruct (_ <=? _).
    + now apply timerDiscipline_openCircuit.
    + cbn [fst snd]. unfold timerDiscipline. cbn. now rewrite Hstate.
  - cbn [fst snd]. unfold timerDiscipline. cbn. now rewrite Hstate.
  - now apply timerDiscipline_openCircuit.
Qed.

(** X10: the breaker keeps its timer discipline: a new breaker has no
    timer pending, and after any [execute], any firing of a timer and
    any [reset], the breaker is open exactly when one timer is pending,
    the one in [resetTimer], with the delay [resetTimeout]. *)
Theorem breaker_keeps_timerDiscipline :
  forall (S : Type) (options : CircuitBreaker.Options S),
    timerDiscipline options CircuitBreaker.create
    /\ (forall (A : Type) (fn : Async S A) (b : CircuitBreaker.Breaker)
               (w : World S),
           timerDiscipline options b ->
           timerDiscipline options
             (snd (fst (CircuitBreaker.execute options fn b w))))
    /\ (forall (handle : nat) (b : CircuitBreaker.Breaker) (w : World S),
           timerDiscipline options b ->
           timerDiscipline options
             (fst (CircuitBreaker.resetTimerFires options handle b w)))
    /\ (forall (b : CircuitBreaker.Breaker) (w : World S),
           timerDiscipline options b ->
           timerDiscipline options
             (snd (fst (CircuitBreaker.reset options b w)))).
Proof.
  intros S options. repeat apply conj.
  - reflexivity.
  - intros A fn b w Hinv. unfold CircuitBreaker.execute.
    destruct (CircuitBreaker.state b) eqn:Hstate.
    + destruct (fn w) as [[v|e] w1]; [exact Hinv|].
      now apply timerDiscipline_onFailure.
    + exact Hinv.
    + destruct (fn w) as [[v|e] w1];
        [|now apply timerDiscipline_onFailure].
      assert (Hclosed :
                timerDiscipline options
                  (CircuitBreaker.setFailures 0
                     (CircuitBreaker.setState CircuitBreaker.CLOSED b))).
      { unfold timerDiscipline in *. rewrite Hstate in Hinv. exact Hinv. }
      destruct (callIfSet _ w1) as [[u|cbError] w2]; [exact Hclosed|].
      now apply timerDiscipline_onFailure.
  - intros handle b w Hinv. unfold CircuitBreaker.resetTimerFires.
    destruct (isPending handle (CircuitBreaker.timers b)) eqn:Hpending;
      [|exact Hinv].
    unfold timerDiscipline in Hinv. cbn [CircuitBreaker.state].
    destruct (CircuitBreaker.state b) eqn:Hstate;
      try (unfold isPending in Hpending; rewrite Hinv in Hpending;
           discriminate).
    destruct Hinv as (h & Href & Hlist). cbn [fst].
    unfold timerDiscipline. cbn. unfold isPending in Hpending.
    rewrite Hlist in *. cbn in *. now destruct (h =? handle).
  - intros b w Hinv. unfold CircuitBreaker.reset.
    destruct (callIfSet _ w) as [r w1]. cbn [fst snd].
    unfold timerDiscipline in *.
    cbn [CircuitBreaker.resetTimer CircuitBreaker.setFailures
         CircuitBreaker.setState].
    destruct (CircuitBreaker.state b) eqn:Hstate.
    + destruct (CircuitBreaker.resetTimer b); cbn; now rewrite ?Hinv.
    + destruct Hinv as (h & Href & Hlist). rewrite Href. cbn.
      rewrite Hlist. cbn. now rewrite Nat.eqb_refl.
    + destruct (CircuitBreaker.resetTimer b); cbn; now rewrite ?Hinv.
Qed.

(** X11: a breaker that is open under the timer discipline has its
    reset timer pending, and when that timer fires the breaker is
    half-open, with no timer left and the failure count as it was. *)
Theorem open_breaker_half_opens :
  forall (S : Type) (options : CircuitBreaker.Options S)
         (b : CircuitBreaker.Breaker) (w : World S),
    timerDiscipline options b ->
    CircuitBreaker.getState b = CircuitBreaker.OPEN ->
    exists h,
      CircuitBreaker.resetTimer b = Some h
      /\ isPending h (CircuitBreaker.timers b) = true
      /\ CircuitBreaker.getState
           (fst (CircuitBreaker.resetTimerFires options h b w))
         = CircuitBreaker.HALF_OPEN
      /\ pending
           (CircuitBreaker.timers
              (fst (CircuitBreaker.resetTimerFires options h b w)))
         = []
      /\ CircuitBreaker.getFailureCount
           (fst (CircuitBreaker.resetTimerFires options h b w))
         = CircuitBreaker.getFailureCount b.
Proof.
  intros S options b w Hinv Hopen.
  unfold timerDiscipline in Hinv. unfold CircuitBreaker.getState in Hopen.
  rewrite Hopen in Hinv. destruct Hinv as (h & Href & Hlist).
  exists h. split; [exact Href|].
  assert (Hpending : isPending h (CircuitBreaker.timers b) = true).
  { unfold isPending. rewrite Hlist. cbn. now rewrite Nat.eqb_refl. }
  split; [exact Hpending|].
  unfold CircuitBreaker.resetTimerFires.
  rewrite Hpending. cbn [CircuitBreaker.state]. rewrite Hopen.
  cbn [fst]. repeat split.
  cbn. rewrite Hlist. cbn. now rewrite Nat.eqb_refl.
Qed.

Lemma open_breaker_half_opens_witness :
  exists h,
    CircuitBreaker.resetTimer (afterFailures 5) = Some h
    /\ isPending h (CircuitBreaker.timers (afterFailures 5)) = true
    /\ CircuitBreaker.getState
         (fst (CircuitBreaker.resetTimerFires noBreakerOptions h
                 (afterFailures 5) (freshWorld tt)))
       = CircuitBreaker.HALF_OPEN
    /\ pending
         (CircuitBreaker.timers
            (fst (CircuitBreaker.resetTimerFires noBreakerOptions h
                    (afterFailures 5) (freshWorld tt))))
       = []
    /\ CircuitBreaker.getFailureCount
         (fst (CircuitBreaker.resetTimerFires noBreakerOptions h
                 (afterFailures 5) (freshWorld tt)))
       = CircuitBreaker.getFailureCount (afterFailures 5).
Proof.
  apply (@open_breaker_half_opens unit noBreakerOptions (afterFailures 5)
           (freshWorld tt)).
  - unfold timerDiscipline. cbn. exists 1. split; reflexivity.
  - reflexivity.
Defined.

(** ** Circuit breaker: transitions on failure and reset *)

Lemma scheduleReset_facts {S : Type} (options : CircuitBreaker.Options S)
      (b : CircuitBreaker.Breaker) :
  CircuitBreaker.state (CircuitBreaker.scheduleReset options b)
  = CircuitBreaker.state b
  /\ CircuitBreaker.failures (CircuitBreaker.scheduleReset options b)
     = CircuitBreaker.failures b
  /\ CircuitBreaker.lastError (CircuitBreaker.scheduleReset options b)
     = CircuitBreaker.lastError b
  /\ CircuitBreaker.resetTimer (CircuitBreaker.scheduleReset options b)
     = Some (nextHandle (CircuitBreaker.timers b))
  /\ In (nextHandle (CircuitBreaker.timers b), CircuitBreaker.timeout options)
        (pending (CircuitBreaker.timers
                    (CircuitBreaker.scheduleReset options b))).
Proof.
  unfold CircuitBreaker.scheduleReset.
  destruct (CircuitBreaker.resetTimer b) as [h|]; cbn; repeat split;
    apply in_or_app; right; now left.
Qed.

Lemma openCircuit_breaker {S A : Type} (options : CircuitBreaker.Options S)
      (e : Thrown) (b : CircuitBreaker.Breaker) (w : World S) :
  snd (fst (CircuitBreaker.openCircuit (A := A) options e b w))
  = CircuitBreaker.scheduleReset options
      (CircuitBreaker.setState CircuitBreaker.OPEN b).
Proof.
  unfold CircuitBreaker.openCircuit.
  now destruct (callIfSet _ w) as [[u|cbError] w1].
Qed.

(** X12: a failure while the breaker is closed is recorded as the last
    error and adds one to the failure count. Below the threshold the
    breaker stays closed, schedules nothing and rejects with that
    failure; when the count reaches the threshold the breaker opens and
    schedules its reset timer with the delay [resetTimeout]. *)
Theorem execute_closed_failure :
  forall (S A : Type) (options : CircuitBreaker.Options S) (fn : Async S A)
         (b : CircuitBreaker.Breaker) (w w1 : World S) (e : Thrown),
    CircuitBreaker.getState b = CircuitBreaker.CLOSED ->
    fn w = (Throw e, w1) ->
    CircuitBreaker.getFailureCount
      (snd (fst (CircuitBreaker.execute options fn b w)))
    = Datatypes.S (CircuitBreaker.getFailureCount b)
    /\ CircuitBreaker.getLastError
         (snd (fst (CircuitBreaker.execute options fn b w)))
       = Some e
    /\ (Datatypes.S (CircuitBreaker.getFailureCount b)
        < CircuitBreaker.threshold options ->
        CircuitBreaker.execute options fn b w
        = (Throw e,
           CircuitBreaker.setFailures
             (Datatypes.S (CircuitBreaker.getFailureCount b))
             (CircuitBreaker.setLastError e b),
           w1))
    /\ (CircuitBreaker.threshold options
        <= Datatypes.S (CircuitBreaker.getFailureCount b) ->
        CircuitBreaker.getState
          (snd (fst (CircuitBreaker.execute options fn b w)))
        = CircuitBreaker.OPEN
        /\ CircuitBreaker.resetTimer
             (snd (fst (CircuitBreaker.execute options fn b w)))
           = Some (nextHandle (CircuitBreaker.timers b))
        /\ In (nextHandle (CircuitBreaker.timers b),
               CircuitBreaker.timeout options)
              (pending
                 (CircuitBreaker.timers
                    (snd (fst (CircuitBreaker.execute options fn b w)))))).
Proof.
  intros S A options fn b w w1 e Hclosed Hfn.
  unfold CircuitBreaker.getState, CircuitBreaker.getFailureCount,
    CircuitBreaker.getLastError in *.
  unfold CircuitBreaker.execute. rewrite Hclosed, Hfn.
  unfold CircuitBreaker.onFailure.
  cbn [CircuitBreaker.state CircuitBreaker.setLastError
       CircuitBreaker.failures CircuitBreaker.setFailures].
  rewrite Hclosed.
  destruct (Nat.leb_spec (CircuitBreaker.threshold options)
              (Datatypes.S (CircuitBreaker.failures b))) as [Hle|Hlt].
  - rewrite openCircuit_breaker.
    destruct (scheduleReset_facts options
                (CircuitBreaker.setState CircuitBreaker.OPEN
                   (CircuitBreaker.setFailures
                      (Datatypes.S (CircuitBreaker.failures b))
                      (CircuitBreaker.setLastError e b))))
      as (Hst & Hfail & Hlast & Href & Hin).
    rewrite Hfail, Hlast.
    split; [reflexivity|]. split; [reflexivity|]. split; [lia|].
    intros _. split; [exact Hst|]. split; [exact Href|exact Hin].
  - cbn [fst snd CircuitBreaker.failures CircuitBreaker.lastError
         CircuitBreaker.setFailures CircuitBreaker.setLastError].
    split; [reflexivity|]. split; [reflexivity|].
    split; [reflexivity|lia].
Qed.

Lemma execute_closed_failure_witness :
  CircuitBreaker.getFailureCount
    (snd (fst (CircuitBreaker.execute noBreakerOptions
                 (rejects (A := nat) "boom") (afterFailures 4)
                 (freshWorld tt))))
  = Datatypes.S (CircuitBreaker.getFailureCount (afterFailures 4))
  /\ CircuitBreaker.getState
       (snd (fst (CircuitBreaker.execute noBreakerOptions
                    (rejects (A := nat) "boom") (afterFailures 4)
                    (freshWorld tt))))
     = CircuitBreaker.OPEN.
Proof.
  destruct (@execute_closed_failure unit nat noBreakerOptions
              (rejects "boom") (afterFailures 4) (freshWorld tt)
              (freshWorld tt) (newError "boom") eq_refl eq_refl)
    as (Hcount & _ & _ & Hopen).
  split; [exact Hcount|].
  destruct Hopen as [Hstate _]; [|exact Hstate].
  unfold CircuitBreaker.threshold. cbn. lia.
Defined.

(** X13: a failure of the probe call while the breaker is half-open
    reopens the breaker and schedules a new reset timer; the failure is
    recorded as the last error and the failure count is left as it
    was. *)
Theorem execute_half_open_failure :
  forall (S A : Type) (options : CircuitBreaker.Options S) (fn : Async S A)
         (b : CircuitBreaker.Breaker) (w w1 : World S) (e : Thrown),
    CircuitBreaker.getState b = CircuitBreaker.HALF_OPEN ->
    fn w = (Throw e, w1) ->
    CircuitBreaker.getState
      (snd (fst (CircuitBreaker.execute options fn b w)))
    = CircuitBreaker.OPEN
    /\ CircuitBreaker.getFailureCount
         (snd (fst (CircuitBreaker.execute options fn b w)))
       = CircuitBreaker.getFailureCount b
    /\ CircuitBreaker.getLastError
         (snd (fst (CircuitBreaker.execute options fn b w)))
       = Some e
    /\ CircuitBreaker.resetTimer
         (snd (fst (CircuitBreaker.execute options fn b w)))
       = Some (nextHandle (CircuitBreaker.timers b))
    /\ In (nextHandle (CircuitBreaker.timers b),
           CircuitBreaker.timeout options)
          (pending
             (CircuitBreaker.timers
                (snd (fst (CircuitBreaker.execute options fn b w))))).
Proof.
  intros S A options fn b w w1 e Hhalf Hfn.
  unfold CircuitBreaker.getState, CircuitBreaker.getFailureCount,
    CircuitBreaker.getLastError in *.
  unfold CircuitBreaker.execute. rewrite Hhalf, Hfn.
  unfold CircuitBreaker.onFailure.
  cbn [CircuitBreaker.state CircuitBreaker.setLastError]. rewrite Hhalf.
  rewrite openCircuit_breaker.
  destruct (scheduleReset_facts options
              (CircuitBreaker.setState CircuitBreaker.OPEN
                 (CircuitBreaker.setLastError e b)))
    as (Hst & Hfail & Hlast & Href & Hin).
  rewrite Hst, Hfail, Hlast. repeat split; assumption.
Qed.

Lemma execute_half_open_failure_witness :
  CircuitBreaker.getState
    (snd (fst (CircuitBreaker.execute noBreakerOptions
                 (rejects (A := nat) "boom")
                 (fst (CircuitBreaker.resetTimerFires noBreakerOptions 1
                         (afterFailures 5) (freshWorld tt)))
                 (freshWorld tt))))
  = CircuitBreaker.OPEN
  /\ CircuitBreaker.getFailureCount
       (snd (fst (CircuitBreaker.execute noBreakerOptions
                    (rejects (A := nat) "boom")
                    (fst (CircuitBreaker.resetTimerFires noBreakerOptions 1
                            (afterFailures 5) (freshWorld tt)))
                    (freshWorld tt))))
     = 5.
Proof.
  destruct (@execute_half_open_failure unit nat noBreakerOptions
              (rejects "boom")
              (fst (CircuitBreaker.resetTimerFires noBreakerOptions 1
                      (afterFailures 5) (freshWorld tt)))
              (freshWorld tt) (freshWorld tt) (newError "boom")
              eq_refl eq_refl)
    as (Hstate & Hcount & _).
  split; [exact Hstate|exact Hcount].
Defined.

(** X14: [reset] closes the breaker whatever its state, sets the
    failure count to 0, forgets the reset timer and cancels it, so that
    it does not fire later; it keeps the last error. *)
Theorem reset_forces_closed :
  forall (S : Type) (options : CircuitBreaker.Options S)
         (b : CircuitBreaker.Breaker) (w : World S),
    CircuitBreaker.getState (snd (fst (CircuitBreaker.reset options b w)))
    = CircuitBreaker.CLOSED
    /\ CircuitBreaker.getFailureCount
         (snd (fst (CircuitBreaker.reset options b w)))
       = 0
    /\ CircuitBreaker.resetTimer
         (snd (fst (CircuitBreaker.reset options b w)))
       = None
    /\ CircuitBreaker.getLastError
         (snd (fst (CircuitBreaker.reset options b w)))
       = CircuitBreaker.getLastError b
    /\ (forall (h : nat) (w' : World S),
           CircuitBreaker.resetTimer b = Some h ->
           CircuitBreaker.resetTimerFires options h
             (snd (fst (CircuitBreaker.reset options b w))) w'
           = (snd (fst (CircuitBreaker.reset options b w)), w')).
Proof.
  intros S options b w. unfold CircuitBreaker.reset.
  destruct (callIfSet _ w) as [r w1]. cbn [fst snd].
  cbn [CircuitBreaker.resetTimer CircuitBreaker.setFailures
       CircuitBreaker.setState].
  destruct (CircuitBreaker.resetTimer b) as [h0|] eqn:Href;
    (split; [reflexivity|]); (split; [reflexivity|]);
    (split; [first [reflexivity|exact Href]|]); (split; [reflexivity|]);
    intros h w' Heq; [|discriminate].
  injection Heq as <-.
  unfold CircuitBreaker.resetTimerFires. cbn [CircuitBreaker.timers].
  now rewrite isPending_clearTimeout_same.
Qed.

(** X15: with a threshold of at least 1 the breaker keeps its count
    discipline through [execute], timer firings and [reset]: the
    failure count never exceeds the threshold, and it is below the
    threshold whenever the breaker is closed. *)
Theorem breaker_keeps_countDiscipline :
  forall (S : Type) (options : CircuitBreaker.Options S),
    1 <= CircuitBreaker.threshold options ->
    countDiscipline options CircuitBreaker.create
    /\ (forall (A : Type) (fn : Async S A) (b : CircuitBreaker.Breaker)
               (w : World S),
           countDiscipline options b ->
           countDiscipline options
             (snd (fst (CircuitBreaker.execute options fn b w))))
    /\ (forall (handle : nat) (b : CircuitBreaker.Breaker) (w : World S),
           countDiscipline options b ->
           countDiscipline options
             (fst (CircuitBreaker.resetTimerFires options handle b w)))
    /\ (forall (b : CircuitBreaker.Breaker) (w : World S),
           countDiscipline options b ->
           countDiscipline options
             (snd (fst (CircuitBreaker.reset options b w)))).
Proof.
  intros S options Hthreshold.
  assert (Hfailure :
            forall (A : Type) (e : Thrown) (b : CircuitBreaker.Breaker)
                   (w : World S),
              countDiscipline options b ->
              countDiscipline options
                (snd (fst (CircuitBreaker.onFailure (A := A) options e b w)))).
  { intros A e b w [Hle Hclosed]. unfold CircuitBreaker.onFailure.
    cbn [CircuitBreaker.state CircuitBreaker.setLastError].
    destruct (CircuitBreaker.state b) eqn:Hstate.
    - specialize (Hclosed eq_refl).
      cbn [CircuitBreaker.failures CircuitBreaker.setFailures
           CircuitBreaker.setLastError].
      destruct (Nat.leb_spec (CircuitBreaker.threshold options)
                  (Datatypes.S (CircuitBreaker.failures b))).
      + rewrite openCircuit_breaker.
        destruct (scheduleReset_facts options
                    (CircuitBreaker.setState CircuitBreaker.OPEN
                       (CircuitBreaker.setFailures
                          (Datatypes.S (CircuitBreaker.failures b))
                          (CircuitBreaker.setLastError e b))))
          as (Hst & Hfail & _).
        unfold countDiscipline. rewrite Hst, Hfail. cbn.
        split; [lia|discriminate].
      + cbn [fst snd]. unfold countDiscipline. cbn. rewrite Hstate.
        split; [lia|intros _; lia].
    - cbn [fst snd]. unfold countDiscipline. cbn. rewrite Hstate.
      split; [exact Hle|discriminate].
    - rewrite openCircuit_breaker.
      destruct (scheduleReset_facts options
                  (CircuitBreaker.setState CircuitBreaker.OPEN
                     (CircuitBreaker.setLastError e b)))
        as (Hst & Hfail & _).
      unfold countDiscipline. rewrite Hst, Hfail. cbn.
      split; [exact Hle|discriminate]. }
  repeat apply conj.
  - cbn. lia.
  - intros _. cbn. lia.
  - intros A fn b w Hinv. unfold CircuitBreaker.execute.
    destruct (CircuitBreaker.state b) eqn:Hstate.
    + destruct (fn w) as [[v|e] w1]; [exact Hinv|now apply Hfailure].
    + exact Hinv.
    + destruct (fn w) as [[v|e] w1]; [|now apply Hfailure].
      assert (Hzero :
                countDiscipline options
                  (CircuitBreaker.setFailures 0
                     (CircuitBreaker.setState CircuitBreaker.CLOSED b))).
      { unfold countDiscipline. cbn. split; [lia|intros _; lia]. }
      destruct (callIfSet _ w1) as [[u|cbError] w2]; [exact Hzero|].
      now apply Hfailure.
  - intros handle b w [Hle Hclosed]. unfold CircuitBreaker.resetTimerFires.
    destruct (isPending handle _); [|now split].
    cbn [CircuitBreaker.state].
    destruct (CircuitBreaker.state b) eqn:Hstate; cbn [fst];
      unfold countDiscipline; cbn; rewrite ?Hstate;
      (split; [exact Hle|try discriminate; try exact Hclosed]).
  - intros b w _. unfold CircuitBreaker.reset.
    destruct (callIfSet _ w) as [r w1]. cbn [fst snd].
    cbn [CircuitBreaker.resetTimer CircuitBreaker.setFailures
         CircuitBreaker.setState].
    destruct (CircuitBreaker.resetTimer b); unfold countDiscipline; cbn;
      (split; [lia|intros _; lia]).
Qed.

Lemma breaker_keeps_countDiscipline_witness :
  countDiscipline noBreakerOptions CircuitBreaker.create
  /\ countDiscipline noBreakerOptions (afterFailures 1).
Proof.
  destruct (@breaker_keeps_countDiscipline unit noBreakerOptions)
    as (Hcreate & Hexecute & _).
  - unfold CircuitBreaker.threshold. cbn. lia.
  - split; [exact Hcreate|].
    apply (Hexecute nat (rejects "boom") CircuitBreaker.create
             (freshWorld tt) Hcreate).
Defined.

(** ** Socket monitor *)

(** X16: [stop] on a running monitor cancels the reconnect timer it
    holds, and from then on a close event, clean or not, changes
    nothing and schedules nothing. *)
Theorem monitor_stop_ends_reconnection :
  forall (S : Type) (options : Monitor.Options S) (m : Monitor.Monitor),
    Monitor.isMonitoring m = true ->
    fst (Monitor.stop m) = Some true
    /\ Monitor.isMonitoring (snd (Monitor.stop m)) = false
    /\ Monitor.reconnectTimeout (snd (Monitor.stop m)) = None
    /\ (forall t : nat,
           Monitor.reconnectTimeout m = Some t ->
           isPending t (Monitor.timers (snd (Monitor.stop m))) = false)
    /\ (forall (wasClean : bool) (w : World S),
           Monitor.handleClose options wasClean (snd (Monitor.stop m)) w
           = (Ok tt, snd (Monitor.stop m), w)).
Proof.
  intros S options m Hmon. unfold Monitor.stop. rewrite Hmon. cbn [negb].
  destruct (Monitor.reconnectTimeout m) as [t0|] eqn:Href; cbn [fst snd].
  - repeat apply conj; try reflexivity.
    intros t Heq. injection Heq as <-. cbn [Monitor.timers].
    apply isPending_clearTimeout_same.
  - repeat apply conj; try reflexivity; try exact Href.
    intros t Heq. discriminate.
Qed.

Lemma monitor_stop_witness :
  fst (Monitor.stop (snd (Monitor.start (Monitor.create 0)))) = Some true
  /\ Monitor.isMonitoring
       (snd (Monitor.stop (snd (Monitor.start (Monitor.create 0))))) = false.
Proof.
  destruct (@monitor_stop_ends_reconnection unit noMonitorOptions
              (snd (Monitor.start (Monitor.create 0))) eq_refl)
    as (Hret & Hoff & _).
  split; [exact Hret|exact Hoff].
Defined.

(** X17: a running monitor that has used up its reconnections leaves
    its state alone on every close event, clean or not, schedules
    nothing and calls [onMaxReconnects]; and below the maximum a clean
    close does nothing at all. *)
Theorem monitor_close_without_reconnect :
  forall (S : Type) (options : Monitor.Options S) (m : Monitor.Monitor)
         (w : World S),
    Monitor.isMonitoring m = true ->
    (Monitor.maxReconnects' options <= Monitor.reconnectAttempts m ->
     forall wasClean : bool,
       Monitor.handleClose options wasClean m w
       = (fst (callIfSet (Monitor.onMaxReconnects options) w), m,
          snd (callIfSet (Monitor.onMaxReconnects options) w)))
    /\ (Monitor.reconnectAttempts m < Monitor.maxReconnects' options ->
        Monitor.handleClose options true m w = (Ok tt, m, w)).
Proof.
  intros S options m w Hmon. unfold Monitor.handleClose. rewrite Hmon.
  cbn [negb]. split.
  - intros Hmax wasClean.
    replace (Monitor.reconnectAttempts m <? Monitor.maxReconnects' options)
      with false by (symmetry; apply Nat.ltb_ge; exact Hmax).
    rewrite andb_false_r.
    replace (Monitor.maxReconnects' options <=? Monitor.reconnectAttempts m)
      with true by (symmetry; apply Nat.leb_le; exact Hmax).
    now destruct (callIfSet _ w).
  - intros Hlt. cbn [negb andb].
    replace (Monitor.maxReconnects' options <=? Monitor.reconnectAttempts m)
      with false by (symmetry; apply Nat.leb_gt; exact Hlt).
    reflexivity.
Qed.

Lemma monitor_close_without_reconnect_witness :
  Monitor.handleClose noMonitorOptions true
    (snd (Monitor.start (Monitor.create 0))) (freshWorld tt)
  = (Ok tt, snd (Monitor.start (Monitor.create 0)), freshWorld tt).
Proof.
  apply (proj2 (@monitor_close_without_reconnect unit noMonitorOptions
                  (snd (Monitor.start (Monitor.create 0))) (freshWorld tt)
                  eq_refl)).
  unfold Monitor.maxReconnects'. cbn. lia.
Defined.

(** X18: the monitor's counter is reset by [start] only: a close event
    never lowers it and never takes it past the maximum, and a
    reconnection, whether [createSocket] succeeds or throws, leaves it
    as it is. So between two calls of [start] at most [maxReconnects]
    reconnections are scheduled, however many of them succeed. *)
Theorem monitor_counter_only_grows :
  forall (S : Type) (options : Monitor.Options S) (m : Monitor.Monitor)
         (w : World S),
    (forall wasClean : bool,
        Monitor.reconnectAttempts m
        <= Monitor.reconnectAttempts
             (snd (fst (Monitor.handleClose options wasClean m w)))
        /\ Monitor.reconnectAttempts
             (snd (fst (Monitor.handleClose options wasClean m w)))
           <= Nat.max (Monitor.reconnectAttempts m)
                      (Monitor.maxReconnects' options))
    /\ (forall handle : nat,
           Monitor.reconnectAttempts
             (fst (Monitor.reconnectFires options handle m w))
           = Monitor.reconnectAttempts m)
    /\ (Monitor.isMonitoring m = false ->
        Monitor.reconnectAttempts (snd (Monitor.start m)) = 0).
Proof.
  intros S options m w. repeat apply conj.
  - intros wasClean. unfold Monitor.handleClose.
    destruct (negb (Monitor.isMonitoring m)); [cbn; lia|].
    destruct (negb wasClean); cbn [andb].
    + destruct (Nat.ltb_spec (Monitor.reconnectAttempts m)
                  (Monitor.maxReconnects' options)) as [Hlt|Hge].
      * destruct (callIfSet _ w) as [[u|cbError] w1]; cbn; lia.
      * destruct (_ <=? _); [destruct (callIfSet _ w)|]; cbn; lia.
    + destruct (_ <=? _); [destruct (callIfSet _ w)|]; cbn; lia.
  - intros handle. unfold Monitor.reconnectFires.
    destruct (isPending handle _); [|reflexivity].
    now destruct (Monitor.createSocket options w) as [[socket|e] w1].
  - intros Hoff. unfold Monitor.start. now rewrite Hoff.
Qed.

(** ** Session hook: connecting, counting and notifying *)

Lemma openOrConnecting_after_create (hasOnStatusChange : bool)
      (h : UsePlayAiWebSocket.Hook) :
  UsePlayAiWebSocket.openOrConnecting
    (UsePlayAiWebSocket.setSocket
       (Some (List.length (UsePlayAiWebSocket.sockets h)))
       (UsePlayAiWebSocket.sockets h ++ [WebSocket.CONNECTING])
       (UsePlayAiWebSocket.updateStatus hasOnStatusChange
          UsePlayAiWebSocket.connecting h))
  = true.
Proof.
  unfold UsePlayAiWebSocket.openOrConnecting.
  cbn [UsePlayAiWebSocket.socketRef UsePlayAiWebSocket.sockets
       UsePlayAiWebSocket.setSocket].
  unfold WebSocket.readyState.
  rewrite nth_error_app2 by lia. now rewrite Nat.sub_diag.
Qed.

(** X20: when the WebSocket constructor does not throw, a second
    [connect] right after a first one is a no-op: the channel that was
    just created is still connecting, so no second socket is created
    and nothing is notified again; one [connect] creates at most one
    socket. *)
Theorem connect_twice_is_connect_once :
  forall (hasOnError hasOnStatusChange : bool) (h : UsePlayAiWebSocket.Hook),
    UsePlayAiWebSocket.connect hasOnError hasOnStatusChange None
      (UsePlayAiWebSocket.connect hasOnError hasOnStatusChange None h)
    = UsePlayAiWebSocket.connect hasOnError hasOnStatusChange None h
    /\ List.length
         (UsePlayAiWebSocket.sockets
            (UsePlayAiWebSocket.connect hasOnError hasOnStatusChange None h))
       <= Datatypes.S (List.length (UsePlayAiWebSocket.sockets h)).
Proof.
  intros hasOnError hasOnStatusChange h.
  unfold UsePlayAiWebSocket.connect at 2 3 4.
  destruct (UsePlayAiWebSocket.openOrConnecting h) eqn:Hopen.
  - split; [|lia]. unfold UsePlayAiWebSocket.connect. now rewrite Hopen.
  - unfold WebSocket.create.
    cbn [UsePlayAiWebSocket.sockets UsePlayAiWebSocket.updateStatus].
    split.
    + unfold UsePlayAiWebSocket.connect.
      now rewrite openOrConnecting_after_create.
    + cbn [UsePlayAiWebSocket.sockets UsePlayAiWebSocket.setSocket].
      rewrite length_app. cbn. lia.
Qed.

Section HookInvariants.
Variables hasOnMessage hasOnError hasOnStatusChange : bool.
Variable constructorThrows : option Error.

Let step :=
  UsePlayAiWebSocket.step hasOnMessage hasOnError hasOnStatusChange
                          constructorThrows.

Lemma attempts_connect (h : UsePlayAiWebSocket.Hook) :
  UsePlayAiWebSocket.reconnectAttemptsRef
    (UsePlayAiWebSocket.connect hasOnError hasOnStatusChange
       constructorThrows h)
  = UsePlayAiWebSocket.reconnectAttemptsRef h.
Proof.
  unfold UsePlayAiWebSocket.connect.
  destruct (UsePlayAiWebSocket.openOrConnecting h); [reflexivity|].
  now destruct constructorThrows.
Qed.

Lemma attempts_step_bound (h : UsePlayAiWebSocket.Hook)
      (a : UsePlayAiWebSocket.Action) :
  UsePlayAiWebSocket.reconnectAttemptsRef h
  <= UsePlayAiWebSocket.MAX_RECONNECT_ATTEMPTS ->
  UsePlayAiWebSocket.reconnectAttemptsRef (step h a)
  <= UsePlayAiWebSocket.MAX_RECONNECT_ATTEMPTS.
Proof.
  intros Hle. destruct a as [| |m|k|k data|k|k wasClean|t];
    cbn [step UsePlayAiWebSocket.step].
  - now rewrite attempts_connect.
  - unfold UsePlayAiWebSocket.disconnect.
    destruct (UsePlayAiWebSocket.reconnectTimeoutRef h);
      cbn [UsePlayAiWebSocket.socketRef UsePlayAiWebSocket.setReconnect];
      destruct (UsePlayAiWebSocket.socketRef h); exact Hle.
  - unfold UsePlayAiWebSocket.sendMessage.
    destruct (negb _); [exact Hle|].
    destruct m as [s|[s|]]; destruct (UsePlayAiWebSocket.socketRef h);
      exact Hle.
  - destruct (WebSocket.readyState k _) as [[| | |]|]; try exact Hle.
    cbn. lia.
  - destruct (WebSocket.readyState k _) as [[| | |]|]; try exact Hle.
    destruct data; [destruct hasOnMessage|]; exact Hle.
  - destruct (WebSocket.readyState k _) as [[| | |]|]; exact Hle.
  - destruct (WebSocket.readyState k _) as [[| | |]|]; try exact Hle;
      unfold UsePlayAiWebSocket.onclose;
      cbn [UsePlayAiWebSocket.reconnectAttemptsRef
           UsePlayAiWebSocket.updateStatus UsePlayAiWebSocket.setSockets
           UsePlayAiWebSocket.setSocket UsePlayAiWebSocket.timers];
      (destruct (negb wasClean); cbn [andb];
       [destruct (Nat.ltb_spec
                    (UsePlayAiWebSocket.reconnectAttemptsRef h)
                    UsePlayAiWebSocket.MAX_RECONNECT_ATTEMPTS);
        [cbn; lia|]|];
       destruct (_ <=? _); exact Hle).
  - destruct (isPending t _); [|exact Hle]. now rewrite attempts_connect.
Qed.

Lemma status_connect (h : UsePlayAiWebSocket.Hook) :
  UsePlayAiWebSocket.status h
  = last (UsePlayAiWebSocket.statusChanges h)
         UsePlayAiWebSocket.disconnected ->
  hasOnStatusChange = true ->
  UsePlayAiWebSocket.status
    (UsePlayAiWebSocket.connect hasOnError hasOnStatusChange
       constructorThrows h)
  = last (UsePlayAiWebSocket.statusChanges
            (UsePlayAiWebSocket.connect hasOnError hasOnStatusChange
               constructorThrows h))
         UsePlayAiWebSocket.disconnected.
Proof.
  intros Hinv ->. unfold UsePlayAiWebSocket.connect.
  destruct (UsePlayAiWebSocket.openOrConnecting h); [exact Hinv|].
  destruct constructorThrows; cbn; now rewrite !last_last.
Qed.

Lemma status_step_notified (h : UsePlayAiWebSocket.Hook)
      (a : UsePlayAiWebSocket.Action) :
  hasOnStatusChange = true ->
  UsePlayAiWebSocket.status h
  = last (UsePlayAiWebSocket.statusChanges h)
         UsePlayAiWebSocket.disconnected ->
  UsePlayAiWebSocket.status (step h a)
  = last (UsePlayAiWebSocket.statusChanges (step h a))
         UsePlayAiWebSocket.disconnected.
Proof.
  intros Hcb Hinv. destruct a as [| |m|k|k data|k|k wasClean|t];
    cbn [step UsePlayAiWebSocket.step].
  - now apply status_connect.
  - subst hasOnStatusChange. unfold UsePlayAiWebSocket.disconnect.
    destruct (UsePlayAiWebSocket.reconnectTimeoutRef h);
      cbn [UsePlayAiWebSocket.socketRef UsePlayAiWebSocket.setReconnect];
      destruct (UsePlayAiWebSocket.socketRef h); cbn;
      rewrite ?last_last; auto.
  - subst hasOnStatusChange. unfold UsePlayAiWebSocket.sendMessage.
    destruct (negb _); [cbn; now rewrite last_last|].
    destruct m as [s|[s|]]; destruct (UsePlayAiWebSocket.socketRef h); cbn;
      rewrite ?last_last; auto.
  - subst hasOnStatusChange.
    destruct (WebSocket.readyState k _) as [[| | |]|]; try exact Hinv.
    cbn. now rewrite last_last.
  - subst hasOnStatusChange.
    destruct (WebSocket.readyState k _) as [[| | |]|]; try exact Hinv.
    destruct data; [destruct hasOnMessage|]; cbn; rewrite ?last_last; auto.
  - subst hasOnStatusChange.
    destruct (WebSocket.readyState k _) as [[| | |]|]; try exact Hinv;
      cbn; now rewrite last_last.
  - subst hasOnStatusChange.
    destruct (WebSocket.readyState k _) as [[| | |]|]; try exact Hinv;
      unfold UsePlayAiWebSocket.onclose;
      (destruct (negb wasClean && _);
       [|destruct (_ <=? _)]; cbn; now rewrite !last_last).
  - destruct (isPending t _); [|exact Hinv]. now apply status_connect.
Qed.
End HookInvariants.

(** X21: from the initial hook, whatever the caller and the page do,
    the attempts counter never exceeds [MAX_RECONNECT_ATTEMPTS]. *)
Theorem hook_attempts_never_exceed_max :
  forall (hasOnMessage hasOnError hasOnStatusChange : bool)
         (constructorThrows : option Error)
         (actions : list UsePlayAiWebSocket.Action),
    UsePlayAiWebSocket.reconnectAttemptsRef
      (UsePlayAiWebSocket.run hasOnMessage hasOnError hasOnStatusChange
         constructorThrows UsePlayAiWebSocket.initial actions)
    <= UsePlayAiWebSocket.MAX_RECONNECT_ATTEMPTS.
Proof.
  intros hasOnMessage hasOnError hasOnStatusChange constructorThrows actions.
  unfold UsePlayAiWebSocket.run.
  assert (Hinit :
            UsePlayAiWebSocket.reconnectAttemptsRef UsePlayAiWebSocket.initial
            <= UsePlayAiWebSocket.MAX_RECONNECT_ATTEMPTS)
    by (cbn; unfold UsePlayAiWebSocket.MAX_RECONNECT_ATTEMPTS; lia).
  revert Hinit. generalize UsePlayAiWebSocket.initial.
  induction actions as [|a actions IH]; intros h Hle; [exact Hle|].
  cbn [fold_left]. apply IH. now apply attempts_step_bound.
Qed.

(** X22: when [onStatusChange] is given, every change of the status is
    notified: from the initial hook, after any actions, the status is
    the last status that [onStatusChange] received (['disconnected']
    while it has received none). *)
Theorem hook_status_is_last_notified :
  forall (hasOnMessage hasOnError : bool) (constructorThrows : option Error)
         (actions : list UsePlayAiWebSocket.Action),
    UsePlayAiWebSocket.status
      (UsePlayAiWebSocket.run hasOnMessage hasOnError true
         constructorThrows UsePlayAiWebSocket.initial actions)
    = last (UsePlayAiWebSocket.statusChanges
              (UsePlayAiWebSocket.run hasOnMessage hasOnError true
                 constructorThrows UsePlayAiWebSocket.initial actions))
           UsePlayAiWebSocket.disconnected.
Proof.
  intros hasOnMessage hasOnError constructorThrows actions.
  unfold UsePlayAiWebSocket.run.
  assert (Hinit :
            UsePlayAiWebSocket.status UsePlayAiWebSocket.initial
            = last (UsePlayAiWebSocket.statusChanges
                      UsePlayAiWebSocket.initial)
                   UsePlayAiWebSocket.disconnected) by reflexivity.
  revert Hinit. generalize UsePlayAiWebSocket.initial.
  induction actions as [|a actions IH]; intros h Hinv; [exact Hinv|].
  cbn [fold_left]. apply IH. now apply status_step_notified.
Qed.

(** X23: once the attempts counter has reached the maximum, every close
    event, clean or not (also the one that follows [disconnect]), sets
    the status to ['error'] and reports 'Maximum reconnection attempts
    reached', schedules no timer and leaves the counter as it is; below
    the maximum a clean close sets the status to ['disconnected'] and
    schedules nothing. *)
Theorem onclose_without_reconnect :
  forall (hasOnError hasOnStatusChange : bool) (h : UsePlayAiWebSocket.Hook),
    (UsePlayAiWebSocket.MAX_RECONNECT_ATTEMPTS
     <= UsePlayAiWebSocket.reconnectAttemptsRef h ->
     forall wasClean : bool,
       UsePlayAiWebSocket.onclose hasOnError hasOnStatusChange wasClean h
       = UsePlayAiWebSocket.handleError hasOnError hasOnStatusChange
           (newError "Maximum reconnection attempts reached")
           (UsePlayAiWebSocket.updateStatus hasOnStatusChange
              UsePlayAiWebSocket.disconnected h)
       /\ UsePlayAiWebSocket.status
            (UsePlayAiWebSocket.onclose hasOnError hasOnStatusChange
               wasClean h)
          = UsePlayAiWebSocket.error
       /\ UsePlayAiWebSocket.timers
            (UsePlayAiWebSocket.onclose hasOnError hasOnStatusChange
               wasClean h)
          = UsePlayAiWebSocket.timers h
       /\ UsePlayAiWebSocket.reconnectAttemptsRef
            (UsePlayAiWebSocket.onclose hasOnError hasOnStatusChange
               wasClean h)
          = UsePlayAiWebSocket.reconnectAttemptsRef h)
    /\ (UsePlayAiWebSocket.reconnectAttemptsRef h
        < UsePlayAiWebSocket.MAX_RECONNECT_ATTEMPTS ->
        UsePlayAiWebSocket.onclose hasOnError hasOnStatusChange true h
        = UsePlayAiWebSocket.updateStatus hasOnStatusChange
            UsePlayAiWebSocket.disconnected h).
Proof.
  intros hasOnError hasOnStatusChange h. split.
  - intros Hmax wasClean.
    assert (Heq :
              UsePlayAiWebSocket.onclose hasOnError hasOnStatusChange
                wasClean h
              = UsePlayAiWebSocket.handleError hasOnError hasOnStatusChange
                  (newError "Maximum reconnection attempts reached")
                  (UsePlayAiWebSocket.updateStatus hasOnStatusChange
                     UsePlayAiWebSocket.disconnected h)).
    { unfold UsePlayAiWebSocket.onclose.
      cbn [UsePlayAiWebSocket.reconnectAttemptsRef
           UsePlayAiWebSocket.updateStatus].
      replace (UsePlayAiWebSocket.reconnectAttemptsRef h
               <? UsePlayAiWebSocket.MAX_RECONNECT_ATTEMPTS) with false
        by (symmetry; apply Nat.ltb_ge; exact Hmax).
      rewrite andb_false_r.
      replace (UsePlayAiWebSocket.MAX_RECONNECT_ATTEMPTS
               <=? UsePlayAiWebSocket.reconnectAttemptsRef h) with true
        by (symmetry; apply Nat.leb_le; exact Hmax).
      reflexivity. }
    rewrite Heq. repeat split.
  - intros Hlt. unfold UsePlayAiWebSocket.onclose.
    cbn [negb andb UsePlayAiWebSocket.reconnectAttemptsRef
         UsePlayAiWebSocket.updateStatus].
    replace (UsePlayAiWebSocket.MAX_RECONNECT_ATTEMPTS
             <=? UsePlayAiWebSocket.reconnectAttemptsRef h) with false
      by (symmetry; apply Nat.leb_gt; exact Hlt).
    reflexivity.
Qed.

Lemma onclose_without_reconnect_witness :
  UsePlayAiWebSocket.onclose true true true
    (UsePlayAiWebSocket.connect true true None UsePlayAiWebSocket.initial)
  = UsePlayAiWebSocket.updateStatus true UsePlayAiWebSocket.disconnected
      (UsePlayAiWebSocket.connect true true None UsePlayAiWebSocket.initial).
Proof.
  apply (proj2 (onclose_without_reconnect true true
                  (UsePlayAiWebSocket.connect true true None
                     UsePlayAiWebSocket.initial))).
  unfold UsePlayAiWebSocket.MAX_RECONNECT_ATTEMPTS. cbn. lia.
Defined.

(** X24: [sendMessage] returns [true] exactly when the channel is open
    and the message can be serialised; it then hands exactly one frame,
    the serialised message, to the socket in [socketRef] and changes
    nothing else; when it returns [false] nothing is handed to the
    socket. *)
Theorem sendMessage_sends_iff_open :
  forall (hasOnError hasOnStatusChange : bool) (message : Message)
         (h : UsePlayAiWebSocket.Hook),
    (fst (UsePlayAiWebSocket.sendMessage hasOnError hasOnStatusChange
            message h) = true
     <-> UsePlayAiWebSocket.channelOpen h = true
         /\ serialised message <> None)
    /\ (forall (k : nat) (s : string),
           UsePlayAiWebSocket.channelOpen h = true ->
           UsePlayAiWebSocket.socketRef h = Some k ->
           serialised message = Some s ->
           UsePlayAiWebSocket.sendMessage hasOnError hasOnStatusChange
             message h
           = (true,
              {| UsePlayAiWebSocket.status := UsePlayAiWebSocket.status h;
                 UsePlayAiWebSocket.lastError :=
                   UsePlayAiWebSocket.lastError h;
                 UsePlayAiWebSocket.socketRef :=
                   UsePlayAiWebSocket.socketRef h;
                 UsePlayAiWebSocket.reconnectTimeoutRef :=
                   UsePlayAiWebSocket.reconnectTimeoutRef h;
                 UsePlayAiWebSocket.reconnectAttemptsRef :=
                   UsePlayAiWebSocket.reconnectAttemptsRef h;
                 UsePlayAiWebSocket.sockets := UsePlayAiWebSocket.sockets h;
                 UsePlayAiWebSocket.timers := UsePlayAiWebSocket.timers h;
                 UsePlayAiWebSocket.sent :=
                   UsePlayAiWebSocket.sent h ++ [(k, s)];
                 UsePlayAiWebSocket.statusChanges :=
                   UsePlayAiWebSocket.statusChanges h;
                 UsePlayAiWebSocket.errors := UsePlayAiWebSocket.errors h;
                 UsePlayAiWebSocket.messages :=
                   UsePlayAiWebSocket.messages h |}))
    /\ (fst (UsePlayAiWebSocket.sendMessage hasOnError hasOnStatusChange
               message h) = false ->
        UsePlayAiWebSocket.sent
          (snd (UsePlayAiWebSocket.sendMessage hasOnError hasOnStatusChange
                  message h))
        = UsePlayAiWebSocket.sent h).
Proof.
  intros hasOnError hasOnStatusChange message h.
  unfold UsePlayAiWebSocket.sendMessage.
  destruct (UsePlayAiWebSocket.channelOpen h) eqn:Hopen; cbn [negb].
  - assert (Hsock : exists k, UsePlayAiWebSocket.socketRef h = Some k).
    { unfold UsePlayAiWebSocket.channelOpen in Hopen.
      destruct (UsePlayAiWebSocket.socketRef h) as [k|];
        [now exists k|discriminate]. }
    destruct Hsock as [k Hsock]. rewrite Hsock.
    destruct message as [s|[s|err]]; cbn [serialised fst snd].
    + split; [|split].
      * split; [intros _; split; [reflexivity|discriminate]|reflexivity].
      * intros k' s' _ Hk Hs. now injection Hk as <-; injection Hs as <-.
      * discriminate.
    + split; [|split].
      * split; [intros _; split; [reflexivity|discriminate]|reflexivity].
      * intros k' s' _ Hk Hs. now injection Hk as <-; injection Hs as <-.
      * discriminate.
    + split; [|split].
      * split; [discriminate|intros [_ Hne]; now contradiction Hne].
      * intros k' s' _ _ Hs. discriminate.
      * reflexivity.
  - cbn [fst snd]. split; [|split].
    + split; [discriminate|intros [Hc _]; discriminate].
    + intros k s Hc. discriminate.
    + reflexivity.
Qed.

Lemma sendMessage_sends_witness :
  UsePlayAiWebSocket.sent
    (snd (UsePlayAiWebSocket.sendMessage true true circular
            (UsePlayAiWebSocket.run true true true None
               UsePlayAiWebSocket.initial
               [UsePlayAiWebSocket.CallConnect;
                UsePlayAiWebSocket.SocketOpens 0])))
  = UsePlayAiWebSocket.sent
      (UsePlayAiWebSocket.run true true true None
         UsePlayAiWebSocket.initial
         [UsePlayAiWebSocket.CallConnect;
          UsePlayAiWebSocket.SocketOpens 0]).
Proof.
  apply (proj2 (proj2 (sendMessage_sends_iff_open true true circular
                         (UsePlayAiWebSocket.run true true true None
                            UsePlayAiWebSocket.initial
                            [UsePlayAiWebSocket.CallConnect;
                             UsePlayAiWebSocket.SocketOpens 0])))).
  reflexivity.
Defined.

(** ** Conversation controller: frames *)

(** X25: the conversation id travels from the server's
    ['conversation_started'] frame to the frames the controller sends:
    after such a frame, a [sendTextMessage] on an open channel hands
    the socket one [user_message] frame with the given text and the id
    of that frame, and returns [true]. *)
Theorem conversation_id_round_trip :
  forall (hasOnMessage hasOnTranscript hasOnAudioResponse hasOnError : bool)
         (s : ConversationEvents.Session) (data : ConversationEvents.Data)
         (text : string) (k : nat),
    ConversationEvents.type data = "conversation_started"%string ->
    Conversation.socket (ConversationEvents.conv s) = Some k ->
    Conversation.channelOpen (ConversationEvents.conv s) = true ->
    let c :=
      ConversationEvents.conv
        (ConversationEvents.onmessage hasOnMessage hasOnTranscript
           hasOnAudioResponse hasOnError (ConversationEvents.Parses data) s)
    in
    fst (Conversation.sendTextMessage hasOnError text c) = true
    /\ Conversation.sent (snd (Conversation.sendTextMessage hasOnError text c))
       = Conversation.sent (ConversationEvents.conv s)
           ++ [(k, text, ConversationEvents.conversation_id data)].
Proof.
  intros hasOnMessage hasOnTranscript hasOnAudioResponse hasOnError
         s data text k Htype Hsock Hopen.
  unfold ConversationEvents.onmessage. rewrite Htype.
  cbn [String.eqb Ascii.eqb Bool.eqb andb].
  unfold ConversationEvents.notifyMessage.
  unfold Conversation.channelOpen in Hopen. rewrite Hsock in Hopen.
  destruct hasOnMessage;
    cbn [ConversationEvents.conv ConversationEvents.withConv];
    unfold Conversation.sendTextMessage;
    cbn [Conversation.socket Conversation.sockets Conversation.sent
         Conversation.conversationId];
    rewrite Hsock, Hopen; split; reflexivity.
Qed.

Lemma conversation_id_round_trip_witness :
  fst (Conversation.sendTextMessage true "hello"
         (ConversationEvents.conv
            (ConversationEvents.onmessage true true true true
               (ConversationEvents.Parses
                  (ConversationEvents.mkData "conversation_started"
                     (Some "c-42"%string) None None))
               (ConversationEvents.onopen true
                  (ConversationEvents.withConv
                     {| Conversation.socket := Some 0;
                        Conversation.status := Conversation.connecting;
                        Conversation.recording := false;
                        Conversation.conversationId := None;
                        Conversation.sockets := [WebSocket.OPEN];
                        Conversation.sent := [];
                        Conversation.statusChanges :=
                          [Conversation.connecting];
                        Conversation.errors := [] |}
                     ConversationEvents.create)))))
  = true
  /\ Conversation.sent
       (snd (Conversation.sendTextMessage true "hello"
               (ConversationEvents.conv
                  (ConversationEvents.onmessage true true true true
                     (ConversationEvents.Parses
                        (ConversationEvents.mkData "conversation_started"
                           (Some "c-42"%string) None None))
                     (ConversationEvents.onopen true
                        (ConversationEvents.withConv
                           {| Conversation.socket := Some 0;
                              Conversation.status := Conversation.connecting;
                              Conversation.recording := false;
                              Conversation.conversationId := None;
                              Conversation.sockets := [WebSocket.OPEN];
                              Conversation.sent := [];
                              Conversation.statusChanges :=
                                [Conversation.connecting];
                              Conversation.errors := [] |}
                           ConversationEvents.create))))))
     = [] ++ [(0, "hello"%string, Some "c-42"%string)].
Proof.
  apply (@conversation_id_round_trip true true true true
           (ConversationEvents.onopen true
              (ConversationEvents.withConv
                 {| Conversation.socket := Some 0;
                    Conversation.status := Conversation.connecting;
                    Conversation.recording := false;
                    Conversation.conversationId := None;
                    Conversation.sockets := [WebSocket.OPEN];
                    Conversation.sent := [];
                    Conversation.statusChanges := [Conversation.connecting];
                    Conversation.errors := [] |}
                 ConversationEvents.create))
           (ConversationEvents.mkData "conversation_started"
              (Some "c-42"%string) None None)
           "hello"%string 0).
  - reflexivity.
  - reflexivity.
  - reflexivity.
Defined.

(** X26: with all callbacks given, every frame, parsed or not, reaches
    exactly one of [onMessage], [onTranscript] and [onError], once;
    [onAudioResponse] is called at most once, and only for an
    ['agent_response'] frame; the status and the channel are not
    touched, so a frame of type ['error'] does not end the session. *)
Theorem onmessage_delivers_once :
  forall (hasOnAudioResponse : bool) (parsed : ConversationEvents.Frame)
         (s : ConversationEvents.Session),
    let s' :=
      ConversationEvents.onmessage true true hasOnAudioResponse true
        parsed s in
    List.length (ConversationEvents.messages s')
    + List.length (ConversationEvents.transcripts s')
    + List.length (Conversation.errors (ConversationEvents.conv s'))
    = Datatypes.S
        (List.length (ConversationEvents.messages s)
         + List.length (ConversationEvents.transcripts s)
         + List.length (Conversation.errors (ConversationEvents.conv s)))
    /\ List.length (ConversationEvents.audioResponses s')
       <= Datatypes.S (List.length (ConversationEvents.audioResponses s))
    /\ (ConversationEvents.audioResponses s'
        <> ConversationEvents.audioResponses s ->
        exists data,
          parsed = ConversationEvents.Parses data
          /\ ConversationEvents.type data = "agent_response"%string)
    /\ Conversation.status (ConversationEvents.conv s')
       = Conversation.status (ConversationEvents.conv s)
    /\ Conversation.socket (ConversationEvents.conv s')
       = Conversation.socket (ConversationEvents.conv s)
    /\ Conversation.sockets (ConversationEvents.conv s')
       = Conversation.sockets (ConversationEvents.conv s).
Proof.
  intros hasOnAudioResponse parsed s. cbv zeta.
  unfold ConversationEvents.onmessage.
  destruct parsed as [data|err].
  - destruct (String.eqb (ConversationEvents.type data)
                         "conversation_started") eqn:H1.
    + cbn. rewrite length_app. cbn. repeat split; try lia.
      intros Hne. now contradiction Hne.
    + destruct (String.eqb (ConversationEvents.type data) "transcript")
        eqn:H2.
      * cbn. rewrite length_app. cbn. repeat split; try lia.
        intros Hne. now contradiction Hne.
      * destruct (String.eqb (ConversationEvents.type data)
                             "agent_response") eqn:H3.
        -- apply String.eqb_eq in H3.
           destruct (ConversationEvents.audioToPlay hasOnAudioResponse data);
             cbn; rewrite ?length_app; cbn; repeat split; try lia;
             intros _; now exists data.
        -- destruct (String.eqb (ConversationEvents.type data) "error").
           ++ cbn. rewrite length_app. cbn. repeat split; try lia.
              intros Hne. now contradiction Hne.
           ++ cbn. rewrite length_app. cbn. repeat split; try lia.
              intros Hne. now contradiction Hne.
  - cbn. rewrite length_app. cbn. repeat split; try lia.
    intros Hne. now contradiction Hne.
Qed.

(** ** Requests *)

(** [textToSpeech] and [streamTextToSpeech] reject a text that is
    empty or not a string before any request is made: the world is
    returned as it was, so [fetch] has not been called, and
    [streamTextToSpeech] reports the error to [onError] once. *)
Lemma textToSpeech_rejects_bad_text :
  forall (S J Audio : Type) (userId apiKey : string)
         (fetch : Api.Request -> Async S (Api.Response J Audio))
         (messageOf : J -> option string) (options : Api.TtsOptions)
         (hasOnAudioChunk hasOnComplete hasOnError : bool)
         (log : Api.StreamLog Audio) (w : World S),
    Api.badText (Api.ttsText options) = true ->
    Api.textToSpeech userId apiKey fetch messageOf options w
    = (Throw (newError "Text is required and must be a string"), w)
    /\ Api.streamTextToSpeech userId apiKey fetch hasOnAudioChunk
         hasOnComplete hasOnError options log w
       = (Throw (newError "Text is required and must be a string"),
          Api.logError hasOnError
            (newError "Text is required and must be a string") log,
          w).
Proof.
  intros S J Audio userId apiKey fetch messageOf options
         hasOnAudioChunk hasOnComplete hasOnError log w Hbad.
  unfold Api.textToSpeech, Api.streamTextToSpeech. now rewrite Hbad.
Qed.

Lemma textToSpeech_rejects_bad_text_witness :
  Api.textToSpeech "user" "key" serverUp snd
    {| Api.ttsText := Api.TextIs ""; Api.voiceId := None;
       Api.speed := None; Api.pitch := None; Api.format := None |}
    (freshWorld tt)
  = (Throw (newError "Text is required and must be a string"),
     freshWorld tt)
  /\ Api.streamTextToSpeech "user" "key" serverUp true true true
       {| Api.ttsText := Api.TextIs ""; Api.voiceId := None;
          Api.speed := None; Api.pitch := None; Api.format := None |}
       emptyLog (freshWorld tt)
     = (Throw (newError "Text is required and must be a string"),
        Api.logError true
          (newError "Text is required and must be a string") emptyLog,
        freshWorld tt).
Proof.
  apply textToSpeech_rejects_bad_text. reflexivity.
Defined.

(** X27: the failure [textToSpeech] raises for a response that is not
    ok carries a message and no status. So under [retryWithBackoff]
    with the default predicate, while online, a server that answers
    every request with an error status and a body without a message
    (a 503, say) is asked exactly once: the failure is classified as
    unknown and is not retried. *)
Theorem retry_textToSpeech_ignores_http_status :
  forall (S J Audio : Type) (userId apiKey : string)
         (fetch : Api.Request -> Async S (Api.Response J Audio))
         (messageOf : J -> option string) (options : Api.TtsOptions)
         (retryOptions : RetryOptions) (rnd : nat -> Q)
         (w w1 : World S) (response : Api.Response J Audio) (j : J),
    Api.badText (Api.ttsText options) = false ->
    shouldRetry retryOptions = None ->
    (forall request, fetch request w = (Ok response, w1)) ->
    Api.ok response = false ->
    Api.json response = Ok j ->
    messageOf j = None ->
    retryWithBackoff true rnd
      (Api.textToSpeech userId apiKey (fun request => counted (fetch request))
         messageOf options)
      retryOptions (setExt w (ext w, 0))
    = (Throw (newError "Failed to convert text to speech"),
       setExt w1 (ext w1, 1)).
Proof.
  intros S J Audio userId apiKey fetch messageOf options retryOptions rnd
         w w1 response j Htext Hdefault Hfetch Hok Hjson Hmsg.
  unfold retryWithBackoff, retryWithBackoffFuel. rewrite Hdefault.
  cbn [orDefault retryLoop]. unfold Api.textToSpeech at 1.
  rewrite Htext, counted_eq, Hfetch. cbn [fst snd]. rewrite Hok.
  cbn [negb]. unfold Api.failureOf. rewrite Hjson, Hmsg. cbn [Api.str_or].
  replace (defaultShouldRetry true
             (newError "Failed to convert text to speech"))
    with false by reflexivity.
  cbn [negb]. now rewrite orb_true_r.
Qed.

Lemma retry_textToSpeech_witness :
  retryWithBackoff true halves
    (Api.textToSpeech "user" "key" (fun request => counted (serverDown request))
       snd sayHello)
    threeRetries (setExt (freshWorld tt) (ext (freshWorld tt), 0))
  = (Throw (newError "Failed to convert text to speech"),
     setExt (freshWorld tt) (ext (freshWorld tt), 1)).
Proof.
  apply (@retry_textToSpeech_ignores_http_status
           unit (bool * option string) nat "user" "key" serverDown snd
           sayHello threeRetries halves (freshWorld tt) (freshWorld tt)
           {| Api.ok := false; Api.status := 503%Z;
              Api.json := Ok (false, None); Api.text := Ok ""%string;
              Api.chunks := [] |}
           (false, None)).
  - reflexivity.
  - reflexivity.
  - intros request. reflexivity.
  - reflexivity.
  - reflexivity.
  - reflexivity.
Defined.

Example initializePlayAi_requests :
  Api.initializePlayAi "user" "key" (logged serverUp) snd fst
                       (freshWorld (tt, []))
  = (Ok (true, (true, None)),
     freshWorld (tt, ["https://api.play.ai/v1/auth/validate";
                      "https://api.play.ai/v1/account"]%string))
  /\ Api.initializePlayAi "user" "key" (logged serverInvalid) snd fst
                          (freshWorld (tt, []))
     = (Throw (newError "Invalid Play.ai credentials"),
        freshWorld (tt, ["https://api.play.ai/v1/auth/validate"]%string)).
Proof. split; reflexivity. Qed.

Lemma getJson_logged_url {S J Audio : Type} (userId apiKey : string)
      (fetch : Api.Request -> Async S (Api.Response J Audio))
      (messageOf : J -> option string) (path fallback : string)
      (w : World (S * list string)) :
  snd (ext (snd (Api.getJson userId apiKey (logged fetch) messageOf
                   path fallback w)))
  = snd (ext w) ++ [(Api.PLAY_AI_BASE_URL ++ path)%string].
Proof.
  unfold Api.getJson, logged. cbn [Api.url].
  destruct (fetch _ _) as [[response|e] w1]; [|reflexivity].
  now destruct (negb (Api.ok response)).
Qed.

Lemma getJson_logged_ok {S J Audio : Type} (userId apiKey : string)
      (fetch : Api.Request -> Async S (Api.Response J Audio))
      (messageOf : J -> option string) (path fallback : string)
      (w : World (S * list string)) (response : Api.Response J Audio)
      (w1 : World S) :
  fetch {| Api.url := (Api.PLAY_AI_BASE_URL ++ path)%string;
           Api.method := "GET";
           Api.headers := Api.getAuthHeaders userId apiKey;
           Api.body := None |} (setExt w (fst (ext w)))
  = (Ok response, w1) ->
  Api.ok response = true ->
  Api.getJson userId apiKey (logged fetch) messageOf path fallback w
  = (Api.json response,
     setExt w1
       (ext w1, snd (ext w) ++ [(Api.PLAY_AI_BASE_URL ++ path)%string])).
Proof.
  intros Hfetch Hok. unfold Api.getJson, logged. cbn [Api.url].
  now rewrite Hfetch, Hok.
Qed.

(** X28: [initializePlayAi] first requests the validation of the
    credentials and requests the account only after that: it makes
    either the validation request alone or the validation request
    followed by the account request; it resolves only after both; and
    when the validation answers ok with a body whose [valid] is not
    [true], it rejects with 'Invalid Play.ai credentials' without
    requesting the account. *)
Theorem initializePlayAi_validates_first :
  forall (S J Audio : Type) (userId apiKey : string)
         (fetch : Api.Request -> Async S (Api.Response J Audio))
         (messageOf : J -> option string) (validIsTrue : J -> bool)
         (w : World (S * list string)),
    (snd (ext (snd (Api.initializePlayAi userId apiKey (logged fetch)
                      messageOf validIsTrue w)))
     = snd (ext w) ++ ["https://api.play.ai/v1/auth/validate"]%string
     \/ snd (ext (snd (Api.initializePlayAi userId apiKey (logged fetch)
                         messageOf validIsTrue w)))
        = snd (ext w) ++ ["https://api.play.ai/v1/auth/validate";
                          "https://api.play.ai/v1/account"]%string)
    /\ (forall v,
           fst (Api.initializePlayAi userId apiKey (logged fetch)
                  messageOf validIsTrue w) = Ok v ->
           fst v = true
           /\ snd (ext (snd (Api.initializePlayAi userId apiKey
                               (logged fetch) messageOf validIsTrue w)))
              = snd (ext w) ++ ["https://api.play.ai/v1/auth/validate";
                                "https://api.play.ai/v1/account"]%string)
    /\ (forall (response : Api.Response J Audio) (w1 : World S) (data : J),
           fetch {| Api.url := "https://api.play.ai/v1/auth/validate";
                    Api.method := "GET";
                    Api.headers := Api.getAuthHeaders userId apiKey;
                    Api.body := None |} (setExt w (fst (ext w)))
           = (Ok response, w1) ->
           Api.ok response = true ->
           Api.json response = Ok data ->
           validIsTrue data = false ->
           Api.initializePlayAi userId apiKey (logged fetch) messageOf
                                validIsTrue w
           = (Throw (newError "Invalid Play.ai credentials"),
              setExt w1
                (ext w1,
                 snd (ext w)
                   ++ ["https://api.play.ai/v1/auth/validate"]%string))).
Proof.
  intros S J Audio userId apiKey fetch messageOf validIsTrue w.
  unfold Api.initializePlayAi, Api.validateCredentials, Api.getAccountInfo.
  pose proof (getJson_logged_url userId apiKey fetch messageOf
                "/auth/validate" "Failed to validate Play.ai credentials" w)
    as Hurl1.
  change (Api.PLAY_AI_BASE_URL ++ "/auth/validate")%string
    with "https://api.play.ai/v1/auth/validate"%string in Hurl1.
  split; [|split].
  - destruct (Api.getJson _ _ _ _ "/auth/validate" _ w) as [[data|e] wA];
      cbn [snd] in Hurl1; [|left; exact Hurl1].
    destruct (validIsTrue data); cbn [negb]; [|left; exact Hurl1].
    pose proof (getJson_logged_url userId apiKey fetch messageOf
                  "/account" "Failed to get account information" wA)
      as Hurl2.
    destruct (Api.getJson _ _ _ _ "/account" _ wA) as [[info|e] wB];
      cbn [snd] in *; right; rewrite Hurl2, Hurl1, <- app_assoc;
      reflexivity.
  - intros v.
    destruct (Api.getJson _ _ _ _ "/auth/validate" _ w) as [[data|e] wA];
      cbn [snd] in Hurl1; [|discriminate].
    destruct (validIsTrue data); cbn [negb]; [|discriminate].
    pose proof (getJson_logged_url userId apiKey fetch messageOf
                  "/account" "Failed to get account information" wA)
      as Hurl2.
    destruct (Api.getJson _ _ _ _ "/account" _ wA) as [[info|e] wB];
      cbn [fst snd] in *; [|discriminate].
    intros Hv. injection Hv as <-. split; [reflexivity|].
    rewrite Hurl2, Hurl1, <- app_assoc. reflexivity.
  - intros response w1 data Hfetch Hok Hjson Hvalid.
    rewrite (getJson_logged_ok userId apiKey fetch messageOf
               "/auth/validate" "Failed to validate Play.ai credentials"
               w Hfetch Hok).
    rewrite Hjson, Hvalid. reflexivity.
Qed.

Example streamTextToSpeech_serverUp :
  Api.streamTextToSpeech "user" "key" serverUp true true true sayHello
                         emptyLog (freshWorld tt)
  = (Ok tt,
     {| Api.audioChunks := [11; 13]; Api.completions := 1;
        Api.streamErrors := [] |},
     freshWorld tt).
Proof. reflexivity. Qed.

(** X29: when the stream request is answered with a response that is
    not ok, [streamTextToSpeech] calls [onError] twice with the same
    error, once where the error is made and once more in the [catch]
    that the [throw] reaches, and then rejects with it; no audio is
    delivered and [onComplete] is not called. *)
Theorem streamTextToSpeech_reports_bad_response_twice :
  forall (S J Audio : Type) (userId apiKey : string)
         (fetch : Api.Request -> Async S (Api.Response J Audio))
         (hasOnAudioChunk hasOnComplete : bool) (options : Api.TtsOptions)
         (log : Api.StreamLog Audio) (w w1 : World S)
         (response : Api.Response J Audio) (errorText : string),
    Api.badText (Api.ttsText options) = false ->
    (forall request, fetch request w = (Ok response, w1)) ->
    Api.ok response = false ->
    Api.text response = Ok errorText ->
    Api.streamTextToSpeech userId apiKey fetch hasOnAudioChunk hasOnComplete
                           true options log w
    = (Throw (newError (Api.str_or (Some errorText)
                                   "Failed to stream text to speech")),
       {| Api.audioChunks := Api.audioChunks log;
          Api.completions := Api.completions log;
          Api.streamErrors :=
            Api.streamErrors log
              ++ [ErrorObject
                    (newError (Api.str_or (Some errorText)
                                          "Failed to stream text to speech"));
                  ErrorObject
                    (newError (Api.str_or (Some errorText)
                                          "Failed to stream text to speech"))]
       |},
       w1).
Proof.
  intros S J Audio userId apiKey fetch hasOnAudioChunk hasOnComplete options
         log w w1 response errorText Htext Hfetch Hok Hbody.
  unfold Api.streamTextToSpeech.
  rewrite Htext, Hfetch, Hok, Hbody. cbn [negb].
  unfold Api.logError.
  cbn [Api.audioChunks Api.completions Api.streamErrors].
  now rewrite <- app_assoc.
Qed.

Lemma streamTextToSpeech_bad_response_witness :
  Api.streamTextToSpeech "user" "key" serverDown true true true sayHello
                         emptyLog (freshWorld tt)
  = (Throw (newError (Api.str_or (Some ""%string)
                                 "Failed to stream text to speech")),
     {| Api.audioChunks := Api.audioChunks emptyLog;
        Api.completions := Api.completions emptyLog;
        Api.streamErrors :=
          Api.streamErrors emptyLog
            ++ [ErrorObject
                  (newError (Api.str_or (Some ""%string)
                                        "Failed to stream text to speech"));
                ErrorObject
                  (newError (Api.str_or (Some ""%string)
                                        "Failed to stream text to speech"))]
     |},
     freshWorld tt).
Proof.
  apply (@streamTextToSpeech_reports_bad_response_twice
           unit (bool * option string) nat "user" "key" serverDown
           true true sayHello emptyLog (freshWorld tt) (freshWorld tt)
           {| Api.ok := false; Api.status := 503%Z;
              Api.json := Ok (false, None); Api.text := Ok ""%string;
              Api.chunks := [] |}
           ""%string).
  - reflexivity.
  - intros request. reflexivity.
  - reflexivity.
  - reflexivity.
Defined.



